(** * NexoERP: sale lifecycle, stock reconciliation and sale totals

    A shallow embedding of the sale controller (vendaController) and the
    sale-line controller (itemVendaController) of the NexoERP API, together
    with the part of the Prisma client they rely on, and the properties of
    the sale lifecycle proved or refuted on it.

    The repository holds three revisions of vendaController.  The embedding
    follows the latest one (the controller that converts dates with
    [converterDataPtBrParaISO] and tests [produto.tipo] in its stock loops);
    the revision before it differs only in the date helpers and in literal
    details that do not change what is written; the earliest one, which has
    no kind test, is embedded for [updateStatus] in [VendaControllerAnterior].

    Conventions of the embedding.
    - A JavaScript number that the controllers read from a request body is an
      [option Z]: [None] stands for [undefined] (and, after [parseInt], for
      [NaN]).  Monetary amounts are integers of the smallest currency unit,
      so that the arithmetic of the controllers on them is exact.
    - The nullable column [estoque] is an [option Z]; [None] is SQL [NULL].
    - Statuses and kinds are the strings the code compares against.
    - Dates are opaque integers; a request carries its date already parsed.
    - Of the body of [update] of a sale only [data], [status] and
      [observacoes] are kept.
    - The database is a record of tables.  A handler is a function from the
      committed database to a response and the new committed database.
    - [prisma.$transaction(async (tx) => ...)] is modelled with two handles:
      queries on [tx] belong to the transaction, their writes stay pending
      until the callback returns and are dropped when it throws; queries on
      the module-level [prisma] client run outside of it, on the committed
      database. *)

From stdpp Require Import gmap strings list.
From Stdlib Require Import ZArith Lia.

Local Open Scope Z_scope.

(** ** Data model *)

Record Produto := mkProduto {
  p_nome : string;
  p_preco : Z;
  p_estoque : option Z;
  p_tipo : string;
  p_status : string
}.

Record Venda := mkVenda {
  v_clienteId : Z;
  v_usuarioId : Z;
  v_data : Z;
  v_status : string;
  v_total : Z;
  v_observacoes : option string
}.

Record ItemVenda := mkItemVenda {
  i_id : Z;
  i_vendaId : Z;
  i_produtoId : Z;
  i_quantidade : Z;
  i_precoUnit : Z
}.

Record Banco := mkBanco {
  produtos : gmap Z Produto;
  vendas : gmap Z Venda;
  itens : list ItemVenda;
  clientes : gset Z;
  usuarios : gset Z;
  proxVenda : Z;
  proxItem : Z
}.

(** ** Errors and responses *)

Inductive Campo := CVendaId | CProdutoId | CQuantidade | CPrecoUnit.

(** One entry of the [errors] array of [verificarExistenciaRegistros]. *)
Inductive ErroRegistro :=
| ClienteInexistente (id : Z)
| UsuarioInexistente (id : Z)
| ProdutoInexistente (id : Z)
| EstoqueInsuficienteProduto (nome : string) (disponivel solicitado : Z).

Inductive Erro :=
| DadosInvalidos (detalhes : list Campo)
| DadosObrigatorios
| VendaSemItens
| ItemInvalido (indice : nat) (campo : Campo)
| ErroDeValidacao (detalhes : list ErroRegistro)
| VendaNaoEncontrada
| VendaConcluida
| VendaCancelada
| ItemNaoEncontrado
| ProdutoNaoEncontrado
| ProdutoInativo
| EstoqueInsuficiente (disponivel : option Z) (solicitado : Z)
| StatusInvalido
| ErroPrisma (codigo : string)
| ErroDeTipo.

Inductive Resposta (A : Type) :=
| Sucesso (a : A)
| Falha (http : Z) (e : Erro).
Arguments Sucesso {A} a.
Arguments Falha {A} http e.

(** ** JavaScript coercions used by the controllers *)

(** Truthiness of a number read from the body: [undefined] and [0] are falsy. *)
Definition verdadeiro (x : option Z) : bool :=
  match x with
  | Some n => negb (n =? 0)
  | None => false
  end.

(** Truthiness of a string read from the body. *)
Definition verdadeira (s : option string) : bool :=
  match s with
  | Some t => negb (String.eqb t EmptyString)
  | None => false
  end.

(** [ToNumber(null) = 0], as in [produto.estoque < n] and [estoque || 0]. *)
Definition estoque_num (e : option Z) : Z := default 0 e.

(** ** Prisma queries on one database value *)

Definition itens_da_venda (db : Banco) (vendaId : Z) : list ItemVenda :=
  List.filter (fun i => i_vendaId i =? vendaId) (itens db).

Definition buscar_item (db : Banco) (id : Z) : option ItemVenda :=
  List.find (fun i => i_id i =? id) (itens db).

Definition com_estoque (p : Produto) (e : option Z) : Produto :=
  mkProduto (p_nome p) (p_preco p) e (p_tipo p) (p_status p).

(** [produto.update({ data: { estoque: { increment: d } } })]: SQL
    [estoque = estoque + d], which leaves [NULL] as it is. *)
Definition ajustar_estoque (id d : Z) (db : Banco) : Banco :=
  mkBanco (alter (fun p => com_estoque p ((fun e => e + d) <$> p_estoque p)) id (produtos db))
          (vendas db) (itens db) (clientes db) (usuarios db)
          (proxVenda db) (proxItem db).

Definition com_total (v : Venda) (t : Z) : Venda :=
  mkVenda (v_clienteId v) (v_usuarioId v) (v_data v) (v_status v) t (v_observacoes v).

Definition com_status (v : Venda) (s : string) : Venda :=
  mkVenda (v_clienteId v) (v_usuarioId v) (v_data v) s (v_total v) (v_observacoes v).

Definition alterar_venda (id : Z) (f : Venda -> Venda) (db : Banco) : Banco :=
  mkBanco (produtos db) (alter f id (vendas db)) (itens db) (clientes db)
          (usuarios db) (proxVenda db) (proxItem db).

(** [itemVenda.create]: the row gets the next auto-increment id. *)
Definition inserir_item (vendaId produtoId quantidade precoUnit : Z) (db : Banco) : Banco :=
  mkBanco (produtos db) (vendas db)
          (itens db ++ [mkItemVenda (proxItem db) vendaId produtoId quantidade precoUnit])
          (clientes db) (usuarios db) (proxVenda db) (proxItem db + 1).

(** [itemVenda.update({ where: { id }, data })] with the fields of [data]
    that are present. *)
Definition atualizar_campos (q pu pid : option Z) (i : ItemVenda) : ItemVenda :=
  mkItemVenda (i_id i) (i_vendaId i) (default (i_produtoId i) pid)
              (default (i_quantidade i) q) (default (i_precoUnit i) pu).

Definition atualizar_item (id : Z) (q pu pid : option Z) (db : Banco) : Banco :=
  mkBanco (produtos db) (vendas db)
          (List.map (fun i => if i_id i =? id then atualizar_campos q pu pid i else i) (itens db))
          (clientes db) (usuarios db) (proxVenda db) (proxItem db).

Definition remover_item (id : Z) (db : Banco) : Banco :=
  mkBanco (produtos db) (vendas db)
          (List.filter (fun i => negb (i_id i =? id)) (itens db))
          (clientes db) (usuarios db) (proxVenda db) (proxItem db).

(** [venda.delete]: the lines of the sale go with it (the foreign key of the
    line table is declared with cascade delete, as the comment at the call
    says: "os itens serao deletados em cascade"). *)
Definition remover_venda (id : Z) (db : Banco) : Banco :=
  mkBanco (produtos db) (delete id (vendas db))
          (List.filter (fun i => negb (i_vendaId i =? id)) (itens db))
          (clientes db) (usuarios db) (proxVenda db) (proxItem db).

(** ** Transactions

    Inside the callback of [prisma.$transaction] two clients are in reach.
    Only the queries issued on the argument [tx] take part in the interactive
    transaction; the module-level [prisma] client runs its queries on a
    connection of its own, where the uncommitted writes of the transaction
    are not visible.  [fora] is the committed database, the one the
    module-level client reads and writes.  [pend] is what the transaction has
    written so far through [tx], kept as a transformer that is replayed on
    the committed database when the transaction commits.  The transaction
    itself sees its own pending writes ([visao]). *)

Record Tx := mkTx {
  fora : Banco;
  pend : Banco -> Banco
}.

Definition visao (t : Tx) : Banco := pend t (fora t).

(** The callback: it may throw, and it threads the two stores. *)
Definition TxM (A : Type) : Type := Tx -> (Erro + A) * Tx.

Definition tx_ret {A} (a : A) : TxM A := fun t => (inr a, t).

Definition tx_bind {A B} (m : TxM A) (k : A -> TxM B) : TxM B :=
  fun t => match m t with
           | (inl e, t') => (inl e, t')
           | (inr a, t') => k a t'
           end.

Notation "x <- m ;; k" := (tx_bind m (fun x => k))
  (at level 100, m at next level, right associativity).
Notation "m ;;; k" := (tx_bind m (fun _ => k))
  (at level 100, right associativity).

Definition lancar {A} (e : Erro) : TxM A := fun t => (inl e, t).

Definition tx_ler {A} (q : Banco -> A) : TxM A :=
  fun t => (inr (q (visao t)), t).

Definition tx_escrever (w : Banco -> Banco) : TxM unit :=
  fun t => (inr tt, mkTx (fora t) (fun b => w (pend t b))).

Definition prisma_ler {A} (q : Banco -> A) : TxM A :=
  fun t => (inr (q (fora t)), t).

Definition prisma_escrever (w : Banco -> Banco) : TxM unit :=
  fun t => (inr tt, mkTx (w (fora t)) (pend t)).

(** [prisma.$transaction(callback)]: commit replays the pending writes, a
    throw drops them. *)
Definition transacao {A} (f : TxM A) (db : Banco) : (Erro + A) * Banco :=
  match f (mkTx db (fun b => b)) with
  | (inr a, t) => (inr a, visao t)
  | (inl e, t) => (inl e, fora t)
  end.

(** A [for (const x of xs) { await ... }] loop in the callback. *)
Fixpoint para_cada {A} (f : A -> TxM unit) (xs : list A) : TxM unit :=
  match xs with
  | [] => tx_ret tt
  | x :: r => f x ;;; para_cada f r
  end.

(** *** Queries on the transaction client *)

Definition tx_produto_update (id d : Z) : TxM unit :=
  p <- tx_ler (fun db => produtos db !! id) ;;
  match p with
  | None => lancar (ErroPrisma "P2025")
  | Some _ => tx_escrever (ajustar_estoque id d)
  end.

Definition tx_venda_update (id : Z) (f : Venda -> Venda) : TxM unit :=
  v <- tx_ler (fun db => vendas db !! id) ;;
  match v with
  | None => lancar (ErroPrisma "P2025")
  | Some _ => tx_escrever (alterar_venda id f)
  end.

Definition tx_venda_delete (id : Z) : TxM unit :=
  v <- tx_ler (fun db => vendas db !! id) ;;
  match v with
  | None => lancar (ErroPrisma "P2025")
  | Some _ => tx_escrever (remover_venda id)
  end.

Definition tx_itemVenda_create (vendaId produtoId : Z) (quantidade : option Z) (precoUnit : Z)
  : TxM ItemVenda :=
  match quantidade with
  | None => lancar (ErroPrisma "PrismaClientValidationError")
  | Some q =>
      db <- tx_ler (fun db => db) ;;
      match vendas db !! vendaId, produtos db !! produtoId with
      | Some _, Some _ =>
          tx_escrever (inserir_item vendaId produtoId q precoUnit) ;;;
          tx_ret (mkItemVenda (proxItem db) vendaId produtoId q precoUnit)
      | _, _ => lancar (ErroPrisma "P2003")
      end
  end.

Definition tx_itemVenda_update (id : Z) (q pu pid : option Z) : TxM ItemVenda :=
  db <- tx_ler (fun db => db) ;;
  match buscar_item db id with
  | None => lancar (ErroPrisma "P2025")
  | Some i =>
      let novo := atualizar_campos q pu pid i in
      match pid with
      | Some n =>
          match produtos db !! n with
          | None => lancar (ErroPrisma "P2003")
          | Some _ => tx_escrever (atualizar_item id q pu pid) ;;; tx_ret novo
          end
      | None => tx_escrever (atualizar_item id q pu pid) ;;; tx_ret novo
      end
  end.

Definition tx_itemVenda_delete (id : Z) : TxM unit :=
  i <- tx_ler (fun db => buscar_item db id) ;;
  match i with
  | None => lancar (ErroPrisma "P2025")
  | Some _ => tx_escrever (remover_item id)
  end.

(** *** Queries on the module-level client, when called from a callback *)

Definition prisma_venda_update (id : Z) (f : Venda -> Venda) : TxM unit :=
  v <- prisma_ler (fun db => vendas db !! id) ;;
  match v with
  | None => lancar (ErroPrisma "P2025")
  | Some _ => prisma_escrever (alterar_venda id f)
  end.

(** ** itemVendaController *)

Record CorpoItem := mkCorpoItem {
  ci_vendaId : option Z;
  ci_produtoId : option Z;
  ci_quantidade : option Z;
  ci_precoUnit : option Z
}.

Definition validarItemVenda (dados : CorpoItem) (isUpdate : bool) : list Campo :=
  (if isUpdate then []
   else (if verdadeiro (ci_vendaId dados) then [] else [CVendaId]) ++
        (if verdadeiro (ci_produtoId dados) then [] else [CProdutoId])) ++
  match ci_quantidade dados with
  | Some q => if q <=? 0 then [CQuantidade] else []
  | None => []
  end ++
  match ci_precoUnit dados with
  | Some p => if p <? 0 then [CPrecoUnit] else []
  | None => []
  end.

(** [quantidade] is what [parseInt] returns: [None] is [NaN], with which
    every comparison is false. *)
Definition verificarDisponibilidadeProduto (db : Banco) (produtoId : Z)
    (quantidade : option Z) (itemId : option Z) : Erro + (Produto * option Z) :=
  match produtos db !! produtoId with
  | None => inl ProdutoNaoEncontrado
  | Some produto =>
      if negb (String.eqb (p_status produto) "Ativo") then inl ProdutoInativo
      else
        let quantidadeNecessaria :=
          if verdadeiro itemId then
            match buscar_item db (default 0 itemId) with
            | Some itemAtual => (fun q => q - i_quantidade itemAtual) <$> quantidade
            | None => quantidade
            end
          else quantidade in
        match quantidadeNecessaria with
        | Some qn =>
            if estoque_num (p_estoque produto) <? qn
            then inl (EstoqueInsuficiente (p_estoque produto) qn)
            else inr (produto, quantidadeNecessaria)
        | None => inr (produto, quantidadeNecessaria)
        end
  end.

Definition verificarVendaModificavel (db : Banco) (vendaId : Z) : Erro + Venda :=
  match vendas db !! vendaId with
  | None => inl VendaNaoEncontrada
  | Some venda =>
      if String.eqb (v_status venda) "Concluida" then inl VendaConcluida
      else if String.eqb (v_status venda) "Cancelada" then inl VendaCancelada
      else inr venda
  end.

Definition calcularTotalItem (quantidade precoUnit : Z) : Z := quantidade * precoUnit.

(** The total of the lines, as the reducer of [atualizarTotalVenda] adds them. *)
Definition somar_itens (l : list ItemVenda) : Z :=
  fold_left (fun total item => total + i_quantidade item * i_precoUnit item) l 0.

(** Both queries go to the module-level [prisma] client, also when the
    function is called from the callback of a transaction. *)
Definition atualizarTotalVenda (vendaId : Z) : TxM Z :=
  itens <- prisma_ler (fun db => itens_da_venda db vendaId) ;;
  let totalVenda := somar_itens itens in
  prisma_venda_update vendaId (fun v => com_total v totalVenda) ;;;
  tx_ret totalVenda.

Module ItemVendaController.

Definition create (corpo : CorpoItem) (db : Banco) : Resposta ItemVenda * Banco :=
  match validarItemVenda corpo false, ci_vendaId corpo, ci_produtoId corpo with
  | [], Some vendaId, Some produtoId =>
      match verificarVendaModificavel db vendaId with
      | inl e => (Falha 400 e, db)
      | inr _ =>
          match verificarDisponibilidadeProduto db produtoId (ci_quantidade corpo) None with
          | inl e => (Falha 400 e, db)
          | inr (produto, _) =>
              let precoFinal :=
                if verdadeiro (ci_precoUnit corpo)
                then default 0 (ci_precoUnit corpo) else p_preco produto in
              match transacao
                      (novoItem <- tx_itemVenda_create vendaId produtoId
                                     (ci_quantidade corpo) precoFinal ;;
                       atualizarTotalVenda vendaId ;;;
                       tx_ret novoItem) db with
              | (inr item, db') => (Sucesso item, db')
              | (inl e, db') => (Falha 400 e, db')
              end
          end
      end
  | errors, _, _ => (Falha 400 (DadosInvalidos errors), db)
  end.

Definition se_verdadeiro (x : option Z) : option Z :=
  if verdadeiro x then x else None.

Definition update (id : Z) (corpo : CorpoItem) (db : Banco) : Resposta ItemVenda * Banco :=
  match validarItemVenda corpo true with
  | _ :: _ as errors => (Falha 400 (DadosInvalidos errors), db)
  | [] =>
      match buscar_item db id with
      | None => (Falha 404 ItemNaoEncontrado, db)
      | Some itemAtual =>
          match verificarVendaModificavel db (i_vendaId itemAtual) with
          | inl e => (Falha 400 e, db)
          | inr _ =>
              let disponibilidade :=
                if verdadeiro (ci_produtoId corpo) || verdadeiro (ci_quantidade corpo) then
                  let produtoAlvo :=
                    if verdadeiro (ci_produtoId corpo)
                    then default 0 (ci_produtoId corpo) else i_produtoId itemAtual in
                  let quantidadeAlvo :=
                    if verdadeiro (ci_quantidade corpo)
                    then default 0 (ci_quantidade corpo) else i_quantidade itemAtual in
                  match verificarDisponibilidadeProduto db produtoAlvo
                          (Some quantidadeAlvo) (Some id) with
                  | inl e => Some e
                  | inr _ => None
                  end
                else None in
              match disponibilidade with
              | Some e => (Falha 400 e, db)
              | None =>
                  match transacao
                          (itemAtualizado <- tx_itemVenda_update id
                                               (se_verdadeiro (ci_quantidade corpo))
                                               (se_verdadeiro (ci_precoUnit corpo))
                                               (se_verdadeiro (ci_produtoId corpo)) ;;
                           atualizarTotalVenda (i_vendaId itemAtualizado) ;;;
                           tx_ret itemAtualizado) db with
                  | (inr item, db') => (Sucesso item, db')
                  | (inl (ErroPrisma "P2025"), db') => (Falha 404 ItemNaoEncontrado, db')
                  | (inl e, db') => (Falha 400 e, db')
                  end
              end
          end
      end
  end.

Definition remove (id : Z) (db : Banco) : Resposta Z * Banco :=
  match buscar_item db id with
  | None => (Falha 404 ItemNaoEncontrado, db)
  | Some item =>
      match verificarVendaModificavel db (i_vendaId item) with
      | inl e => (Falha 400 e, db)
      | inr _ =>
          match transacao
                  (tx_itemVenda_delete id ;;;
                   atualizarTotalVenda (i_vendaId item) ;;;
                   tx_ret (i_vendaId item)) db with
          | (inr vendaId, db') => (Sucesso vendaId, db')
          | (inl (ErroPrisma "P2025"), db') => (Falha 404 ItemNaoEncontrado, db')
          | (inl e, db') => (Falha 400 e, db')
          end
      end
  end.

End ItemVendaController.

(** ** vendaController *)

Record ItemCorpo := mkItemCorpo {
  it_produtoId : option Z;
  it_quantidade : option Z;
  it_precoUnit : option Z
}.

Record CorpoVenda := mkCorpoVenda {
  cv_clienteId : option Z;
  cv_usuarioId : option Z;
  cv_data : option Z;
  cv_status : option string;
  cv_itens : list ItemCorpo;
  cv_total : option Z;
  cv_observacoes : option string
}.

Record CorpoAtualizacao := mkCorpoAtualizacao {
  ca_data : option Z;
  ca_status : option string;
  ca_observacoes : option string
}.

(** [['Concluida', 'Pendente', 'Cancelada'].includes(status)] *)
Definition status_valido (s : string) : bool :=
  String.eqb s "Concluida" || String.eqb s "Pendente" || String.eqb s "Cancelada".

(** The loop "Validar cada item" of [create]: the first offending field of
    the first offending item is reported, with the item counted from 1. *)
Fixpoint validar_itens (index : nat) (itens : list ItemCorpo) : option Erro :=
  match itens with
  | [] => None
  | item :: resto =>
      if negb (verdadeiro (it_produtoId item))
      then Some (ItemInvalido (index + 1) CProdutoId)
      else if negb (verdadeiro (it_quantidade item)) || (default 0 (it_quantidade item) <=? 0)
      then Some (ItemInvalido (index + 1) CQuantidade)
      else if negb (verdadeiro (it_precoUnit item)) || (default 0 (it_precoUnit item) <? 0)
      then Some (ItemInvalido (index + 1) CPrecoUnit)
      else validar_itens (S index) resto
  end.

Definition verificar_produto (db : Banco) (item : ItemCorpo) : list ErroRegistro :=
  let produtoId := default 0 (it_produtoId item) in
  let quantidade := default 0 (it_quantidade item) in
  match produtos db !! produtoId with
  | None => [ProdutoInexistente produtoId]
  | Some produto =>
      if String.eqb (p_tipo produto) "Produto" && (estoque_num (p_estoque produto) <? quantidade)
      then [EstoqueInsuficienteProduto (p_nome produto) (estoque_num (p_estoque produto)) quantidade]
      else []
  end.

Definition verificarExistenciaRegistros (db : Banco) (clienteId usuarioId : Z)
    (itens : list ItemCorpo) : list ErroRegistro :=
  (if bool_decide (clienteId ∈ clientes db) then [] else [ClienteInexistente clienteId]) ++
  (if bool_decide (usuarioId ∈ usuarios db) then [] else [UsuarioInexistente usuarioId]) ++
  flat_map (verificar_produto db) itens.

(** The lines of a request once [parseInt] and [parseFloat] went over them. *)
Definition linha_de (item : ItemCorpo) : Z * Z * Z :=
  (default 0 (it_produtoId item), default 0 (it_quantidade item), default 0 (it_precoUnit item)).

(** [venda.create] with the nested [itens: { create: [...] }]. *)
Definition inserir_venda (v : Venda) (linhas : list (Z * Z * Z)) (db : Banco) : Banco :=
  let id := proxVenda db in
  fold_left (fun d '(produtoId, quantidade, precoUnit) =>
               inserir_item id produtoId quantidade precoUnit d)
            linhas
            (mkBanco (produtos db) (<[id := v]> (vendas db)) (itens db) (clientes db)
                     (usuarios db) (proxVenda db + 1) (proxItem db)).

Definition tx_venda_create (v : Venda) (linhas : list (Z * Z * Z)) : TxM Z :=
  db <- tx_ler (fun db => db) ;;
  if bool_decide (v_clienteId v ∈ clientes db) && bool_decide (v_usuarioId v ∈ usuarios db)
     && forallb (fun '(produtoId, _, _) => bool_decide (is_Some (produtos db !! produtoId))) linhas
  then tx_escrever (inserir_venda v linhas) ;;; tx_ret (proxVenda db)
  else lancar (ErroPrisma "P2003").

(** [include: { itens: { include: { produto: ... } } }] *)
Definition itens_com_produto (db : Banco) (vendaId : Z) : list (ItemVenda * option Produto) :=
  List.map (fun i => (i, produtos db !! i_produtoId i)) (itens_da_venda db vendaId).

(** The two stock loops of the status handling: [sinal] is [-1] for
    [decrement] and [1] for [increment]. *)
Definition ajustar_estoque_dos_itens (sinal : Z) (l : list (ItemVenda * option Produto))
  : TxM unit :=
  para_cada (fun '(item, produto) =>
               match produto with
               | None => lancar ErroDeTipo
               | Some p =>
                   if String.eqb (p_tipo p) "Produto"
                   then tx_produto_update (i_produtoId item) (sinal * i_quantidade item)
                   else tx_ret tt
               end) l.

(** "Gerenciar estoque baseado na mudanca de status": the block shared by
    [update] and [updateStatus].  [status] is the field of the body, which
    [update] may receive [undefined]. *)
Definition gerenciar_estoque (statusAtual : string) (status : option string)
    (l : list (ItemVenda * option Produto)) : TxM unit :=
  if negb (bool_decide (Some statusAtual = status)) then
    if bool_decide (status = Some "Concluida") then ajustar_estoque_dos_itens (-1) l
    else if String.eqb statusAtual "Concluida" && negb (bool_decide (status = Some "Concluida"))
    then ajustar_estoque_dos_itens 1 l
    else tx_ret tt
  else tx_ret tt.

(** The body of the loop "Atualizar estoque se a venda for Concluida" of
    [create]: only a Product-kind entry whose stock is not [null] is
    decremented. *)
Definition baixar_estoque (item : ItemCorpo) : TxM unit :=
  produto <- tx_ler (fun db => produtos db !! default 0 (it_produtoId item)) ;;
  match produto with
  | Some p =>
      if String.eqb (p_tipo p) "Produto" && bool_decide (is_Some (p_estoque p))
      then tx_produto_update (default 0 (it_produtoId item)) (- default 0 (it_quantidade item))
      else tx_ret tt
  | None => tx_ret tt
  end.

Module VendaController.

Definition create (agora : Z) (corpo : CorpoVenda) (db : Banco) : Resposta Z * Banco :=
  match cv_clienteId corpo, cv_usuarioId corpo with
  | Some clienteId, Some usuarioId =>
      if negb (verdadeiro (cv_clienteId corpo)) || negb (verdadeiro (cv_usuarioId corpo))
      then (Falha 400 DadosObrigatorios, db)
      else
        let itens := cv_itens corpo in
        match itens with
        | [] => (Falha 400 VendaSemItens, db)
        | _ :: _ =>
            match validar_itens 0 itens with
            | Some e => (Falha 400 e, db)
            | None =>
                match verificarExistenciaRegistros db clienteId usuarioId itens with
                | _ :: _ as errors => (Falha 400 (ErroDeValidacao errors), db)
                | [] =>
                    let dataFormatada := default agora (cv_data corpo) in
                    let totalCalculado :=
                      if negb (verdadeiro (cv_total corpo))
                      then fold_left
                             (fun sum item =>
                                sum + default 0 (it_quantidade item) * default 0 (it_precoUnit item))
                             itens 0
                      else default 0 (cv_total corpo) in
                    let status :=
                      if verdadeira (cv_status corpo)
                      then default EmptyString (cv_status corpo) else "Pendente" in
                    let observacoes :=
                      if verdadeira (cv_observacoes corpo) then cv_observacoes corpo else None in
                    match transacao
                            (novaVenda <- tx_venda_create
                                            (mkVenda clienteId usuarioId dataFormatada status
                                                     totalCalculado observacoes)
                                            (List.map linha_de itens) ;;
                             (if String.eqb status "Concluida"
                              then para_cada baixar_estoque itens
                              else tx_ret tt) ;;;
                             tx_ret novaVenda) db with
                    | (inr id, db') => (Sucesso id, db')
                    | (inl e, db') => (Falha 400 e, db')
                    end
                end
            end
        end
  | _, _ => (Falha 400 DadosObrigatorios, db)
  end.

Definition dadosAtualizacao (corpo : CorpoAtualizacao) (v : Venda) : Venda :=
  mkVenda (v_clienteId v) (v_usuarioId v)
          (default (v_data v) (ca_data corpo))
          (if verdadeira (ca_status corpo) then default EmptyString (ca_status corpo) else v_status v)
          (v_total v)
          (match ca_observacoes corpo with
           | Some o => Some o
           | None => v_observacoes v
           end).

Definition update (id : Z) (corpo : CorpoAtualizacao) (db : Banco) : Resposta Z * Banco :=
  if verdadeira (ca_status corpo) && negb (status_valido (default EmptyString (ca_status corpo)))
  then (Falha 400 StatusInvalido, db)
  else
    match vendas db !! id with
    | None => (Falha 404 VendaNaoEncontrada, db)
    | Some vendaAtual =>
        let itensAtuais := itens_com_produto db id in
        match transacao
                (tx_venda_update id (dadosAtualizacao corpo) ;;;
                 gerenciar_estoque (v_status vendaAtual) (ca_status corpo) itensAtuais ;;;
                 tx_ret id) db with
        | (inr r, db') => (Sucesso r, db')
        | (inl e, db') => (Falha 400 e, db')
        end
    end.

Definition remove (id : Z) (db : Banco) : Resposta Z * Banco :=
  match vendas db !! id with
  | None => (Falha 404 VendaNaoEncontrada, db)
  | Some venda =>
      let itensDaVenda := itens_com_produto db id in
      match transacao
              ((if String.eqb (v_status venda) "Concluida"
                then ajustar_estoque_dos_itens 1 itensDaVenda
                else tx_ret tt) ;;;
               tx_venda_delete id ;;;
               tx_ret id) db with
      | (inr r, db') => (Sucesso r, db')
      | (inl e, db') => (Falha 400 e, db')
      end
  end.

Definition updateStatus (id : Z) (status : option string) (db : Banco) : Resposta Z * Banco :=
  if negb (verdadeira status) || negb (status_valido (default EmptyString status))
  then (Falha 400 StatusInvalido, db)
  else
    match transacao
            (vendaAtual <- tx_ler (fun db => (vendas db !! id, itens_com_produto db id)) ;;
             match vendaAtual with
             | (None, _) => lancar VendaNaoEncontrada
             | (Some v, itensAtuais) =>
                 gerenciar_estoque (v_status v) status itensAtuais ;;;
                 tx_venda_update id (fun v => com_status v (default EmptyString status)) ;;;
                 tx_ret id
             end) db with
    | (inr r, db') => (Sucesso r, db')
    | (inl e, db') => (Falha 400 e, db')
    end.

End VendaController.

(** ** vendaController, earlier revision

    The repository also holds an earlier revision of the sale controller,
    whose stock loops do not look at the kind of the product: [include] is
    [{ itens: true }] and every line is adjusted. *)

Definition ajustar_estoque_de_todos (sinal : Z) (l : list ItemVenda) : TxM unit :=
  para_cada (fun item => tx_produto_update (i_produtoId item) (sinal * i_quantidade item)) l.

Definition gerenciar_estoque_de_todos (statusAtual : string) (status : option string)
    (l : list ItemVenda) : TxM unit :=
  if negb (bool_decide (Some statusAtual = status)) then
    if bool_decide (status = Some "Concluida") then ajustar_estoque_de_todos (-1) l
    else if String.eqb statusAtual "Concluida" && negb (bool_decide (status = Some "Concluida"))
    then ajustar_estoque_de_todos 1 l
    else tx_ret tt
  else tx_ret tt.

Module VendaControllerAnterior.

Definition updateStatus (id : Z) (status : option string) (db : Banco) : Resposta Z * Banco :=
  if negb (verdadeira status) || negb (status_valido (default EmptyString status))
  then (Falha 400 StatusInvalido, db)
  else
    match transacao
            (vendaAtual <- tx_ler (fun db => (vendas db !! id, itens_da_venda db id)) ;;
             match vendaAtual with
             | (None, _) => lancar VendaNaoEncontrada
             | (Some v, itensAtuais) =>
                 gerenciar_estoque_de_todos (v_status v) status itensAtuais ;;;
                 tx_venda_update id (fun v => com_status v (default EmptyString status)) ;;;
                 tx_ret id
             end) db with
    | (inr r, db') => (Sucesso r, db')
    | (inl e, db') => (Falha 400 e, db')
    end.

End VendaControllerAnterior.

(** ** itemVendaController: queries *)

(** [orderBy: { id: 'asc' }] on the rows of the line table. *)
Fixpoint inserir_por_id (i : ItemVenda) (l : list ItemVenda) : list ItemVenda :=
  match l with
  | [] => [i]
  | j :: r => if i_id i <=? i_id j then i :: l else j :: inserir_por_id i r
  end.

Definition ordenar_por_id (l : list ItemVenda) : list ItemVenda :=
  fold_right inserir_por_id [] l.

(** A line as the queries answer it: [{ ...item, total }], with the included
    catalog entry. *)
Record ItemComTotal := mkItemComTotal {
  ict_item : ItemVenda;
  ict_produto : option Produto;
  ict_total : Z
}.

Record ItensDaVenda := mkItensDaVenda {
  idv_vendaId : Z;
  idv_itens : list ItemComTotal;
  idv_quantidadeItens : Z;
  idv_valorTotal : Z
}.

Definition comTotal (db : Banco) (item : ItemVenda) : ItemComTotal :=
  mkItemComTotal item (produtos db !! i_produtoId item)
                 (calcularTotalItem (i_quantidade item) (i_precoUnit item)).

Record Paginacao := mkPaginacao {
  pg_page : Z;
  pg_limit : Z;
  pg_total : Z;
  pg_totalPages : Z
}.

Record PaginaDeItens := mkPaginaDeItens {
  pi_itens : list ItemComTotal;
  pi_quantidadeItens : Z;
  pi_valorTotal : Z;
  pi_paginacao : Paginacao
}.

Module ItemVendaConsultas.

Definition findOne (id : Z) (db : Banco) : Resposta ItemComTotal :=
  match buscar_item db id with
  | None => Falha 404 ItemNaoEncontrado
  | Some itemVenda => Sucesso (comTotal db itemVenda)
  end.

Definition findByVenda (vendaId : Z) (db : Banco) : ItensDaVenda :=
  let itensVenda := ordenar_por_id (itens_da_venda db vendaId) in
  let itensComTotal := List.map (comTotal db) itensVenda in
  let totalVenda := fold_left (fun sum item => sum + ict_total item) itensComTotal 0 in
  mkItensDaVenda vendaId itensComTotal (Z.of_nat (length itensComTotal)) totalVenda.

(** The [where] clause of [findAll]: a filter is [None] when the query does
    not give it, or gives something that is not a number. *)
Definition filtro (vendaId produtoId : option Z) (i : ItemVenda) : bool :=
  match vendaId with Some v => i_vendaId i =? v | None => true end
  && match produtoId with Some p => i_produtoId i =? p | None => true end.

(** [findMany({ where, orderBy: { id: 'desc' } })] without [skip] and [take]. *)
Definition encontrados (vendaId produtoId : option Z) (db : Banco) : list ItemVenda :=
  rev (ordenar_por_id (List.filter (filtro vendaId produtoId) (itens db))).

(** [Math.ceil(total / limit)] for [0 <= total] and [1 <= limit]. *)
Definition teto_da_divisao (total limit : Z) : Z := (total + limit - 1) / limit.

(** [page] and [limit] are the numbers that [parseInt] reads.  A page or a
    limit below 1 gives the client a negative [skip] or a [take] that is not
    positive; the answer to those is not part of this model ([None]). *)
Definition findAll (page limit : Z) (vendaId produtoId : option Z) (db : Banco)
  : option PaginaDeItens :=
  if (page <? 1) || (limit <? 1) then None
  else
    let skip := (page - 1) * limit in
    let itensVenda :=
      firstn (Z.to_nat limit) (skipn (Z.to_nat skip) (encontrados vendaId produtoId db)) in
    let total := Z.of_nat (length (encontrados vendaId produtoId db)) in
    let itensComTotal := List.map (comTotal db) itensVenda in
    let totalGeral := fold_left (fun sum item => sum + ict_total item) itensComTotal 0 in
    Some (mkPaginaDeItens itensComTotal (Z.of_nat (length itensComTotal)) totalGeral
                          (mkPaginacao page limit total (teto_da_divisao total limit))).

End ItemVendaConsultas.

(** ** produtoController and clienteController: deletion

    Both [remove] handlers refuse to delete a record that sales refer to.
    They use the module-level client, outside of any transaction. *)

Inductive ErroCadastro :=
| IdInvalido
| CadastroNaoEncontrado
| CadastroComVendas (totalVendas : Z).

Inductive RespostaCadastro :=
| Removido (id : Z)
| Recusado (http : Z) (e : ErroCadastro).

Definition remover_produto (id : Z) (db : Banco) : Banco :=
  mkBanco (delete id (produtos db)) (vendas db) (itens db) (clientes db) (usuarios db)
          (proxVenda db) (proxItem db).

Definition remover_cliente (id : Z) (db : Banco) : Banco :=
  mkBanco (produtos db) (vendas db) (itens db) (clientes db ∖ {[id]}) (usuarios db)
          (proxVenda db) (proxItem db).

Module ProdutoController.

(** [id] is [parseInt(req.params.id)], [None] when it is [NaN]. *)
Definition remove (id : option Z) (db : Banco) : RespostaCadastro * Banco :=
  match id with
  | None => (Recusado 400 IdInvalido, db)
  | Some id =>
      match produtos db !! id with
      | None => (Recusado 404 CadastroNaoEncontrado, db)
      | Some _ =>
          let itensVenda :=
            Z.of_nat (length (List.filter (fun i => i_produtoId i =? id) (itens db))) in
          if 0 <? itensVenda
          then (Recusado 400 (CadastroComVendas itensVenda), db)
          else (Removido id, remover_produto id db)
      end
  end.

End ProdutoController.

Module ClienteController.

Definition remove (id : option Z) (db : Banco) : RespostaCadastro * Banco :=
  match id with
  | None => (Recusado 400 IdInvalido, db)
  | Some id =>
      if bool_decide (id ∈ clientes db) then
        let vendasDoCliente :=
          Z.of_nat (length (List.filter (fun kv => v_clienteId (snd kv) =? id)
                                        (map_to_list (vendas db)))) in
        if 0 <? vendasDoCliente
        then (Recusado 400 (CadastroComVendas vendasDoCliente), db)
        else (Removido id, remover_cliente id db)
      else (Recusado 404 CadastroNaoEncontrado, db)
  end.

End ClienteController.

(** ** Specification vocabulary *)

(** *** Numbers that JavaScript holds exactly *)

(** The integers that a JavaScript number holds exactly (up to
    [Number.MAX_SAFE_INTEGER], which is [2^53 - 1]).  On these [parseInt] and
    [parseFloat] give the number back, and a sum, a difference or a product
    of two of them that is again one of them is computed without rounding.
    Outside of them the handlers work on other numbers than the request
    holds: [parseInt(1e21)] is 1. *)
Definition inteiro_seguro (n : Z) : bool := Z.abs n <? 2 ^ 53.

Definition opcional_seguro (x : option Z) : bool :=
  match x with
  | Some n => inteiro_seguro n
  | None => true
  end.

(** The numbers of the body of a line request. *)
Definition corpo_seguro (corpo : CorpoItem) : bool :=
  opcional_seguro (ci_vendaId corpo) && opcional_seguro (ci_produtoId corpo)
  && opcional_seguro (ci_quantidade corpo) && opcional_seguro (ci_precoUnit corpo).

Definition item_seguro (item : ItemCorpo) : bool :=
  opcional_seguro (it_produtoId item) && opcional_seguro (it_quantidade item)
  && opcional_seguro (it_precoUnit item).

(** The numbers of the body of a sale request, and the total of its lines:
    the sum of the absolute values of the line totals bounds every product
    and every partial sum. *)
Definition pedido_seguro (corpo : CorpoVenda) : bool :=
  opcional_seguro (cv_clienteId corpo) && opcional_seguro (cv_usuarioId corpo)
  && opcional_seguro (cv_total corpo) && forallb item_seguro (cv_itens corpo)
  && inteiro_seguro
       (fold_right (fun item s =>
                      Z.abs (default 0 (it_quantidade item) * default 0 (it_precoUnit item)) + s)
                   0 (cv_itens corpo)).

(** Stored lines whose totals, and the sum of whose totals in any order, are
    computed without rounding. *)
Definition linhas_exatas (l : list ItemVenda) : bool :=
  forallb (fun i => inteiro_seguro (i_quantidade i) && inteiro_seguro (i_precoUnit i)) l
  && inteiro_seguro
       (fold_right (fun i s => Z.abs (i_quantidade i * i_precoUnit i) + s) 0 l).

(** *** Stock movements as functions of the lines *)

(** The entry [p] with [d] added to its stock; a stock that is [NULL] stays
    [NULL]. *)
Definition mexer (d : Z) (p : Produto) : Produto :=
  com_estoque p ((fun e => e + d) <$> p_estoque p).

(** What one iteration of a stock loop writes. *)
Definition passo_ajuste (sinal : Z) (d : Banco) (x : ItemVenda * option Produto) : Banco :=
  match x with
  | (item, Some p) =>
      if String.eqb (p_tipo p) "Produto"
      then ajustar_estoque (i_produtoId item) (sinal * i_quantidade item) d
      else d
  | (_, None) => d
  end.

Definition aplicar_ajustes (sinal : Z) (l : list (ItemVenda * option Produto)) (db : Banco)
  : Banco :=
  fold_left (passo_ajuste sinal) l db.

(** Quantity of product [pid] on the lines [l]. *)
Definition soma_quantidades (l : list ItemVenda) (pid : Z) : Z :=
  fold_right (fun i s => (if i_produtoId i =? pid then i_quantidade i else 0) + s) 0 l.

(** The product [p] once the Product-kind lines of [l] moved its stock. *)
Definition movimentado (sinal : Z) (l : list ItemVenda) (pid : Z) (p : Produto) : Produto :=
  if String.eqb (p_tipo p) "Produto"
  then mexer (sinal * soma_quantidades l pid) p
  else p.

(** The foreign key of the line table towards the catalog: every stored line
    references an existing entry. *)
Definition integro (db : Banco) : bool :=
  forallb (fun i => bool_decide (is_Some (produtos db !! i_produtoId i))) (itens db).

(** Net movement that the lines [l] cause on product [pid]. *)
Definition delta (sinal : Z) (l : list (ItemVenda * option Produto)) (pid : Z) : Z :=
  fold_right
    (fun x s =>
       match snd x with
       | Some p =>
           if String.eqb (p_tipo p) "Produto" && (i_produtoId (fst x) =? pid)
           then sinal * i_quantidade (fst x) else 0
       | None => 0
       end + s) 0 l.

(** The database after the status handling of [update] and [updateStatus]. *)
Definition apos_gerenciar (statusAtual : string) (status : option string) (vendaId : Z)
    (db : Banco) : Banco :=
  if negb (bool_decide (Some statusAtual = status)) then
    if bool_decide (status = Some "Concluida")
    then aplicar_ajustes (-1) (itens_com_produto db vendaId) db
    else if String.eqb statusAtual "Concluida" && negb (bool_decide (status = Some "Concluida"))
    then aplicar_ajustes 1 (itens_com_produto db vendaId) db
    else db
  else db.

(** *** Transactions *)

(** [so_tx m]: the callback [m] never writes through the module-level
    client, so the committed database is the same when it returns or throws. *)
Definition so_tx {A} (m : TxM A) : Prop :=
  forall t r t', m t = (r, t') -> fora t' = fora t.

(** *** Creation of a sale *)

(** The rows that [venda.create] adds to the line table. *)
Fixpoint numerar (vendaId n : Z) (linhas : list (Z * Z * Z)) : list ItemVenda :=
  match linhas with
  | [] => []
  | (produtoId, quantidade, precoUnit) :: r =>
      mkItemVenda n vendaId produtoId quantidade precoUnit :: numerar vendaId (n + 1) r
  end.

(** What one iteration of the stock loop of [create] writes, given what the
    transaction sees. *)
Definition passo_baixa (d : Banco) (item : ItemCorpo) : Banco :=
  match produtos d !! default 0 (it_produtoId item) with
  | Some p =>
      if String.eqb (p_tipo p) "Produto" && bool_decide (is_Some (p_estoque p))
      then ajustar_estoque (default 0 (it_produtoId item)) (- default 0 (it_quantidade item)) d
      else d
  | None => d
  end.

(** Sum of [quantidade * precoUnit] over the lines of a request. *)
Definition total_pedido (itens : list ItemCorpo) : Z :=
  foldr Z.add 0
        (List.map (fun item => default 0 (it_quantidade item) * default 0 (it_precoUnit item))
                  itens).

(** The sale row that [create] writes. *)
Definition venda_criada (agora : Z) (corpo : CorpoVenda) : Venda :=
  mkVenda (default 0 (cv_clienteId corpo)) (default 0 (cv_usuarioId corpo))
          (default agora (cv_data corpo))
          (if verdadeira (cv_status corpo) then default EmptyString (cv_status corpo) else "Pendente")
          (if verdadeiro (cv_total corpo) then default 0 (cv_total corpo)
           else total_pedido (cv_itens corpo))
          (if verdadeira (cv_observacoes corpo) then cv_observacoes corpo else None).

(** *** Sale lines *)

(** What [atualizarTotalVenda] leaves in the committed database: the total of
    the lines that are committed at that moment. *)
Definition total_gravado (vendaId : Z) (db : Banco) : Banco :=
  alterar_venda vendaId (fun v => com_total v (somar_itens (itens_da_venda db vendaId))) db.

(** The product and the quantity that an update of a line asks for. *)
Definition produto_alvo (corpo : CorpoItem) (itemAtual : ItemVenda) : Z :=
  if verdadeiro (ci_produtoId corpo) then default 0 (ci_produtoId corpo)
  else i_produtoId itemAtual.

Definition quantidade_alvo (corpo : CorpoItem) (itemAtual : ItemVenda) : Z :=
  if verdadeiro (ci_quantidade corpo) then default 0 (ci_quantidade corpo)
  else i_quantidade itemAtual.

(** The error of the modifiability guard for a stored status. *)
Definition nao_modificavel (status : string) : Erro :=
  if String.eqb status "Concluida" then VendaConcluida else VendaCancelada.

(** *** A small shop, for the concrete instances *)

Definition projetor := mkProduto "Projetor" 129900 (Some 5) "Produto" "Ativo".
Definition lanche := mkProduto "Cachorro quente" 2000 (Some 1) "Produto" "Ativo".
Definition barba := mkProduto "Barba" 5000 None "Servico" "Ativo".

(** Sale 1 is pending with one line, sale 2 is completed with a product line
    and a service line, sale 3 is pending and asks for more than is on hand. *)
Definition loja : Banco :=
  mkBanco (<[1 := projetor]> (<[2 := lanche]> (<[3 := barba]> ∅)))
          (<[1 := mkVenda 1 1 0 "Pendente" 3000 None]>
             (<[2 := mkVenda 1 1 0 "Concluida" 9000 None]>
                (<[3 := mkVenda 1 1 0 "Pendente" 8000 None]> ∅)))
          [mkItemVenda 1 1 1 3 1000; mkItemVenda 2 2 2 2 2000;
           mkItemVenda 3 2 3 1 5000; mkItemVenda 4 3 2 4 2000]
          {[1]} {[1]} 4 5.

(** Requests against [loja]. *)
Definition pedido_concluido : CorpoVenda :=
  mkCorpoVenda (Some 1) (Some 1) None (Some "Concluida")
               [mkItemCorpo (Some 1) (Some 2) (Some 1000); mkItemCorpo (Some 3) (Some 1) (Some 5000)]
               (Some 500) None.

Definition pedido_total_zero : CorpoVenda :=
  mkCorpoVenda (Some 1) (Some 1) None None
               [mkItemCorpo (Some 1) (Some 2) (Some 1000)] (Some 0) None.

Definition pedido_sem_preco : CorpoVenda :=
  mkCorpoVenda (Some 1) (Some 1) None None
               [mkItemCorpo (Some 1) (Some 2) None] None None.

Definition pedido_servico : CorpoVenda :=
  mkCorpoVenda (Some 1) (Some 1) None None
               [mkItemCorpo (Some 3) (Some 1) (Some 5000)] None None.

(** Sum of [quantidade * precoUnit] over stored lines. *)
Definition total_linhas (l : list ItemVenda) : Z :=
  foldr Z.add 0 (List.map (fun i => i_quantidade i * i_precoUnit i) l).

(** What the loops of the earlier revision write. *)
Definition aplicar_a_todos (sinal : Z) (l : list ItemVenda) (db : Banco) : Banco :=
  fold_left (fun d item => ajustar_estoque (i_produtoId item) (sinal * i_quantidade item) d) l db.

(** *** What the line handlers write *)

(** The unit price that [ItemVendaController.create] stores. *)
Definition preco_final (corpo : CorpoItem) (p : Produto) : Z :=
  if verdadeiro (ci_precoUnit corpo) then default 0 (ci_precoUnit corpo) else p_preco p.

(** The fields that [ItemVendaController.update] writes. *)
Definition campos_atualizados (corpo : CorpoItem) (i : ItemVenda) : ItemVenda :=
  atualizar_campos (ItemVendaController.se_verdadeiro (ci_quantidade corpo))
                   (ItemVendaController.se_verdadeiro (ci_precoUnit corpo))
                   (ItemVendaController.se_verdadeiro (ci_produtoId corpo)) i.

Definition item_atualizado (id : Z) (corpo : CorpoItem) (db : Banco) : Banco :=
  atualizar_item id (ItemVendaController.se_verdadeiro (ci_quantidade corpo))
                 (ItemVendaController.se_verdadeiro (ci_precoUnit corpo))
                 (ItemVendaController.se_verdadeiro (ci_produtoId corpo)) db.

(** A sale without its total. *)
Definition sem_total (v : Venda) : Venda := com_total v 0.



Definition lanche_esgotado := mkProduto "Cachorro quente" 2000 (Some 0) "Produto" "Ativo".

Definition loja_esgotada : Banco :=
  mkBanco (<[2 := lanche_esgotado]> (produtos loja)) (vendas loja) (itens loja)
          (clientes loja) (usuarios loja) (proxVenda loja) (proxItem loja).

(** What the status handling of [update] writes on top of [b], for the lines
    that were read from [db]. *)
Definition gerenciado (statusAtual : string) (status : option string) (vendaId : Z)
    (db b : Banco) : Banco :=
  if negb (bool_decide (Some statusAtual = status)) then
    if bool_decide (status = Some "Concluida")
    then aplicar_ajustes (-1) (itens_com_produto db vendaId) b
    else if String.eqb statusAtual "Concluida" && negb (bool_decide (status = Some "Concluida"))
    then aplicar_ajustes 1 (itens_com_produto db vendaId) b
    else b
  else b.

(** *** Requests that the handlers accept *)

(** A line of a request that [VendaController.create] accepts: a product id
    that is not 0 and resolves, a positive quantity, a positive unit price
    and, for a Product-kind entry, a quantity within the stock. *)
Definition linha_aceita (db : Banco) (item : ItemCorpo) : Prop :=
  exists produtoId q pu p,
    it_produtoId item = Some produtoId /\ produtoId <> 0 /\
    it_quantidade item = Some q /\ 0 < q /\
    it_precoUnit item = Some pu /\ 0 < pu /\
    produtos db !! produtoId = Some p /\
    (p_tipo p = "Produto" -> q <= estoque_num (p_estoque p)).

Definition pedido_aceito (db : Banco) (corpo : CorpoVenda) : Prop :=
  (exists c, cv_clienteId corpo = Some c /\ c <> 0 /\ c ∈ clientes db) /\
  (exists u, cv_usuarioId corpo = Some u /\ u <> 0 /\ u ∈ usuarios db) /\
  cv_itens corpo <> [] /\
  Forall (linha_aceita db) (cv_itens corpo).

(** Two lines of one unit each on an entry with a stock of one. *)
Definition pedido_dobrado : CorpoVenda :=
  mkCorpoVenda (Some 1) (Some 1) None (Some "Concluida")
               [mkItemCorpo (Some 2) (Some 1) (Some 2000); mkItemCorpo (Some 2) (Some 1) (Some 2000)]
               None None.

(** *** The constraints of the schema and the calls that write *)

(** The constraints of the schema on the tables: the foreign keys of a line
    (its catalog entry and its sale exist), the primary key of the line table
    (no id twice, every id below the next auto-increment value), the foreign
    keys of a sale (its client and its user exist) and its primary key below
    the next auto-increment value. *)
Definition bem_formado (db : Banco) : Prop :=
  Forall (fun i => is_Some (produtos db !! i_produtoId i) /\
                   is_Some (vendas db !! i_vendaId i) /\
                   i_id i < proxItem db) (itens db) /\
  NoDup (List.map i_id (itens db)) /\
  (forall k v, vendas db !! k = Some v ->
               v_clienteId v ∈ clientes db /\ v_usuarioId v ∈ usuarios db /\ k < proxVenda db).

(** The calls that write to the sale, line, catalog and client tables.  The
    body of [AtualizarVenda] holds no key besides [data], [status] and
    [observacoes]: [update] hands every other key of the body to
    [tx.venda.update] as it is, and bodies with such keys are not among these
    calls. *)
Inductive Chamada :=
| CriarItem (corpo : CorpoItem)
| AtualizarItem (id : Z) (corpo : CorpoItem)
| RemoverItem (id : Z)
| CriarVenda (agora : Z) (corpo : CorpoVenda)
| AtualizarVenda (id : Z) (corpo : CorpoAtualizacao)
| RemoverVenda (id : Z)
| MudarStatus (id : Z) (status : option string)
| RemoverProduto (id : option Z)
| RemoverCliente (id : option Z).

(** The database once the call was answered. *)
Definition atender (c : Chamada) (db : Banco) : Banco :=
  match c with
  | CriarItem corpo => snd (ItemVendaController.create corpo db)
  | AtualizarItem id corpo => snd (ItemVendaController.update id corpo db)
  | RemoverItem id => snd (ItemVendaController.remove id db)
  | CriarVenda agora corpo => snd (VendaController.create agora corpo db)
  | AtualizarVenda id corpo => snd (VendaController.update id corpo db)
  | RemoverVenda id => snd (VendaController.remove id db)
  | MudarStatus id status => snd (VendaController.updateStatus id status db)
  | RemoverProduto id => snd (ProdutoController.remove id db)
  | RemoverCliente id => snd (ClienteController.remove id db)
  end.

(** A service that keeps a stock count, and a pending sale of one unit of it. *)
Definition barba_contada := mkProduto "Barba" 5000 (Some 10) "Servico" "Ativo".

Definition loja_com_servico : Banco :=
  mkBanco (<[3 := barba_contada]> (produtos loja))
          (<[4 := mkVenda 1 1 0 "Pendente" 5000 None]> (vendas loja))
          (itens loja ++ [mkItemVenda 5 4 3 1 5000])
          (clientes loja) (usuarios loja) 5 6.

(** *** Pages of the line query *)

(** The lines and the value that page [k] of [findAll] shows. *)
Definition itens_da_pagina (limit : Z) (vendaId produtoId : option Z) (db : Banco) (k : nat)
  : list ItemComTotal :=
  match ItemVendaConsultas.findAll (Z.of_nat k) limit vendaId produtoId db with
  | Some r => pi_itens r
  | None => []
  end.

Definition valor_da_pagina (limit : Z) (vendaId produtoId : option Z) (db : Banco) (k : nat)
  : Z :=
  match ItemVendaConsultas.findAll (Z.of_nat k) limit vendaId produtoId db with
  | Some r => pi_valorTotal r
  | None => 0
  end.

(** The number of pages that [findAll] announces. *)
Definition numero_de_paginas (limit : Z) (vendaId produtoId : option Z) (db : Banco) : nat :=
  Z.to_nat (ItemVendaConsultas.teto_da_divisao
              (Z.of_nat (length (ItemVendaConsultas.encontrados vendaId produtoId db))) limit).

(** *** Stock on hand and quantity sold *)

(** The sale is stored and its status is Concluida. *)
Definition concluida (db : Banco) (vendaId : Z) : bool :=
  match vendas db !! vendaId with
  | Some v => String.eqb (v_status v) "Concluida"
  | None => false
  end.

(** Quantity of the entry [pid] on the lines of [l] whose sale satisfies [c]. *)
Definition vendido_em (c : Z -> bool) (l : list ItemVenda) (pid : Z) : Z :=
  soma_quantidades (List.filter (fun i => c (i_vendaId i)) l) pid.

(** Quantity of the entry [pid] on the lines of the completed sales. *)
Definition vendido (db : Banco) (pid : Z) : Z :=
  vendido_em (concluida db) (itens db) pid.

(** Stock on hand plus quantity sold, for a Product-kind entry that keeps a
    stock count. *)
Definition contabil (db : Banco) (pid : Z) : option Z :=
  match produtos db !! pid with
  | Some p =>
      if String.eqb (p_tipo p) "Produto"
      then (fun e => e + vendido db pid) <$> p_estoque p
      else None
  | None => None
  end.

(** The calls that are shown to keep [contabil] of the entry [pid]: all but
    the deletion of the entry itself and [VendaController.update] without a
    status. *)
Definition conserva (pid : Z) (c : Chamada) : bool :=
  match c with
  | AtualizarVenda _ corpo => verdadeira (ca_status corpo)
  | RemoverProduto (Some k) => negb (k =? pid)
  | _ => true
  end.

(** A request that [ItemVendaController.create] accepts. *)
Definition linha_nova_aceita (db : Banco) (corpo : CorpoItem) : Prop :=
  exists vendaId produtoId q v p,
    ci_vendaId corpo = Some vendaId /\ vendaId <> 0 /\
    ci_produtoId corpo = Some produtoId /\ produtoId <> 0 /\
    ci_quantidade corpo = Some q /\ 0 < q /\
    (forall pu, ci_precoUnit corpo = Some pu -> 0 <= pu) /\
    vendas db !! vendaId = Some v /\
    v_status v <> "Concluida" /\ v_status v <> "Cancelada" /\
    produtos db !! produtoId = Some p /\ p_status p = "Ativo" /\
    q <= estoque_num (p_estoque p).

(** ** Proofs *)

(** *** Stock loops *)

Lemma mexer_0 p : mexer 0 p = p.
Proof.
  destruct p as [n pr e t s]; unfold mexer, com_estoque; simpl.
  f_equal. destruct e; simpl; [f_equal; lia | reflexivity].
Qed.

Lemma mexer_mexer a b p : mexer b (mexer a p) = mexer (a + b) p.
Proof.
  destruct p as [n pr e t s]; unfold mexer, com_estoque; simpl.
  f_equal. destruct e; simpl; [f_equal; lia | reflexivity].
Qed.

Lemma mexer_tipo d p : p_tipo (mexer d p) = p_tipo p.
Proof. reflexivity. Qed.

Lemma ajustar_estoque_lookup id d db pid :
  produtos (ajustar_estoque id d db) !! pid =
  (if decide (id = pid) then mexer d else (fun p => p)) <$> produtos db !! pid.
Proof.
  unfold ajustar_estoque; simpl. rewrite lookup_alter.
  destruct (decide (id = pid)); [subst; reflexivity |].
  destruct (produtos db !! pid); reflexivity.
Qed.

(** The tx loop succeeds as soon as every line came with its product, and
    writes what [aplicar_ajustes] computes. *)
Lemma ajustar_estoque_dos_itens_ok sinal l : forall db0 w,
  Forall (fun x => is_Some (snd x) /\ is_Some (produtos (w db0) !! i_produtoId (fst x))) l ->
  ajustar_estoque_dos_itens sinal l (mkTx db0 w) =
  (inr tt, mkTx db0 (fun b => aplicar_ajustes sinal l (w b))).
Proof.
  induction l as [| [item pr] l IH]; intros db0 w Hall.
  - reflexivity.
  - inversion Hall as [| ? ? [[p Hp] Hex] Hrest]; subst. simpl in Hp, Hex. subst pr.
    unfold ajustar_estoque_dos_itens in *. cbn [para_cada].
    unfold tx_bind at 1.
    destruct (String.eqb (p_tipo p) "Produto") eqn:Ht.
    + unfold tx_produto_update, tx_bind, tx_ler, visao; simpl.
      destruct Hex as [p' Hp']. rewrite Hp'. unfold tx_escrever; simpl.
      rewrite IH.
      * unfold aplicar_ajustes; cbn [fold_left passo_ajuste]. rewrite Ht. reflexivity.
      * eapply Forall_impl; [exact Hrest |]. intros [i q] [H1 H2]; split; [exact H1 |].
        cbn [fst snd] in *. rewrite ajustar_estoque_lookup. destruct H2 as [x Hx].
        rewrite Hx. eexists; reflexivity.
    + unfold tx_ret at 1. rewrite IH.
      * unfold aplicar_ajustes; cbn [fold_left passo_ajuste]. rewrite Ht. reflexivity.
      * exact Hrest.
Qed.

Lemma aplicar_ajustes_resto sinal l : forall db,
  vendas (aplicar_ajustes sinal l db) = vendas db /\
  itens (aplicar_ajustes sinal l db) = itens db /\
  clientes (aplicar_ajustes sinal l db) = clientes db /\
  usuarios (aplicar_ajustes sinal l db) = usuarios db /\
  proxVenda (aplicar_ajustes sinal l db) = proxVenda db /\
  proxItem (aplicar_ajustes sinal l db) = proxItem db.
Proof.
  induction l as [| [item [p |]] l IH]; intros db; unfold aplicar_ajustes in *;
    cbn [fold_left passo_ajuste].
  - repeat split.
  - destruct (String.eqb (p_tipo p) "Produto"); [| apply IH].
    destruct (IH (ajustar_estoque (i_produtoId item) (sinal * i_quantidade item) db))
      as (-> & -> & -> & -> & -> & ->).
    repeat split.
  - apply IH.
Qed.

Lemma aplicar_ajustes_lookup sinal pid l : forall db,
  produtos (aplicar_ajustes sinal l db) !! pid = mexer (delta sinal l pid) <$> produtos db !! pid.
Proof.
  induction l as [| [item pr] l IH]; intros db; unfold aplicar_ajustes in *;
    cbn [fold_left passo_ajuste delta fold_right fst snd].
  - destruct (produtos db !! pid) as [p |]; simpl; [rewrite mexer_0 |]; reflexivity.
  - rewrite IH. fold (delta sinal l pid).
    destruct pr as [p |]; [| reflexivity].
    destruct (String.eqb (p_tipo p) "Produto"); [| reflexivity].
    rewrite ajustar_estoque_lookup. cbn [andb].
    destruct (decide (i_produtoId item = pid)) as [-> | Hne].
    + rewrite Z.eqb_refl. destruct (produtos db !! pid); simpl; [| reflexivity].
      rewrite mexer_mexer. reflexivity.
    + apply Z.eqb_neq in Hne. rewrite Hne. destruct (produtos db !! pid); reflexivity.
Qed.

Lemma delta_itens sinal db pid p its :
  produtos db !! pid = Some p ->
  delta sinal (List.map (fun i => (i, produtos db !! i_produtoId i)) its) pid =
  if String.eqb (p_tipo p) "Produto" then sinal * soma_quantidades its pid else 0.
Proof.
  intros Hp. induction its as [| i its IH]; cbn [List.map delta fold_right soma_quantidades fst snd].
  - destruct (String.eqb (p_tipo p) "Produto"); lia.
  - fold (delta sinal (List.map (fun i => (i, produtos db !! i_produtoId i)) its) pid).
    fold (soma_quantidades its pid). rewrite IH.
    destruct (i_produtoId i =? pid) eqn:He.
    + apply Z.eqb_eq in He. rewrite He, Hp.
      destruct (String.eqb (p_tipo p) "Produto"); cbn [andb]; lia.
    + destruct (produtos db !! i_produtoId i) as [q |].
      * rewrite andb_false_r. destruct (String.eqb (p_tipo p) "Produto"); lia.
      * destruct (String.eqb (p_tipo p) "Produto"); lia.
Qed.

(** Stock of every product after a loop over the lines of a sale. *)
Lemma estoque_apos_ajustes sinal db vendaId pid :
  produtos (aplicar_ajustes sinal (itens_com_produto db vendaId) db) !! pid =
  movimentado sinal (itens_da_venda db vendaId) pid <$> produtos db !! pid.
Proof.
  rewrite aplicar_ajustes_lookup. unfold itens_com_produto.
  destruct (produtos db !! pid) as [p |] eqn:Hp; [| reflexivity].
  cbn [fmap option_fmap option_map]. rewrite (delta_itens sinal db pid p _ Hp).
  unfold movimentado. destruct (String.eqb (p_tipo p) "Produto"); [reflexivity |].
  rewrite mexer_0. reflexivity.
Qed.

Lemma integro_itens db vendaId w :
  integro db = true ->
  (forall pid, is_Some (produtos db !! pid) -> is_Some (produtos (w db) !! pid)) ->
  Forall (fun x => is_Some (snd x) /\ is_Some (produtos (w db) !! i_produtoId (fst x)))
         (itens_com_produto db vendaId).
Proof.
  intros Hi Hw. unfold integro in Hi. rewrite forallb_forall in Hi.
  unfold itens_com_produto, itens_da_venda. apply Forall_forall. intros [i pr] Hin.
  apply list_elem_of_In, in_map_iff in Hin. destruct Hin as (j & Hj & Hin).
  inversion Hj; subst. apply filter_In in Hin. destruct Hin as [Hin _].
  specialize (Hi _ Hin). apply bool_decide_eq_true in Hi. cbn [fst snd].
  split; [exact Hi | apply Hw; exact Hi].
Qed.

Lemma gerenciar_estoque_ok statusAtual status vendaId db w :
  integro db = true ->
  (forall pid, is_Some (produtos db !! pid) -> is_Some (produtos (w db) !! pid)) ->
  gerenciar_estoque statusAtual status (itens_com_produto db vendaId) (mkTx db w) =
  (inr tt, mkTx db (fun b =>
     if negb (bool_decide (Some statusAtual = status)) then
       if bool_decide (status = Some "Concluida")
       then aplicar_ajustes (-1) (itens_com_produto db vendaId) (w b)
       else if String.eqb statusAtual "Concluida" && negb (bool_decide (status = Some "Concluida"))
       then aplicar_ajustes 1 (itens_com_produto db vendaId) (w b)
       else w b
     else w b)).
Proof.
  intros Hi Hw. unfold gerenciar_estoque.
  destruct (negb (bool_decide (Some statusAtual = status))).
  - destruct (bool_decide (status = Some "Concluida")).
    + apply ajustar_estoque_dos_itens_ok, integro_itens; assumption.
    + destruct (String.eqb statusAtual "Concluida" && negb false).
      * apply ajustar_estoque_dos_itens_ok, integro_itens; assumption.
      * reflexivity.
  - reflexivity.
Qed.

Lemma status_valido_verdadeira s : status_valido s = true -> verdadeira (Some s) = true.
Proof.
  unfold status_valido, verdadeira. intros H.
  destruct (String.eqb s EmptyString) eqn:E; [| reflexivity].
  apply String.eqb_eq in E. subst s. discriminate H.
Qed.

Lemma apos_gerenciar_vendas sa st id db : vendas (apos_gerenciar sa st id db) = vendas db.
Proof.
  unfold apos_gerenciar.
  repeat match goal with |- context [if ?c then _ else _] => destruct c end;
    try reflexivity; apply aplicar_ajustes_resto.
Qed.

Lemma updateStatus_sucesso db id s v :
  integro db = true ->
  status_valido s = true ->
  vendas db !! id = Some v ->
  VendaController.updateStatus id (Some s) db =
  (Sucesso id,
   alterar_venda id (fun v => com_status v s) (apos_gerenciar (v_status v) (Some s) id db)).
Proof.
  intros Hi Hs Hv. unfold VendaController.updateStatus.
  rewrite (status_valido_verdadeira s Hs).
  change (default EmptyString (Some s)) with s. rewrite Hs. cbn [negb orb].
  unfold transacao. unfold tx_bind at 1. unfold tx_ler at 1. unfold visao at 1. cbn [fora pend].
  rewrite Hv. unfold tx_bind at 1.
  rewrite gerenciar_estoque_ok by (assumption || auto).
  unfold tx_bind at 1. unfold tx_venda_update, tx_bind, tx_ler, visao. cbn [fora pend].
  pose proof (apos_gerenciar_vendas (v_status v) (Some s) id db) as Hvd.
  unfold apos_gerenciar in Hvd. rewrite Hvd, Hv.
  reflexivity.
Qed.

(** *** Callbacks that only use the transaction client *)

Lemma so_tx_ret {A} (a : A) : so_tx (tx_ret a).
Proof. intros t r t' H. inversion H. reflexivity. Qed.

Lemma so_tx_lancar {A} e : so_tx (@lancar A e).
Proof. intros t r t' H. inversion H. reflexivity. Qed.

Lemma so_tx_ler {A} (q : Banco -> A) : so_tx (tx_ler q).
Proof. intros t r t' H. inversion H. reflexivity. Qed.

Lemma so_tx_escrever w : so_tx (tx_escrever w).
Proof. intros t r t' H. inversion H. reflexivity. Qed.

Lemma so_tx_bind {A B} (m : TxM A) (k : A -> TxM B) :
  so_tx m -> (forall a, so_tx (k a)) -> so_tx (tx_bind m k).
Proof.
  intros Hm Hk t r t' H. unfold tx_bind in H.
  destruct (m t) as [[e | a] t1] eqn:E.
  - inversion H; subst. eapply Hm; eassumption.
  - rewrite (Hk a _ _ _ H). eapply Hm; eassumption.
Qed.

Lemma so_tx_para_cada {A} (f : A -> TxM unit) l :
  (forall x, so_tx (f x)) -> so_tx (para_cada f l).
Proof.
  intros Hf. induction l as [| x l IH]; cbn [para_cada].
  - apply so_tx_ret.
  - apply so_tx_bind; [apply Hf | intros _; exact IH].
Qed.

Ltac so_tx :=
  repeat first
    [ apply so_tx_ret | apply so_tx_lancar | apply so_tx_ler | apply so_tx_escrever
    | apply so_tx_bind; [| intros ?]
    | apply so_tx_para_cada; intros ?
    | match goal with
      | |- so_tx (match ?x with _ => _ end) => destruct x
      | |- so_tx (if ?c then _ else _) => destruct c
      end ].

Lemma so_tx_produto_update id d : so_tx (tx_produto_update id d).
Proof. unfold tx_produto_update. so_tx. Qed.

Lemma so_tx_venda_update id f : so_tx (tx_venda_update id f).
Proof. unfold tx_venda_update. so_tx. Qed.

Lemma so_tx_venda_delete id : so_tx (tx_venda_delete id).
Proof. unfold tx_venda_delete. so_tx. Qed.

Lemma so_tx_venda_create v l : so_tx (tx_venda_create v l).
Proof. unfold tx_venda_create. so_tx. Qed.

Lemma so_tx_ajustar sinal l : so_tx (ajustar_estoque_dos_itens sinal l).
Proof.
  unfold ajustar_estoque_dos_itens. apply so_tx_para_cada. intros [i [p |]].
  - destruct (String.eqb (p_tipo p) "Produto");
      [apply so_tx_produto_update | apply so_tx_ret].
  - apply so_tx_lancar.
Qed.

Lemma so_tx_gerenciar sa st l : so_tx (gerenciar_estoque sa st l).
Proof.
  unfold gerenciar_estoque.
  repeat match goal with |- so_tx (if ?c then _ else _) => destruct c end;
    first [apply so_tx_ajustar | apply so_tx_ret].
Qed.

(** A transaction whose callback only uses [tx] is all or nothing: when it
    throws, the committed database is the one it started from. *)
Lemma transacao_atomica {A} (m : TxM A) db e db' :
  so_tx m -> transacao m db = (inl e, db') -> db' = db.
Proof.
  intros Hm H. unfold transacao in H.
  destruct (m (mkTx db (fun b => b))) as [[e1 | a] t] eqn:E; inversion H; subst.
  apply (Hm _ _ _ E).
Qed.

(** *** vendaController: a failure writes nothing *)

Ltac resposta_falha H :=
  match type of H with
  | (match transacao ?m ?db with _ => _ end) = _ =>
      let E := fresh "E" in
      destruct (transacao m db) as [[?e | ?a] ?d] eqn:E;
      [ apply transacao_atomica in E; [inversion H; subst; try reflexivity; try congruence |]
      | inversion H ]
  end.

Lemma remove_atomica id db http e db' :
  VendaController.remove id db = (Falha http e, db') -> db' = db.
Proof.
  unfold VendaController.remove. intros H.
  destruct (vendas db !! id) as [v |]; [| inversion H; reflexivity].
  resposta_falha H.
  apply so_tx_bind; [| intros _; apply so_tx_bind; [apply so_tx_venda_delete | intros _; apply so_tx_ret]].
  destruct (String.eqb (v_status v) "Concluida"); [apply so_tx_ajustar | apply so_tx_ret].
Qed.

Lemma updateStatus_atomica id status db http e db' :
  VendaController.updateStatus id status db = (Falha http e, db') -> db' = db.
Proof.
  unfold VendaController.updateStatus. intros H.
  destruct (negb (verdadeira status) || negb (status_valido (default EmptyString status)));
    [inversion H; reflexivity |].
  resposta_falha H.
  apply so_tx_bind; [apply so_tx_ler |]. intros [[v |] l]; [| apply so_tx_lancar].
  apply so_tx_bind; [apply so_tx_gerenciar |]. intros _.
  apply so_tx_bind; [apply so_tx_venda_update | intros _; apply so_tx_ret].
Qed.

Lemma update_atomica id corpo db http e db' :
  VendaController.update id corpo db = (Falha http e, db') -> db' = db.
Proof.
  unfold VendaController.update. intros H.
  destruct (verdadeira (ca_status corpo) && negb (status_valido (default EmptyString (ca_status corpo))));
    [inversion H; reflexivity |].
  destruct (vendas db !! id) as [v |]; [| inversion H; reflexivity].
  resposta_falha H.
  apply so_tx_bind; [apply so_tx_venda_update |]. intros _.
  apply so_tx_bind; [apply so_tx_gerenciar | intros _; apply so_tx_ret].
Qed.

Lemma so_tx_baixa item : so_tx (baixar_estoque item).
Proof.
  apply so_tx_bind; [apply so_tx_ler |]. intros [p |]; [| apply so_tx_ret].
  destruct (_ && _); [apply so_tx_produto_update | apply so_tx_ret].
Qed.

Lemma create_atomica agora corpo db http e db' :
  VendaController.create agora corpo db = (Falha http e, db') -> db' = db.
Proof.
  unfold VendaController.create. intros H.
  destruct (cv_clienteId corpo) as [c |]; [| inversion H; reflexivity].
  destruct (cv_usuarioId corpo) as [u |]; [| inversion H; reflexivity].
  destruct (negb (verdadeiro (Some c)) || negb (verdadeiro (Some u)));
    [inversion H; reflexivity |].
  destruct (cv_itens corpo) as [| i0 l0] eqn:El; [inversion H; reflexivity |].
  destruct (validar_itens 0 (i0 :: l0)); [inversion H; reflexivity |].
  destruct (verificarExistenciaRegistros db c u (i0 :: l0)); [| inversion H; reflexivity].
  resposta_falha H.
  apply so_tx_bind; [apply so_tx_venda_create |]. intros nova.
  apply so_tx_bind; [| intros _; apply so_tx_ret].
  destruct (String.eqb _ "Concluida"); [| apply so_tx_ret].
  apply so_tx_para_cada. intros item. apply so_tx_baixa.
Qed.

(** *** vendaController: what a success writes *)

Lemma estoque_apos_ajustes_em sinal db db1 vendaId pid :
  produtos db1 = produtos db ->
  produtos (aplicar_ajustes sinal (itens_com_produto db vendaId) db1) !! pid =
  movimentado sinal (itens_da_venda db vendaId) pid <$> produtos db !! pid.
Proof.
  intros Hp. rewrite <- estoque_apos_ajustes, !aplicar_ajustes_lookup, Hp. reflexivity.
Qed.

Lemma remove_sucesso db id v :
  integro db = true ->
  vendas db !! id = Some v ->
  VendaController.remove id db =
  (Sucesso id,
   remover_venda id (if String.eqb (v_status v) "Concluida"
                     then aplicar_ajustes 1 (itens_com_produto db id) db else db)).
Proof.
  intros Hi Hv. unfold VendaController.remove. rewrite Hv.
  unfold transacao. unfold tx_bind at 1.
  destruct (String.eqb (v_status v) "Concluida").
  - rewrite ajustar_estoque_dos_itens_ok by (apply (integro_itens db id (fun b => b)); auto).
    unfold tx_bind at 1. unfold tx_venda_delete, tx_bind, tx_ler, visao. cbn [fora pend].
    destruct (aplicar_ajustes_resto 1 (itens_com_produto db id) db) as [Hvd _].
    rewrite Hvd, Hv. reflexivity.
  - unfold tx_ret at 1. unfold tx_bind at 1.
    unfold tx_venda_delete, tx_bind, tx_ler, visao. cbn [fora pend].
    rewrite Hv. reflexivity.
Qed.

Lemma update_concluir db id v corpo :
  integro db = true ->
  vendas db !! id = Some v ->
  v_status v <> "Concluida" ->
  ca_status corpo = Some "Concluida" ->
  VendaController.update id corpo db =
  (Sucesso id,
   aplicar_ajustes (-1) (itens_com_produto db id)
                   (alterar_venda id (VendaController.dadosAtualizacao corpo) db)).
Proof.
  intros Hi Hv Hne Hs. unfold VendaController.update. rewrite Hs.
  change (verdadeira (Some "Concluida") && negb (status_valido (default EmptyString (Some "Concluida"))))
    with false. cbv iota. rewrite Hv.
  unfold transacao. unfold tx_bind at 1.
  unfold tx_venda_update at 1. unfold tx_bind at 1. unfold tx_ler at 1. unfold visao at 1.
  cbn [fora pend]. rewrite Hv. unfold tx_escrever at 1. cbn [fora pend].
  unfold tx_bind at 1.
  rewrite gerenciar_estoque_ok by (auto).
  rewrite bool_decide_eq_false_2 by congruence.
  rewrite bool_decide_eq_true_2 by reflexivity.
  reflexivity.
Qed.

Lemma inserir_itens_fold vendaId linhas : forall d,
  let d' := fold_left (fun d '(produtoId, quantidade, precoUnit) =>
                         inserir_item vendaId produtoId quantidade precoUnit d) linhas d in
  produtos d' = produtos d /\ vendas d' = vendas d /\
  itens d' = itens d ++ numerar vendaId (proxItem d) linhas /\
  clientes d' = clientes d /\ usuarios d' = usuarios d /\ proxVenda d' = proxVenda d.
Proof.
  induction linhas as [| [[p q] pu] r IH]; intros d; cbn [fold_left numerar].
  - rewrite app_nil_r. repeat split.
  - cbv zeta in IH. destruct (IH (inserir_item vendaId p q pu d)) as (-> & -> & -> & -> & -> & ->).
    cbn [inserir_item produtos vendas itens clientes usuarios proxVenda proxItem].
    rewrite <- app_assoc. repeat split.
Qed.

Lemma inserir_venda_campos v linhas db :
  produtos (inserir_venda v linhas db) = produtos db /\
  vendas (inserir_venda v linhas db) = <[proxVenda db := v]> (vendas db) /\
  itens (inserir_venda v linhas db) = itens db ++ numerar (proxVenda db) (proxItem db) linhas.
Proof.
  unfold inserir_venda.
  destruct (inserir_itens_fold (proxVenda db) linhas
              (mkBanco (produtos db) (<[proxVenda db := v]> (vendas db)) (itens db)
                       (clientes db) (usuarios db) (proxVenda db + 1) (proxItem db)))
    as (H1 & H2 & H3 & _).
  cbv zeta in H1, H2, H3. rewrite H1, H2, H3. repeat split.
Qed.

Lemma baixas_ok itens : forall t,
  exists t',
    para_cada baixar_estoque itens t = (inr tt, t') /\
    fora t' = fora t /\ visao t' = fold_left passo_baixa itens (visao t).
Proof.
  induction itens as [| item r IH]; intros t.
  - exists t. repeat split.
  - cbn [para_cada fold_left]. unfold tx_bind at 1. unfold baixar_estoque at 1.
    unfold tx_bind at 1. unfold tx_ler at 1.
    unfold passo_baixa at 2.
    destruct (produtos (visao t) !! default 0 (it_produtoId item)) as [p |] eqn:Hp.
    + destruct (String.eqb (p_tipo p) "Produto" && bool_decide (is_Some (p_estoque p))).
      * unfold tx_produto_update, tx_bind at 1, tx_ler. rewrite Hp. unfold tx_escrever.
        match goal with |- context [para_cada _ r ?t1] => destruct (IH t1) as (t' & E & Hf & Hv) end.
        exists t'. rewrite E. repeat split; assumption.
      * unfold tx_ret at 1. destruct (IH t) as (t' & E & Hf & Hv).
        exists t'. rewrite E. repeat split; assumption.
    + unfold tx_ret at 1. destruct (IH t) as (t' & E & Hf & Hv).
      exists t'. rewrite E. repeat split; assumption.
Qed.

Lemma passo_baixa_resto l : forall d,
  vendas (fold_left passo_baixa l d) = vendas d /\
  itens (fold_left passo_baixa l d) = itens d.
Proof.
  induction l as [| item r IH]; intros d; cbn [fold_left]; [split; reflexivity |].
  destruct (IH (passo_baixa d item)) as [-> ->]. unfold passo_baixa.
  destruct (produtos d !! default 0 (it_produtoId item)) as [p |]; [| split; reflexivity].
  destruct (_ && _); split; reflexivity.
Qed.

Lemma mexer_nulo d p : p_estoque p = None -> mexer d p = p.
Proof. destruct p as [n pr e t s]; simpl; intros ->; reflexivity. Qed.

Lemma soma_numerar vendaId pid itens : forall n,
  soma_quantidades (numerar vendaId n (List.map linha_de itens)) pid =
  foldr Z.add 0
        (List.map (fun item => if default 0 (it_produtoId item) =? pid
                               then default 0 (it_quantidade item) else 0) itens).
Proof.
  induction itens as [| item r IH]; intros n; [reflexivity |].
  cbn [List.map linha_de numerar soma_quantidades fold_right foldr i_produtoId i_quantidade].
  f_equal. apply IH.
Qed.

Lemma passo_baixa_lookup vendaId n pid itens : forall d,
  produtos (fold_left passo_baixa itens d) !! pid =
  movimentado (-1) (numerar vendaId n (List.map linha_de itens)) pid <$> produtos d !! pid.
Proof.
  unfold movimentado. rewrite soma_numerar.
  induction itens as [| item r IH]; intros d.
  - cbn [fold_left List.map numerar soma_quantidades fold_right].
    destruct (produtos d !! pid) as [p |]; [| reflexivity]. cbn.
    destruct (String.eqb (p_tipo p) "Produto"); [rewrite mexer_0 |]; reflexivity.
  - cbn [fold_left]. rewrite IH. cbn [List.map foldr].
    set (resto := foldr Z.add 0 _).
    set (pi := default 0 (it_produtoId item)). set (q := default 0 (it_quantidade item)).
    unfold passo_baixa. fold pi q.
    destruct (decide (pi = pid)) as [Heq | Hne].
    + rewrite Heq, Z.eqb_refl.
      destruct (produtos d !! pid) as [p |] eqn:Hp; [| rewrite Hp; reflexivity].
      destruct (String.eqb (p_tipo p) "Produto") eqn:Ht; cbn [andb].
      * destruct (p_estoque p) as [e |] eqn:He.
        -- rewrite bool_decide_eq_true_2 by eauto.
           rewrite ajustar_estoque_lookup, Hp. rewrite decide_True by reflexivity.
           cbn [fmap option_fmap option_map]. rewrite mexer_tipo, Ht, mexer_mexer.
           do 2 f_equal. lia.
        -- rewrite bool_decide_eq_false_2 by (intros [? ?]; discriminate).
           rewrite Hp. cbn [fmap option_fmap option_map]. rewrite Ht.
           rewrite !mexer_nulo by assumption. reflexivity.
      * rewrite Hp. cbn [fmap option_fmap option_map]. rewrite Ht. reflexivity.
    + assert (Hb : (pi =? pid) = false) by (apply Z.eqb_neq; exact Hne). rewrite Hb.
      rewrite Z.add_0_l.
      destruct (produtos d !! pi) as [p |]; [| reflexivity].
      destruct (_ && _); [| reflexivity].
      rewrite ajustar_estoque_lookup, decide_False by exact Hne.
      destruct (produtos d !! pid); reflexivity.
Qed.

Lemma fold_left_soma {A} (f : A -> Z) l : forall a,
  fold_left (fun s x => s + f x) l a = a + foldr Z.add 0 (List.map f l).
Proof.
  induction l as [| x l IH]; intros a; cbn [fold_left List.map foldr]; [lia |].
  rewrite IH. lia.
Qed.

Lemma total_pedido_fold itens :
  fold_left (fun sum item => sum + default 0 (it_quantidade item) * default 0 (it_precoUnit item))
            itens 0 = total_pedido itens.
Proof. unfold total_pedido. rewrite fold_left_soma. lia. Qed.

Lemma create_resultado agora corpo db id db' :
  VendaController.create agora corpo db = (Sucesso id, db') ->
  id = proxVenda db /\
  validar_itens 0 (cv_itens corpo) = None /\
  verificarExistenciaRegistros db (default 0 (cv_clienteId corpo))
    (default 0 (cv_usuarioId corpo)) (cv_itens corpo) = [] /\
  db' = (if String.eqb (v_status (venda_criada agora corpo)) "Concluida"
         then fold_left passo_baixa (cv_itens corpo) else fun d => d)
          (inserir_venda (venda_criada agora corpo) (List.map linha_de (cv_itens corpo)) db).
Proof.
  unfold VendaController.create, venda_criada, total_pedido. intros H.
  destruct (cv_clienteId corpo) as [c |]; [| inversion H].
  destruct (cv_usuarioId corpo) as [u |]; [| inversion H].
  destruct (negb (verdadeiro (Some c)) || negb (verdadeiro (Some u))); [inversion H |].
  destruct (cv_itens corpo) as [| i0 l0] eqn:El; [inversion H |].
  destruct (validar_itens 0 (i0 :: l0)) eqn:Ev; [inversion H |].
  destruct (verificarExistenciaRegistros db c u (i0 :: l0)) eqn:Ee; [| inversion H].
  cbn [default v_status] in *. rewrite total_pedido_fold in H. unfold total_pedido in H.
  repeat match goal with
         | |- context [if negb ?b then ?x else ?y] =>
             replace (if negb b then x else y) with (if b then y else x) by (destruct b; reflexivity)
         | H : context [if negb ?b then ?x else ?y] |- _ =>
             replace (if negb b then x else y) with (if b then y else x) in H
               by (destruct b; reflexivity)
         end.
  set (v := mkVenda c u _ _ _ _) in *.
  set (st := if verdadeira (cv_status corpo) then _ else _) in *.
  unfold transacao in H. unfold tx_bind at 1 in H.
  unfold tx_venda_create in H. unfold tx_bind at 1 in H. unfold tx_ler at 1 in H.
  unfold visao in H. cbn [fora pend] in H.
  match type of H with context [if ?c then tx_bind _ _ else lancar _] => destruct c end;
    [| inversion H].
  unfold tx_bind at 1 in H. unfold tx_escrever at 1 in H. cbn [fora pend] in H.
  unfold tx_ret at 1 in H. unfold tx_bind at 1 in H.
  destruct (String.eqb st "Concluida").
  - match type of H with context [para_cada _ _ ?t1] =>
      destruct (baixas_ok (i0 :: l0) t1) as (t' & E & Hf & Hv) end.
    rewrite E in H. unfold tx_ret in H. inversion H; subst.
    repeat split; [exact Ee | exact Hv].
  - unfold tx_ret in H. inversion H; subst. repeat split. exact Ee.
Qed.

(** *** itemVendaController: what the handlers return *)

Lemma modificavel_venda db vendaId v :
  verificarVendaModificavel db vendaId = inr v -> vendas db !! vendaId = Some v.
Proof.
  unfold verificarVendaModificavel. destruct (vendas db !! vendaId) as [w |]; [| discriminate].
  destruct (String.eqb _ _); [discriminate |].
  destruct (String.eqb _ _); [discriminate |]. congruence.
Qed.

Lemma modificavel_pendente db vendaId v :
  vendas db !! vendaId = Some v -> v_status v = "Pendente" ->
  verificarVendaModificavel db vendaId = inr v.
Proof. unfold verificarVendaModificavel. intros -> ->. reflexivity. Qed.

Lemma nao_modificavel_erro db vendaId v :
  vendas db !! vendaId = Some v ->
  v_status v = "Concluida" \/ v_status v = "Cancelada" ->
  verificarVendaModificavel db vendaId = inl (nao_modificavel (v_status v)).
Proof.
  unfold verificarVendaModificavel, nao_modificavel. intros -> [-> | ->]; reflexivity.
Qed.

Lemma disponivel_produto db pid q itemId p qn :
  verificarDisponibilidadeProduto db pid q itemId = inr (p, qn) -> produtos db !! pid = Some p.
Proof.
  unfold verificarDisponibilidadeProduto. destruct (produtos db !! pid) as [p' |]; [| discriminate].
  destruct (negb _); [discriminate |].
  match goal with |- context [match ?x with Some _ => _ | None => _ end = _] => destruct x end.
  - destruct (_ <? _); [discriminate |]. congruence.
  - congruence.
Qed.

Lemma atualizarTotalVenda_ok vendaId db w v :
  vendas db !! vendaId = Some v ->
  atualizarTotalVenda vendaId (mkTx db w) =
  (inr (somar_itens (itens_da_venda db vendaId)), mkTx (total_gravado vendaId db) w).
Proof.
  intros Hv. unfold atualizarTotalVenda, prisma_venda_update, tx_bind, prisma_ler, prisma_escrever.
  cbn [fora pend]. rewrite Hv. reflexivity.
Qed.

Ltac tx_passo :=
  cbv beta iota delta [transacao tx_bind tx_ler tx_escrever tx_ret lancar visao fora pend
                       tx_itemVenda_create tx_itemVenda_update tx_itemVenda_delete].

Lemma create_sucesso corpo db vendaId produtoId q v p qn :
  validarItemVenda corpo false = [] ->
  ci_vendaId corpo = Some vendaId -> ci_produtoId corpo = Some produtoId ->
  ci_quantidade corpo = Some q ->
  verificarVendaModificavel db vendaId = inr v ->
  verificarDisponibilidadeProduto db produtoId (Some q) None = inr (p, qn) ->
  let precoFinal := if verdadeiro (ci_precoUnit corpo)
                    then default 0 (ci_precoUnit corpo) else p_preco p in
  ItemVendaController.create corpo db =
  (Sucesso (mkItemVenda (proxItem db) vendaId produtoId q precoFinal),
   inserir_item vendaId produtoId q precoFinal (total_gravado vendaId db)).
Proof.
  intros Hval Hvid Hpid Hq Hmod Hdisp precoFinal.
  unfold ItemVendaController.create. rewrite Hval, Hvid, Hpid, Hmod, Hq, Hdisp.
  fold precoFinal.
  pose proof (modificavel_venda _ _ _ Hmod) as Hv.
  pose proof (disponivel_produto _ _ _ _ _ _ Hdisp) as Hp.
  tx_passo. rewrite Hv, Hp. tx_passo.
  rewrite (atualizarTotalVenda_ok vendaId db _ v Hv).
  reflexivity.
Qed.

Lemma buscar_item_id db id i : buscar_item db id = Some i -> i_id i = id.
Proof.
  unfold buscar_item. intros H. apply find_some in H. destruct H as [_ H].
  apply Z.eqb_eq in H. exact H.
Qed.

Lemma remove_sucesso_item db id item v :
  buscar_item db id = Some item ->
  verificarVendaModificavel db (i_vendaId item) = inr v ->
  ItemVendaController.remove id db =
  (Sucesso (i_vendaId item), remover_item id (total_gravado (i_vendaId item) db)).
Proof.
  intros Hi Hmod. unfold ItemVendaController.remove. rewrite Hi, Hmod.
  pose proof (modificavel_venda _ _ _ Hmod) as Hv.
  tx_passo. rewrite Hi. tx_passo.
  rewrite (atualizarTotalVenda_ok _ db _ v Hv). reflexivity.
Qed.

Lemma se_verdadeiro_alvo corpo itemAtual n :
  ItemVendaController.se_verdadeiro (ci_produtoId corpo) = Some n ->
  produto_alvo corpo itemAtual = n.
Proof.
  unfold ItemVendaController.se_verdadeiro, produto_alvo.
  destruct (verdadeiro (ci_produtoId corpo)); [| discriminate]. intros ->. reflexivity.
Qed.

Lemma update_sucesso_item db id corpo itemAtual v p :
  validarItemVenda corpo true = [] ->
  buscar_item db id = Some itemAtual ->
  verificarVendaModificavel db (i_vendaId itemAtual) = inr v ->
  produtos db !! produto_alvo corpo itemAtual = Some p ->
  (verdadeiro (ci_produtoId corpo) || verdadeiro (ci_quantidade corpo) = true ->
   exists r, verificarDisponibilidadeProduto db (produto_alvo corpo itemAtual)
               (Some (quantidade_alvo corpo itemAtual)) (Some id) = inr r) ->
  let novo := atualizar_campos (ItemVendaController.se_verdadeiro (ci_quantidade corpo))
                               (ItemVendaController.se_verdadeiro (ci_precoUnit corpo))
                               (ItemVendaController.se_verdadeiro (ci_produtoId corpo))
                               itemAtual in
  ItemVendaController.update id corpo db =
  (Sucesso novo,
   atualizar_item id (ItemVendaController.se_verdadeiro (ci_quantidade corpo))
                  (ItemVendaController.se_verdadeiro (ci_precoUnit corpo))
                  (ItemVendaController.se_verdadeiro (ci_produtoId corpo))
                  (total_gravado (i_vendaId itemAtual) db)).
Proof.
  intros Hval Hi Hmod Hp Hdisp novo.
  unfold ItemVendaController.update. rewrite Hval, Hi, Hmod.
  pose proof (modificavel_venda _ _ _ Hmod) as Hv.
  fold (produto_alvo corpo itemAtual). fold (quantidade_alvo corpo itemAtual).
  assert (Htx : transacao
                  (itemAtualizado <- tx_itemVenda_update id
                                       (ItemVendaController.se_verdadeiro (ci_quantidade corpo))
                                       (ItemVendaController.se_verdadeiro (ci_precoUnit corpo))
                                       (ItemVendaController.se_verdadeiro (ci_produtoId corpo)) ;;
                   atualizarTotalVenda (i_vendaId itemAtualizado) ;;;
                   tx_ret itemAtualizado) db =
                (inr novo,
                 atualizar_item id (ItemVendaController.se_verdadeiro (ci_quantidade corpo))
                   (ItemVendaController.se_verdadeiro (ci_precoUnit corpo))
                   (ItemVendaController.se_verdadeiro (ci_produtoId corpo))
                   (total_gravado (i_vendaId itemAtual) db))).
  { tx_passo. rewrite Hi. cbv beta iota zeta. fold novo.
    destruct (ItemVendaController.se_verdadeiro (ci_produtoId corpo)) as [n |] eqn:En.
    - rewrite <- (se_verdadeiro_alvo corpo itemAtual n En), Hp. tx_passo.
      change (i_vendaId novo) with (i_vendaId itemAtual).
      rewrite (atualizarTotalVenda_ok _ db _ v Hv). reflexivity.
    - tx_passo. change (i_vendaId novo) with (i_vendaId itemAtual).
      rewrite (atualizarTotalVenda_ok _ db _ v Hv). reflexivity. }
  destruct (verdadeiro (ci_produtoId corpo) || verdadeiro (ci_quantidade corpo)) eqn:Hc.
  - destruct (Hdisp eq_refl) as [r Hr]. rewrite Hr. rewrite Htx. reflexivity.
  - rewrite Htx. reflexivity.
Qed.

(** ** Status transitions and deletion of a sale *)

Lemma alter_presente {A} (f : A -> A) (m : gmap Z A) id v :
  m !! id = Some v -> alter f id m = <[id := f v]> m.
Proof.
  intros H. apply map_eq. intros j. rewrite lookup_alter, lookup_insert.
  destruct (decide (id = j)) as [<- |]; [rewrite H |]; reflexivity.
Qed.

Lemma apos_gerenciar_itens sa st id db : itens (apos_gerenciar sa st id db) = itens db.
Proof.
  unfold apos_gerenciar.
  repeat match goal with |- context [if ?c then _ else _] => destruct c end;
    try reflexivity; apply aplicar_ajustes_resto.
Qed.

(** C2. For an existing sale, [updateStatus] rejects a status outside
    Pendente, Concluida, Cancelada with the invalid-status error; with a valid
    status and an id that does not resolve it fails with sale-not-found; on an
    existing sale it succeeds and writes the new status, and the stock moves
    as follows: not at all when the status is the one the sale has, down by
    the quantity of every Product-kind line on a transition to Concluida, up
    by the same quantities on a transition away from Concluida, and not at
    all between Pendente and Cancelada. *)
Theorem updateStatus_transicoes db id status :
  integro db = true ->
  ((forall s, status = Some s -> s <> "Pendente" /\ s <> "Concluida" /\ s <> "Cancelada") ->
   VendaController.updateStatus id status db = (Falha 400 StatusInvalido, db)) /\
  (forall s, status = Some s -> s = "Pendente" \/ s = "Concluida" \/ s = "Cancelada" ->
     (vendas db !! id = None ->
      VendaController.updateStatus id status db = (Falha 400 VendaNaoEncontrada, db)) /\
     (forall v, vendas db !! id = Some v ->
        exists db',
          VendaController.updateStatus id status db = (Sucesso id, db') /\
          vendas db' = <[id := com_status v s]> (vendas db) /\
          itens db' = itens db /\
          (v_status v = s -> produtos db' = produtos db) /\
          (s = "Concluida" -> v_status v <> "Concluida" ->
           forall pid, produtos db' !! pid =
                       movimentado (-1) (itens_da_venda db id) pid <$> produtos db !! pid) /\
          (v_status v = "Concluida" -> s <> "Concluida" ->
           forall pid, produtos db' !! pid =
                       movimentado 1 (itens_da_venda db id) pid <$> produtos db !! pid) /\
          (v_status v <> s -> s <> "Concluida" -> v_status v <> "Concluida" ->
           produtos db' = produtos db))).
Proof.
  intros Hi. split.
  - intros Hinv. unfold VendaController.updateStatus.
    destruct status as [s |]; [| reflexivity].
    destruct (Hinv s eq_refl) as (H1 & H2 & H3).
    apply String.eqb_neq in H1, H2, H3.
    change (default EmptyString (Some s)) with s. unfold status_valido. rewrite H1, H2, H3.
    rewrite orb_true_r. reflexivity.
  - intros s -> Hs.
    assert (Hval : status_valido s = true).
    { destruct Hs as [-> | [-> | ->]]; reflexivity. }
    split.
    + intros Hv. unfold VendaController.updateStatus.
      rewrite (status_valido_verdadeira s Hval). change (default EmptyString (Some s)) with s.
      rewrite Hval. cbn [negb orb].
      cbv beta iota delta [transacao tx_bind tx_ler visao fora pend]. rewrite Hv.
      reflexivity.
    + intros v Hv. eexists. split; [apply updateStatus_sucesso; eassumption |].
      cbn [alterar_venda vendas itens produtos].
      rewrite apos_gerenciar_vendas, apos_gerenciar_itens.
      split; [apply (alter_presente (fun w => com_status w s)); exact Hv |].
      split; [reflexivity |].
      unfold apos_gerenciar.
      split; [| split; [| split]].
      * intros ->. rewrite bool_decide_eq_true_2 by reflexivity. reflexivity.
      * intros -> Hne pid. rewrite bool_decide_eq_false_2 by congruence.
        rewrite bool_decide_eq_true_2 by reflexivity. cbn [negb].
        apply estoque_apos_ajustes.
      * intros Hc Hne pid. rewrite bool_decide_eq_false_2 by congruence.
        rewrite bool_decide_eq_false_2 by congruence. rewrite Hc. cbn [negb andb].
        change (String.eqb "Concluida" "Concluida") with true. cbv iota.
        apply estoque_apos_ajustes.
      * intros H1 H2 H3. rewrite bool_decide_eq_false_2 by congruence.
        rewrite bool_decide_eq_false_2 by congruence.
        apply String.eqb_neq in H3. rewrite H3. reflexivity.
Qed.

Lemma updateStatus_transicoes_witness :
  integro loja = true /\
  exists db',
    VendaController.updateStatus 1 (Some "Concluida") loja = (Sucesso 1, db') /\
    produtos db' !! 1 = Some (com_estoque projetor (Some 2)) /\
    produtos db' !! 3 = Some barba.
Proof.
  split; [reflexivity |].
  destruct (updateStatus_transicoes loja 1 (Some "Concluida") eq_refl) as [_ H].
  destruct (H "Concluida" eq_refl (or_intror (or_introl eq_refl))) as [_ H'].
  destruct (H' (mkVenda 1 1 0 "Pendente" 3000 None) eq_refl)
    as (db' & E & _ & _ & _ & Hc & _).
  exists db'. split; [exact E |].
  split; rewrite (Hc eq_refl ltac:(discriminate)); reflexivity.
Defined.

Lemma sem_itens_apos_remover id l :
  List.filter (fun i => i_vendaId i =? id) (List.filter (fun i => negb (i_vendaId i =? id)) l) = [].
Proof.
  induction l as [| i l IH]; [reflexivity |]. cbn [List.filter].
  destruct (i_vendaId i =? id) eqn:E; cbn [negb]; [exact IH |].
  cbn [List.filter]. rewrite E. exact IH.
Qed.

(** C7. Deleting a sale that does not exist fails with sale-not-found.
    Deleting an existing sale removes the sale and all of its lines; when its
    status is Concluida the stock of every Product-kind line goes back up by
    the quantity of the line, otherwise no stock changes; and a failed
    deletion leaves the database as it was. *)
Theorem remove_reverte_estoque db id :
  integro db = true ->
  (vendas db !! id = None ->
   VendaController.remove id db = (Falha 404 VendaNaoEncontrada, db)) /\
  (forall v, vendas db !! id = Some v ->
     exists db',
       VendaController.remove id db = (Sucesso id, db') /\
       vendas db' = delete id (vendas db) /\
       itens db' = List.filter (fun i => negb (i_vendaId i =? id)) (itens db) /\
       itens_da_venda db' id = [] /\
       (v_status v = "Concluida" ->
        forall pid, produtos db' !! pid =
                    movimentado 1 (itens_da_venda db id) pid <$> produtos db !! pid) /\
       (v_status v <> "Concluida" -> produtos db' = produtos db)) /\
  (forall http e db', VendaController.remove id db = (Falha http e, db') -> db' = db).
Proof.
  intros Hi. split; [| split].
  - intros Hv. unfold VendaController.remove. rewrite Hv. reflexivity.
  - intros v Hv. eexists. split; [apply remove_sucesso; eassumption |].
    unfold itens_da_venda at 1. cbn [remover_venda vendas itens produtos].
    destruct (String.eqb (v_status v) "Concluida") eqn:Hs.
    + destruct (aplicar_ajustes_resto 1 (itens_com_produto db id) db) as (-> & -> & _).
      repeat split.
      * apply sem_itens_apos_remover.
      * intros _ pid. apply estoque_apos_ajustes.
      * intros Hne. apply String.eqb_eq in Hs. contradiction.
    + repeat split.
      * apply sem_itens_apos_remover.
      * intros Hc. rewrite Hc in Hs. discriminate Hs.
  - intros http e db'. apply remove_atomica.
Qed.

Lemma remove_reverte_estoque_witness :
  integro loja = true /\
  exists db',
    VendaController.remove 2 loja = (Sucesso 2, db') /\
    itens db' = [mkItemVenda 1 1 1 3 1000; mkItemVenda 4 3 2 4 2000] /\
    produtos db' !! 2 = Some (com_estoque lanche (Some 3)) /\
    produtos db' !! 3 = Some barba.
Proof.
  split; [reflexivity |].
  destruct (remove_reverte_estoque loja 2 eq_refl) as (_ & H & _).
  destruct (H (mkVenda 1 1 0 "Concluida" 9000 None) eq_refl)
    as (db' & E & _ & Hit & _ & Hc & _).
  exists db'. split; [exact E |]. split; [rewrite Hit; reflexivity |].
  split; rewrite (Hc eq_refl); reflexivity.
Defined.

(** C10. Completing a sale never looks at the stock on hand: for every
    existing sale that is not yet Concluida, [updateStatus] and [update] with
    status Concluida succeed, and every Product-kind product loses the
    quantity of its lines whatever stock it had, so that a stock [e] becomes
    [e - q], which is negative as soon as the lines ask for more than [e]. *)
Theorem concluir_sem_verificar_estoque db id v :
  integro db = true ->
  vendas db !! id = Some v ->
  v_status v <> "Concluida" ->
  (exists db',
     VendaController.updateStatus id (Some "Concluida") db = (Sucesso id, db') /\
     forall pid, produtos db' !! pid =
                 movimentado (-1) (itens_da_venda db id) pid <$> produtos db !! pid) /\
  (forall corpo, ca_status corpo = Some "Concluida" ->
     exists db',
       VendaController.update id corpo db = (Sucesso id, db') /\
       forall pid, produtos db' !! pid =
                   movimentado (-1) (itens_da_venda db id) pid <$> produtos db !! pid) /\
  (forall pid p e, p_tipo p = "Produto" -> p_estoque p = Some e ->
     p_estoque (movimentado (-1) (itens_da_venda db id) pid p) =
     Some (e - soma_quantidades (itens_da_venda db id) pid)).
Proof.
  intros Hi Hv Hne. split; [| split].
  - eexists. split; [apply (updateStatus_sucesso db id "Concluida" v); auto |].
    intros pid. cbn [alterar_venda produtos]. unfold apos_gerenciar.
    rewrite bool_decide_eq_false_2 by congruence.
    rewrite bool_decide_eq_true_2 by reflexivity. cbn [negb].
    apply estoque_apos_ajustes.
  - intros corpo Hs. eexists. split; [apply (update_concluir db id v corpo); auto |].
    intros pid. apply estoque_apos_ajustes_em. reflexivity.
  - intros pid p e Ht He. unfold movimentado. rewrite Ht.
    change (String.eqb "Produto" "Produto") with true. cbv iota.
    unfold mexer, com_estoque. cbn [p_estoque]. rewrite He.
    cbn [fmap option_fmap option_map]. f_equal; lia.
Qed.

Lemma concluir_sem_verificar_estoque_witness :
  integro loja = true /\
  exists db1 db2,
    VendaController.updateStatus 3 (Some "Concluida") loja = (Sucesso 3, db1) /\
    VendaController.update 3 (mkCorpoAtualizacao None (Some "Concluida") None) loja
      = (Sucesso 3, db2) /\
    produtos db1 !! 2 = Some (com_estoque lanche (Some (-3))) /\
    produtos db2 !! 2 = Some (com_estoque lanche (Some (-3))).
Proof.
  split; [reflexivity |].
  destruct (concluir_sem_verificar_estoque loja 3 (mkVenda 1 1 0 "Pendente" 8000 None)
              eq_refl eq_refl ltac:(discriminate)) as ((db1 & E1 & H1) & H2 & _).
  destruct (H2 (mkCorpoAtualizacao None (Some "Concluida") None) eq_refl) as (db2 & E2 & H2').
  exists db1, db2. repeat split; [exact E1 | exact E2 | |].
  - rewrite H1. reflexivity.
  - rewrite H2'. reflexivity.
Defined.

(** ** Creation of a sale *)

Lemma create_campos agora corpo db id db' :
  VendaController.create agora corpo db = (Sucesso id, db') ->
  id = proxVenda db /\
  vendas db' = <[id := venda_criada agora corpo]> (vendas db) /\
  itens db' = itens db ++ numerar id (proxItem db) (List.map linha_de (cv_itens corpo)) /\
  (v_status (venda_criada agora corpo) = "Concluida" ->
   forall pid,
     produtos db' !! pid =
     movimentado (-1) (numerar id (proxItem db) (List.map linha_de (cv_itens corpo))) pid
       <$> produtos db !! pid) /\
  (v_status (venda_criada agora corpo) <> "Concluida" -> produtos db' = produtos db).
Proof.
  intros H. apply create_resultado in H. destruct H as (-> & _ & _ & ->).
  destruct (inserir_venda_campos (venda_criada agora corpo)
              (List.map linha_de (cv_itens corpo)) db) as (Hp & Hv & Hit).
  split; [reflexivity |].
  destruct (String.eqb (v_status (venda_criada agora corpo)) "Concluida") eqn:Hs.
  - destruct (passo_baixa_resto (cv_itens corpo)
                (inserir_venda (venda_criada agora corpo)
                               (List.map linha_de (cv_itens corpo)) db)) as [-> ->].
    repeat split; try assumption.
    + intros _ pid. rewrite (passo_baixa_lookup (proxVenda db) (proxItem db)), Hp. reflexivity.
    + intros Hne. apply String.eqb_eq in Hs. contradiction.

  - cbv beta. repeat split; try assumption.
    + intros Hc. rewrite Hc in Hs. discriminate Hs.
    + intros _. exact Hp.
Qed.

(** C4. [create] is all or nothing: when it fails the database is the one it
    started from; when it succeeds the database has the new sale row, one
    line row for every line of the request and, if the status of the new sale
    is Concluida, the stock of every Product-kind line decremented by the
    quantity of the line, already at creation; with any other status no stock
    changes.  The rows are given for a request whose numbers are integers
    that JavaScript holds exactly and whose total is exact ([pedido_seguro]):
    there [parseInt] and [parseFloat] give the numbers of the request back
    and the sum of the line totals is not rounded. *)
Theorem create_tudo_ou_nada agora corpo db :
  (forall http e db', VendaController.create agora corpo db = (Falha http e, db') -> db' = db) /\
  (pedido_seguro corpo = true ->
   forall id db', VendaController.create agora corpo db = (Sucesso id, db') ->
     id = proxVenda db /\
     vendas db' = <[id := venda_criada agora corpo]> (vendas db) /\
     itens db' = itens db ++ numerar id (proxItem db) (List.map linha_de (cv_itens corpo)) /\
     (v_status (venda_criada agora corpo) = "Concluida" ->
      forall pid,
        produtos db' !! pid =
        movimentado (-1) (numerar id (proxItem db) (List.map linha_de (cv_itens corpo))) pid
          <$> produtos db !! pid) /\
     (v_status (venda_criada agora corpo) <> "Concluida" -> produtos db' = produtos db)).
Proof.
  split.
  - intros http e db'. apply create_atomica.
  - intros _ id db'. apply create_campos.
Qed.

Lemma create_tudo_ou_nada_witness :
  exists db',
    VendaController.create 0 pedido_concluido loja = (Sucesso 4, db') /\
    itens db' = itens loja ++ [mkItemVenda 5 4 1 2 1000; mkItemVenda 6 4 3 1 5000] /\
    produtos db' !! 1 = Some (com_estoque projetor (Some 3)) /\
    produtos db' !! 3 = Some barba.
Proof.
  destruct (VendaController.create 0 pedido_concluido loja) as [r db'] eqn:E.
  assert (Hr : r = Sucesso 4) by (vm_compute in E; congruence). subst r.
  destruct (create_tudo_ou_nada 0 pedido_concluido loja) as [_ H].
  destruct (H eq_refl 4 db' E) as (_ & _ & Hit & Hc & _).
  exists db'. split; [reflexivity |]. split; [exact Hit |].
  split; rewrite (Hc eq_refl); reflexivity.
Defined.

(** C9, as stated, fails: a total of 0 in the request is not persisted. *)
Lemma create_total_zero_recalculado :
  cv_total pedido_total_zero = Some 0 /\
  exists db',
    VendaController.create 0 pedido_total_zero loja = (Sucesso 4, db') /\
    v_total <$> vendas db' !! 4 = Some 2000.
Proof.
  split; [reflexivity |]. eexists. split; vm_compute; reflexivity.
Qed.

(** C9, amended. After a successful [create] the persisted total is the total
    of the request when the request carries one that is not zero, and the sum
    of quantity times unit price over the lines of the request when it carries
    none or carries zero.  This is for a request whose numbers are integers
    that JavaScript holds exactly and whose sum of line totals is exact
    ([pedido_seguro]); beyond that the code adds rounded products. *)
Theorem create_total agora corpo db id db' :
  pedido_seguro corpo = true ->
  VendaController.create agora corpo db = (Sucesso id, db') ->
  exists v,
    vendas db' !! id = Some v /\
    (forall t, cv_total corpo = Some t -> t <> 0 -> v_total v = t) /\
    (cv_total corpo = None \/ cv_total corpo = Some 0 ->
     v_total v = total_pedido (cv_itens corpo)).
Proof.
  intros _ H. apply create_campos in H. destruct H as (_ & Hv & _).
  exists (venda_criada agora corpo). split; [rewrite Hv; apply lookup_insert_eq |].
  unfold venda_criada. cbn [v_total]. split.
  - intros t -> Ht. unfold verdadeiro. apply Z.eqb_neq in Ht. rewrite Ht. reflexivity.
  - intros [-> | ->]; reflexivity.
Qed.

Lemma create_total_witness :
  exists db' v,
    VendaController.create 0 pedido_concluido loja = (Sucesso 4, db') /\
    vendas db' !! 4 = Some v /\ v_total v = 500.
Proof.
  destruct (VendaController.create 0 pedido_concluido loja) as [r db'] eqn:E.
  assert (Hr : r = Sucesso 4) by (vm_compute in E; congruence). subst r.
  destruct (create_total 0 pedido_concluido loja 4 db' eq_refl E) as (v & Hv & Ht & _).
  exists db', v. split; [reflexivity |]. split; [exact Hv |].
  apply (Ht 500); [reflexivity | discriminate].
Defined.

(** ** Unit price and stock check of a line *)

Lemma validar_itens_preco l : forall n item,
  validar_itens n l = None -> In item l -> verdadeiro (it_precoUnit item) = true.
Proof.
  induction l as [| x l IH]; intros n item Hv Hin; [destruct Hin |].
  cbn [validar_itens] in Hv.
  destruct (negb (verdadeiro (it_produtoId x))); [discriminate |].
  destruct (negb (verdadeiro (it_quantidade x)) || _); [discriminate |].
  destruct (verdadeiro (it_precoUnit x)) eqn:Hp; cbn [negb orb] in Hv; [| discriminate].
  destruct (default 0 (it_precoUnit x) <? 0); [discriminate |].
  destruct Hin as [<- | Hin]; [exact Hp | eapply IH; eassumption].
Qed.

Lemma disponivel_sem_item db pid q p :
  produtos db !! pid = Some p -> p_status p = "Ativo" ->
  verificarDisponibilidadeProduto db pid (Some q) None =
  if estoque_num (p_estoque p) <? q
  then inl (EstoqueInsuficiente (p_estoque p) q) else inr (p, Some q).
Proof.
  intros Hp Hs. unfold verificarDisponibilidadeProduto. rewrite Hp, Hs. reflexivity.
Qed.

(** C8, as stated, fails for [create] of a sale: a line without unit price is
    rejected, the catalog price is not taken. *)
Lemma create_sem_preco_rejeitada :
  it_precoUnit <$> cv_itens pedido_sem_preco = [None] /\
  p_preco <$> produtos loja !! 1 = Some 129900 /\
  VendaController.create 0 pedido_sem_preco loja = (Falha 400 (ItemInvalido 1 CPrecoUnit), loja).
Proof. repeat split. Qed.

(** C8, amended. A line added with [ItemVendaController.create] and no unit
    price takes the current price of the catalog entry; [VendaController.create]
    does not default: a request with a line that has no unit price fails and
    writes nothing. *)
Theorem preco_padrao_do_catalogo db :
  (forall vendaId produtoId q v p,
     vendaId <> 0 -> produtoId <> 0 -> 0 < q ->
     vendas db !! vendaId = Some v -> v_status v = "Pendente" ->
     produtos db !! produtoId = Some p -> p_status p = "Ativo" ->
     q <= estoque_num (p_estoque p) ->
     exists db',
       ItemVendaController.create (mkCorpoItem (Some vendaId) (Some produtoId) (Some q) None) db
       = (Sucesso (mkItemVenda (proxItem db) vendaId produtoId q (p_preco p)), db') /\
       itens db' = itens db ++ [mkItemVenda (proxItem db) vendaId produtoId q (p_preco p)]) /\
  (forall agora pedido item,
     In item (cv_itens pedido) -> it_precoUnit item = None ->
     exists http e, VendaController.create agora pedido db = (Falha http e, db)).
Proof.
  split.
  - intros vendaId produtoId q v p Hvid Hpid Hq Hv Hs Hp Ha Hest.
    assert (Hval : validarItemVenda (mkCorpoItem (Some vendaId) (Some produtoId) (Some q) None)
                                    false = []).
    { unfold validarItemVenda, verdadeiro.
      cbn [ci_vendaId ci_produtoId ci_quantidade ci_precoUnit].
      apply Z.eqb_neq in Hvid, Hpid. rewrite Hvid, Hpid.
      assert (Hq' : (q <=? 0) = false) by (apply Z.leb_gt; lia). rewrite Hq'. reflexivity. }
    assert (Hdisp : verificarDisponibilidadeProduto db produtoId (Some q) None = inr (p, Some q)).
    { rewrite (disponivel_sem_item db produtoId q p Hp Ha).
      assert (Hl : (estoque_num (p_estoque p) <? q) = false) by (apply Z.ltb_ge; lia).
      rewrite Hl. reflexivity. }
    pose proof (create_sucesso _ db vendaId produtoId q v p (Some q) Hval eq_refl eq_refl eq_refl
                  (modificavel_pendente db vendaId v Hv Hs) Hdisp) as E.
    cbv zeta in E. cbn [ci_precoUnit verdadeiro] in E.
    eexists. split; [exact E | reflexivity].
  - intros agora pedido item Hin Hnone.
    destruct (VendaController.create agora pedido db) as [[id | http e] db'] eqn:E.
    + apply create_resultado in E. destruct E as (_ & Hval & _).
      pose proof (validar_itens_preco _ _ _ Hval Hin) as Hp. rewrite Hnone in Hp. discriminate Hp.
    + exists http, e. rewrite (create_atomica _ _ _ _ _ _ E). reflexivity.
Qed.

Lemma preco_padrao_do_catalogo_witness :
  exists db',
    ItemVendaController.create (mkCorpoItem (Some 1) (Some 1) (Some 1) None) loja
    = (Sucesso (mkItemVenda 5 1 1 1 129900), db') /\
    itens db' = itens loja ++ [mkItemVenda 5 1 1 1 129900].
Proof.
  destruct (preco_padrao_do_catalogo loja) as [H _].
  apply (H 1 1 1 (mkVenda 1 1 0 "Pendente" 3000 None) projetor);
    first [reflexivity | discriminate | (vm_compute; discriminate)].
Defined.

Lemma verificar_produto_isento db item p :
  produtos db !! default 0 (it_produtoId item) = Some p ->
  p_tipo p <> "Produto" ->
  verificar_produto db item = [].
Proof.
  intros Hp Ht. unfold verificar_produto. rewrite Hp.
  apply String.eqb_neq in Ht. rewrite Ht. reflexivity.
Qed.

Lemma verificar_produto_insuficiente db item p :
  produtos db !! default 0 (it_produtoId item) = Some p ->
  p_tipo p = "Produto" ->
  estoque_num (p_estoque p) < default 0 (it_quantidade item) ->
  verificar_produto db item =
  [EstoqueInsuficienteProduto (p_nome p) (estoque_num (p_estoque p))
                              (default 0 (it_quantidade item))].
Proof.
  intros Hp Ht Hlt. unfold verificar_produto. rewrite Hp, Ht.
  apply Z.ltb_lt in Hlt. rewrite Hlt. reflexivity.
Qed.

(** [ItemVendaController.create] turns down a line that asks for more than
    the stock of the entry, whatever the kind of the entry, reports the stock
    and the quantity asked for, and writes nothing. *)
Lemma create_item_estoque_insuficiente db vendaId produtoId q pu v p :
  vendaId <> 0 -> produtoId <> 0 -> 0 < q -> 0 <= default 0 pu ->
  vendas db !! vendaId = Some v -> v_status v = "Pendente" ->
  produtos db !! produtoId = Some p -> p_status p = "Ativo" ->
  estoque_num (p_estoque p) < q ->
  ItemVendaController.create (mkCorpoItem (Some vendaId) (Some produtoId) (Some q) pu) db
  = (Falha 400 (EstoqueInsuficiente (p_estoque p) q), db).
Proof.
  intros Hvid Hpid Hq Hpu Hv Hs Hp Ha Hlt. unfold ItemVendaController.create.
  assert (Hval : validarItemVenda (mkCorpoItem (Some vendaId) (Some produtoId) (Some q) pu)
                                  false = []).
  { unfold validarItemVenda, verdadeiro.
    cbn [ci_vendaId ci_produtoId ci_quantidade ci_precoUnit].
    apply Z.eqb_neq in Hvid, Hpid. rewrite Hvid, Hpid.
    assert (Hq' : (q <=? 0) = false) by (apply Z.leb_gt; lia). rewrite Hq'.
    destruct pu as [x |]; [| reflexivity].
    assert (Hx : (x <? 0) = false) by (apply Z.ltb_ge; exact Hpu). rewrite Hx. reflexivity. }
  rewrite Hval. cbn [ci_vendaId ci_produtoId ci_quantidade].
  rewrite (modificavel_pendente db vendaId v Hv Hs).
  rewrite (disponivel_sem_item db produtoId q p Hp Ha).
  apply Z.ltb_lt in Hlt. rewrite Hlt. reflexivity.
Qed.

(** C3: the code at the failing input.  Adding one unit of the service to the
    pending sale 1 is refused for lack of stock, and nothing is written, while
    a new sale with the same line is accepted. *)
Theorem adicionar_servico_sem_isencao :
  p_tipo <$> produtos loja !! 3 = Some "Servico" /\
  ItemVendaController.create (mkCorpoItem (Some 1) (Some 3) (Some 1) (Some 5000)) loja
  = (Falha 400 (EstoqueInsuficiente None 1), loja) /\
  exists db', VendaController.create 0 pedido_servico loja = (Sucesso 4, db').
Proof.
  split; [reflexivity |]. split; [reflexivity |].
  eexists. vm_compute. reflexivity.
Qed.

(** ** Lines of a closed sale *)

(** C5, as stated, fails: on the completed sale 2 a malformed line is turned
    down by the field validation, before the modifiability guard is asked. *)
Lemma linha_invalida_em_venda_concluida :
  v_status <$> vendas loja !! 2 = Some "Concluida" /\
  ItemVendaController.create (mkCorpoItem (Some 2) (Some 1) (Some 0) None) loja
  = (Falha 400 (DadosInvalidos [CQuantidade]), loja).
Proof. split; reflexivity. Qed.

(** C5, amended. On a sale whose status is Concluida or Cancelada every line
    mutation fails and leaves the whole database as it was; the error is the
    sale-not-modifiable one of the stored status whenever the body passes the
    field validation (a body that does not is rejected for that, before the
    guard).  So a line mutation can only succeed on a sale that is neither
    Concluida nor Cancelada. *)
Theorem venda_fechada_nao_modificavel db vendaId v :
  vendas db !! vendaId = Some v ->
  v_status v = "Concluida" \/ v_status v = "Cancelada" ->
  (forall corpo, ci_vendaId corpo = Some vendaId ->
     exists e,
       ItemVendaController.create corpo db = (Falha 400 e, db) /\
       (validarItemVenda corpo false = [] -> e = nao_modificavel (v_status v))) /\
  (forall id item corpo, buscar_item db id = Some item -> i_vendaId item = vendaId ->
     exists e,
       ItemVendaController.update id corpo db = (Falha 400 e, db) /\
       (validarItemVenda corpo true = [] -> e = nao_modificavel (v_status v))) /\
  (forall id item, buscar_item db id = Some item -> i_vendaId item = vendaId ->
     ItemVendaController.remove id db = (Falha 400 (nao_modificavel (v_status v)), db)).
Proof.
  intros Hv Hs. pose proof (nao_modificavel_erro db vendaId v Hv Hs) as Hg.
  split; [| split].
  - intros corpo Hvid. unfold ItemVendaController.create. rewrite Hvid.
    destruct (validarItemVenda corpo false) as [| c l] eqn:Hval.
    + destruct (ci_produtoId corpo) as [pid |] eqn:Hpid.
      * rewrite Hg. eexists. split; [reflexivity | reflexivity].
      * exfalso. unfold validarItemVenda in Hval. rewrite Hpid in Hval.
        cbn [verdadeiro] in Hval.
        destruct (verdadeiro (ci_vendaId corpo)); discriminate Hval.
    + eexists. split; [reflexivity | discriminate].
  - intros id item corpo Hi <-. unfold ItemVendaController.update.
    destruct (validarItemVenda corpo true) as [| c l] eqn:Hval.
    + rewrite Hi, Hg. eexists. split; reflexivity.
    + eexists. split; [reflexivity | discriminate].
  - intros id item Hi <-. unfold ItemVendaController.remove. rewrite Hi, Hg. reflexivity.
Qed.

Lemma venda_fechada_nao_modificavel_witness :
  ItemVendaController.create (mkCorpoItem (Some 2) (Some 1) (Some 1) None) loja
    = (Falha 400 VendaConcluida, loja) /\
  ItemVendaController.update 2 (mkCorpoItem None None (Some 1) None) loja
    = (Falha 400 VendaConcluida, loja) /\
  ItemVendaController.remove 2 loja = (Falha 400 VendaConcluida, loja).
Proof.
  destruct (venda_fechada_nao_modificavel loja 2 (mkVenda 1 1 0 "Concluida" 9000 None)
              eq_refl (or_introl eq_refl)) as (Hc & Hu & Hr).
  split; [| split].
  - destruct (Hc (mkCorpoItem (Some 2) (Some 1) (Some 1) None) eq_refl) as (e & E & He).
    rewrite E, (He eq_refl). reflexivity.
  - destruct (Hu 2 (mkItemVenda 2 2 2 2 2000) (mkCorpoItem None None (Some 1) None)
                eq_refl eq_refl) as (e & E & He).
    rewrite E, (He eq_refl). reflexivity.
  - apply (Hr 2 (mkItemVenda 2 2 2 2 2000)); reflexivity.
Defined.

(** C6. On an existing line of a pending sale, an update that names a product
    or a quantity checks the stock of the product asked for against the
    quantity asked for minus the quantity the line already has: it fails with
    insufficient stock exactly when the stock is below that difference, and
    otherwise goes through with the quantity asked for, even when that
    quantity alone exceeds the stock.  (The id of a stored line is an
    auto-increment key, hence not 0, which the code would take for "no
    line".)  The numbers of the request, the stored quantity and their
    difference are integers that JavaScript holds exactly: there [parseInt]
    gives the quantity asked for back and the subtraction is not rounded. *)
Theorem update_verifica_quantidade_liquida db id corpo itemAtual v p :
  corpo_seguro corpo = true ->
  inteiro_seguro (i_quantidade itemAtual) = true ->
  inteiro_seguro (quantidade_alvo corpo itemAtual - i_quantidade itemAtual) = true ->
  id <> 0 ->
  buscar_item db id = Some itemAtual ->
  validarItemVenda corpo true = [] ->
  vendas db !! i_vendaId itemAtual = Some v ->
  v_status v = "Pendente" ->
  verdadeiro (ci_produtoId corpo) || verdadeiro (ci_quantidade corpo) = true ->
  produtos db !! produto_alvo corpo itemAtual = Some p ->
  p_status p = "Ativo" ->
  let liquida := quantidade_alvo corpo itemAtual - i_quantidade itemAtual in
  (estoque_num (p_estoque p) < liquida ->
   ItemVendaController.update id corpo db
   = (Falha 400 (EstoqueInsuficiente (p_estoque p) liquida), db)) /\
  (liquida <= estoque_num (p_estoque p) ->
   exists item db',
     ItemVendaController.update id corpo db = (Sucesso item, db') /\
     i_produtoId item = produto_alvo corpo itemAtual /\
     i_quantidade item = quantidade_alvo corpo itemAtual).
Proof.
  intros _ _ _ Hid Hi Hval Hv Hs Hc Hp Ha liquida.
  assert (Hdisp : verificarDisponibilidadeProduto db (produto_alvo corpo itemAtual)
                    (Some (quantidade_alvo corpo itemAtual)) (Some id) =
                  if estoque_num (p_estoque p) <? liquida
                  then inl (EstoqueInsuficiente (p_estoque p) liquida)
                  else inr (p, Some liquida)).
  { unfold verificarDisponibilidadeProduto. rewrite Hp, Ha.
    change (negb (String.eqb "Ativo" "Ativo")) with false. cbv iota.
    unfold verdadeiro. apply Z.eqb_neq in Hid. rewrite Hid. cbn [negb].
    change (default 0 (Some id)) with id. rewrite Hi. reflexivity. }
  split.
  - intros Hlt. unfold ItemVendaController.update.
    rewrite Hval, Hi, (modificavel_pendente db _ v Hv Hs), Hc.
    fold (produto_alvo corpo itemAtual). fold (quantidade_alvo corpo itemAtual).
    rewrite Hdisp. apply Z.ltb_lt in Hlt. rewrite Hlt. reflexivity.
  - intros Hge.
    assert (Hl : (estoque_num (p_estoque p) <? liquida) = false) by (apply Z.ltb_ge; lia).
    rewrite Hl in Hdisp.
    eexists. eexists. split.
    + apply (update_sucesso_item db id corpo itemAtual v p); try assumption.
      * apply modificavel_pendente; assumption.
      * intros _. eexists. exact Hdisp.
    + unfold atualizar_campos, produto_alvo, quantidade_alvo, ItemVendaController.se_verdadeiro.
      cbn [i_produtoId i_quantidade].
      split.
      * destruct (verdadeiro (ci_produtoId corpo)) eqn:E; [| reflexivity].
        destruct (ci_produtoId corpo); [reflexivity | discriminate].
      * destruct (verdadeiro (ci_quantidade corpo)) eqn:E; [| reflexivity].
        destruct (ci_quantidade corpo); [reflexivity | discriminate].
Qed.

(** Line 1 has 3 units of a product with 5 in stock: asking for 7 needs 4. *)
Lemma update_verifica_quantidade_liquida_witness :
  exists item db',
    ItemVendaController.update 1 (mkCorpoItem None None (Some 7) None) loja
    = (Sucesso item, db') /\
    i_quantidade item = 7 /\
  ItemVendaController.update 1 (mkCorpoItem None None (Some 9) None) loja
    = (Falha 400 (EstoqueInsuficiente (Some 5) 6), loja).
Proof.
  destruct (update_verifica_quantidade_liquida loja 1 (mkCorpoItem None None (Some 7) None)
              (mkItemVenda 1 1 1 3 1000) (mkVenda 1 1 0 "Pendente" 3000 None) projetor
              eq_refl eq_refl eq_refl
              ltac:(discriminate) eq_refl eq_refl eq_refl eq_refl eq_refl eq_refl eq_refl)
    as [_ Hok].
  destruct (update_verifica_quantidade_liquida loja 1 (mkCorpoItem None None (Some 9) None)
              (mkItemVenda 1 1 1 3 1000) (mkVenda 1 1 0 "Pendente" 3000 None) projetor
              eq_refl eq_refl eq_refl
              ltac:(discriminate) eq_refl eq_refl eq_refl eq_refl eq_refl eq_refl eq_refl)
    as [Hfalha _].
  destruct (Hok ltac:(vm_compute; discriminate)) as (item & db' & E & _ & Hq).
  exists item, db'. split; [exact E |]. split; [exact Hq |].
  apply Hfalha. reflexivity.
Defined.

(** ** The total of a sale after a line mutation *)

Lemma somar_itens_total l : somar_itens l = total_linhas l.
Proof. unfold somar_itens, total_linhas. rewrite fold_left_soma. lia. Qed.

(** After [remove] the persisted total is the one of the lines before the
    deletion: [atualizarTotalVenda] reads them through the module-level
    client, which does not see the pending delete. *)
Lemma remove_total_anterior db id item v :
  buscar_item db id = Some item ->
  vendas db !! i_vendaId item = Some v ->
  v_status v = "Pendente" ->
  exists db',
    ItemVendaController.remove id db = (Sucesso (i_vendaId item), db') /\
    itens db' = List.filter (fun i => negb (i_id i =? id)) (itens db) /\
    v_total <$> vendas db' !! i_vendaId item
    = Some (total_linhas (itens_da_venda db (i_vendaId item))).
Proof.
  intros Hi Hv Hs. eexists. split.
  - apply (remove_sucesso_item db id item v Hi). apply modificavel_pendente; assumption.
  - split; [reflexivity |].
    cbn [remover_item total_gravado alterar_venda vendas].
    rewrite lookup_alter, decide_True by reflexivity. rewrite Hv. cbn.
    rewrite somar_itens_total. reflexivity.
Qed.

(** The same holds for the two other mutations: the persisted total is the
    one of the lines as they were committed before the insert or the update. *)
Lemma create_total_anterior corpo db vendaId produtoId q v p qn :
  validarItemVenda corpo false = [] ->
  ci_vendaId corpo = Some vendaId -> ci_produtoId corpo = Some produtoId ->
  ci_quantidade corpo = Some q ->
  verificarVendaModificavel db vendaId = inr v ->
  verificarDisponibilidadeProduto db produtoId (Some q) None = inr (p, qn) ->
  exists item db',
    ItemVendaController.create corpo db = (Sucesso item, db') /\
    itens db' = itens db ++ [item] /\
    v_total <$> vendas db' !! vendaId = Some (total_linhas (itens_da_venda db vendaId)).
Proof.
  intros Hval Hvid Hpid Hq Hmod Hdisp.
  pose proof (create_sucesso corpo db vendaId produtoId q v p qn Hval Hvid Hpid Hq Hmod Hdisp)
    as E. cbv zeta in E.
  eexists. eexists. split; [exact E |]. split; [reflexivity |].
  cbn [inserir_item total_gravado alterar_venda vendas].
  rewrite lookup_alter, decide_True by reflexivity.
  rewrite (modificavel_venda _ _ _ Hmod). cbn. rewrite somar_itens_total. reflexivity.
Qed.

Lemma update_total_anterior db id corpo itemAtual v p :
  validarItemVenda corpo true = [] ->
  buscar_item db id = Some itemAtual ->
  verificarVendaModificavel db (i_vendaId itemAtual) = inr v ->
  produtos db !! produto_alvo corpo itemAtual = Some p ->
  (verdadeiro (ci_produtoId corpo) || verdadeiro (ci_quantidade corpo) = true ->
   exists r, verificarDisponibilidadeProduto db (produto_alvo corpo itemAtual)
               (Some (quantidade_alvo corpo itemAtual)) (Some id) = inr r) ->
  exists item db',
    ItemVendaController.update id corpo db = (Sucesso item, db') /\
    v_total <$> vendas db' !! i_vendaId itemAtual
    = Some (total_linhas (itens_da_venda db (i_vendaId itemAtual))).
Proof.
  intros Hval Hi Hmod Hp Hdisp.
  pose proof (update_sucesso_item db id corpo itemAtual v p Hval Hi Hmod Hp Hdisp) as E.
  cbv zeta in E. eexists. eexists. split; [exact E |].
  cbn [atualizar_item total_gravado alterar_venda vendas].
  rewrite lookup_alter, decide_True by reflexivity.
  rewrite (modificavel_venda _ _ _ Hmod). cbn. rewrite somar_itens_total. reflexivity.
Qed.

(** C1: the code at the failing input.  Sale 1 is pending, its only line is
    3 units at 1000 and its total is 3000.  Deleting the line succeeds, the
    sale has no line left, and its persisted total is still 3000. *)
Theorem total_desatualizado_apos_remover :
  exists db',
    ItemVendaController.remove 1 loja = (Sucesso 1, db') /\
    itens_da_venda db' 1 = [] /\
    total_linhas (itens_da_venda db' 1) = 0 /\
    v_total <$> vendas db' !! 1 = Some 3000.
Proof. eexists. repeat split; vm_compute; reflexivity. Qed.

(** ** The earlier revision of updateStatus *)

Lemma ajustar_estoque_de_todos_ok sinal l : forall db0 w,
  Forall (fun i => is_Some (produtos (w db0) !! i_produtoId i)) l ->
  ajustar_estoque_de_todos sinal l (mkTx db0 w) =
  (inr tt, mkTx db0 (fun b => aplicar_a_todos sinal l (w b))).
Proof.
  induction l as [| item l IH]; intros db0 w Hall; [reflexivity |].
  inversion Hall as [| ? ? [p Hp] Hrest]; subst.
  unfold ajustar_estoque_de_todos in *. cbn [para_cada]. unfold tx_bind at 1.
  unfold tx_produto_update, tx_bind, tx_ler, visao; cbn [fora pend].
  rewrite Hp. unfold tx_escrever; cbn [fora pend]. rewrite IH; [reflexivity |].
  eapply Forall_impl; [exact Hrest |]. intros i [x Hx]. cbv beta.
  rewrite ajustar_estoque_lookup, Hx. eexists; reflexivity.
Qed.

Lemma aplicar_a_todos_lookup sinal pid l : forall db,
  produtos (aplicar_a_todos sinal l db) !! pid =
  mexer (sinal * soma_quantidades l pid) <$> produtos db !! pid.
Proof.
  induction l as [| item l IH]; intros db; unfold aplicar_a_todos in *;
    cbn [fold_left soma_quantidades fold_right].
  - rewrite Z.mul_0_r. destruct (produtos db !! pid); cbn; [rewrite mexer_0 |]; reflexivity.
  - rewrite IH, ajustar_estoque_lookup. fold (soma_quantidades l pid).
    destruct (decide (i_produtoId item = pid)) as [-> | Hne].
    + rewrite Z.eqb_refl. destruct (produtos db !! pid); cbn; [| reflexivity].
      rewrite mexer_mexer. do 2 f_equal; lia.
    + apply Z.eqb_neq in Hne. rewrite Hne, Z.add_0_l.
      destruct (produtos db !! pid); reflexivity.
Qed.

Lemma aplicar_a_todos_vendas sinal l : forall db,
  vendas (aplicar_a_todos sinal l db) = vendas db.
Proof.
  induction l as [| item l IH]; intros db; unfold aplicar_a_todos in *; cbn [fold_left];
    [reflexivity | rewrite IH; reflexivity].
Qed.

Lemma integro_itens_todos db vendaId :
  integro db = true ->
  Forall (fun i => is_Some (produtos db !! i_produtoId i)) (itens_da_venda db vendaId).
Proof.
  intros Hi. unfold integro in Hi. rewrite forallb_forall in Hi.
  apply Forall_forall. intros i Hin. apply list_elem_of_In, filter_In in Hin.
  destruct Hin as [Hin _]. specialize (Hi _ Hin). apply bool_decide_eq_true in Hi. exact Hi.
Qed.

(** The earlier revision of [updateStatus] moves the stock of the
    Product-kind products exactly as the current one does; it differs on the
    other kinds, whose stock it moves as well. *)
Lemma updateStatus_anterior_concluir db id v :
  integro db = true ->
  vendas db !! id = Some v ->
  v_status v <> "Concluida" ->
  exists db',
    VendaControllerAnterior.updateStatus id (Some "Concluida") db = (Sucesso id, db') /\
    (forall pid, produtos db' !! pid =
                 mexer (- soma_quantidades (itens_da_venda db id) pid) <$> produtos db !! pid) /\
    (forall pid p, produtos db !! pid = Some p -> p_tipo p = "Produto" ->
                   produtos db' !! pid = Some (movimentado (-1) (itens_da_venda db id) pid p)).
Proof.
  intros Hi Hv Hne.
  assert (E : VendaControllerAnterior.updateStatus id (Some "Concluida") db =
              (Sucesso id,
               alterar_venda id (fun v => com_status v "Concluida")
                 (aplicar_a_todos (-1) (itens_da_venda db id) db))).
  { unfold VendaControllerAnterior.updateStatus.
    change (negb (verdadeira (Some "Concluida"))
            || negb (status_valido (default EmptyString (Some "Concluida")))) with false.
    cbv iota. unfold transacao. unfold tx_bind at 1. unfold tx_ler at 1. unfold visao at 1.
    cbn [fora pend]. rewrite Hv. unfold tx_bind at 1. unfold gerenciar_estoque_de_todos.
    rewrite bool_decide_eq_false_2 by congruence.
    rewrite bool_decide_eq_true_2 by reflexivity. cbn [negb].
    rewrite ajustar_estoque_de_todos_ok by (apply integro_itens_todos; exact Hi).
    unfold tx_bind at 1. unfold tx_venda_update, tx_bind, tx_ler, visao. cbn [fora pend].
    rewrite aplicar_a_todos_vendas, Hv. reflexivity. }
  eexists. split; [exact E |]. cbn [alterar_venda produtos].
  assert (Hl : forall pid, produtos (aplicar_a_todos (-1) (itens_da_venda db id) db) !! pid =
               mexer (- soma_quantidades (itens_da_venda db id) pid) <$> produtos db !! pid).
  { intros pid. rewrite aplicar_a_todos_lookup. do 2 f_equal; lia. }
  split; [exact Hl |].
  intros pid p Hp Ht. rewrite Hl, Hp. unfold movimentado. rewrite Ht.
  change (String.eqb "Produto" "Produto") with true. cbn. do 2 f_equal; lia.
Qed.

(** ** Line mutations: what they write and what they leave *)

Lemma atualizarTotalVenda_falha vendaId db w :
  vendas db !! vendaId = None ->
  atualizarTotalVenda vendaId (mkTx db w) = (inl (ErroPrisma "P2025"), mkTx db w).
Proof.
  intros Hv. unfold atualizarTotalVenda, prisma_venda_update, tx_bind, prisma_ler, lancar.
  cbn [fora pend]. rewrite Hv. reflexivity.
Qed.

(** Every way [ItemVendaController.create] can end: a failure with the
    database untouched, or the insert on top of the recomputed total. *)
Lemma create_item_casos corpo db :
  (exists e, ItemVendaController.create corpo db = (Falha 400 e, db)) \/
  (exists vendaId produtoId q v p qn,
     validarItemVenda corpo false = [] /\
     ci_vendaId corpo = Some vendaId /\ ci_produtoId corpo = Some produtoId /\
     ci_quantidade corpo = Some q /\
     verificarVendaModificavel db vendaId = inr v /\
     verificarDisponibilidadeProduto db produtoId (Some q) None = inr (p, qn) /\
     ItemVendaController.create corpo db =
     (Sucesso (mkItemVenda (proxItem db) vendaId produtoId q (preco_final corpo p)),
      inserir_item vendaId produtoId q (preco_final corpo p) (total_gravado vendaId db))).
Proof.
  destruct (validarItemVenda corpo false) as [| c l] eqn:Hval.
  2: { left. eexists. unfold ItemVendaController.create. rewrite Hval. reflexivity. }
  destruct (ci_vendaId corpo) as [vendaId |] eqn:Hvid.
  2: { left. eexists. unfold ItemVendaController.create. rewrite Hval, Hvid. reflexivity. }
  destruct (ci_produtoId corpo) as [produtoId |] eqn:Hpid.
  2: { left. eexists. unfold ItemVendaController.create. rewrite Hval, Hvid, Hpid. reflexivity. }
  destruct (verificarVendaModificavel db vendaId) as [e | v] eqn:Hmod.
  { left. eexists. unfold ItemVendaController.create. rewrite Hval, Hvid, Hpid, Hmod. reflexivity. }
  destruct (verificarDisponibilidadeProduto db produtoId (ci_quantidade corpo) None)
    as [e | [p qn]] eqn:Hdisp.
  { left. eexists. unfold ItemVendaController.create.
    rewrite Hval, Hvid, Hpid, Hmod, Hdisp. reflexivity. }
  destruct (ci_quantidade corpo) as [q |] eqn:Hq.
  - right. exists vendaId, produtoId, q, v, p, qn. repeat split; try reflexivity; try assumption.
    apply (create_sucesso corpo db vendaId produtoId q v p qn); assumption.
  - left. eexists. unfold ItemVendaController.create.
    rewrite Hval, Hvid, Hpid, Hmod, Hq, Hdisp. reflexivity.
Qed.

Lemma remove_item_casos id db :
  (exists http e, ItemVendaController.remove id db = (Falha http e, db)) \/
  (exists item v,
     buscar_item db id = Some item /\
     verificarVendaModificavel db (i_vendaId item) = inr v /\
     ItemVendaController.remove id db =
     (Sucesso (i_vendaId item), remover_item id (total_gravado (i_vendaId item) db))).
Proof.
  destruct (buscar_item db id) as [item |] eqn:Hi.
  2: { left. do 2 eexists. unfold ItemVendaController.remove. rewrite Hi. reflexivity. }
  destruct (verificarVendaModificavel db (i_vendaId item)) as [e | v] eqn:Hmod.
  { left. do 2 eexists. unfold ItemVendaController.remove. rewrite Hi, Hmod. reflexivity. }
  right. exists item, v. repeat split; try assumption.
  apply (remove_sucesso_item db id item v); assumption.
Qed.

Lemma update_item_casos id corpo db :
  (exists http e, ItemVendaController.update id corpo db = (Falha http e, db)) \/
  (exists itemAtual v,
     validarItemVenda corpo true = [] /\
     buscar_item db id = Some itemAtual /\
     verificarVendaModificavel db (i_vendaId itemAtual) = inr v /\
     (forall n, ItemVendaController.se_verdadeiro (ci_produtoId corpo) = Some n ->
                is_Some (produtos db !! n)) /\
     (verdadeiro (ci_produtoId corpo) || verdadeiro (ci_quantidade corpo) = true ->
      exists r, verificarDisponibilidadeProduto db (produto_alvo corpo itemAtual)
                  (Some (quantidade_alvo corpo itemAtual)) (Some id) = inr r) /\
     ItemVendaController.update id corpo db =
     (Sucesso (campos_atualizados corpo itemAtual),
      item_atualizado id corpo (total_gravado (i_vendaId itemAtual) db))).
Proof.
  unfold campos_atualizados, item_atualizado.
  destruct (validarItemVenda corpo true) as [| c l] eqn:Hval.
  2: { left. do 2 eexists. unfold ItemVendaController.update. rewrite Hval. reflexivity. }
  destruct (buscar_item db id) as [itemAtual |] eqn:Hi.
  2: { left. do 2 eexists. unfold ItemVendaController.update. rewrite Hval, Hi. reflexivity. }
  destruct (verificarVendaModificavel db (i_vendaId itemAtual)) as [e | v] eqn:Hmod.
  { left. do 2 eexists. unfold ItemVendaController.update. rewrite Hval, Hi, Hmod. reflexivity. }
  pose proof (modificavel_venda _ _ _ Hmod) as Hv.
  assert (Hdisp :
    (exists e, verdadeiro (ci_produtoId corpo) || verdadeiro (ci_quantidade corpo) = true /\
               verificarDisponibilidadeProduto db (produto_alvo corpo itemAtual)
                 (Some (quantidade_alvo corpo itemAtual)) (Some id) = inl e) \/
    (verdadeiro (ci_produtoId corpo) || verdadeiro (ci_quantidade corpo) = true ->
     exists r, verificarDisponibilidadeProduto db (produto_alvo corpo itemAtual)
                 (Some (quantidade_alvo corpo itemAtual)) (Some id) = inr r)).
  { destruct (verificarDisponibilidadeProduto db (produto_alvo corpo itemAtual)
                (Some (quantidade_alvo corpo itemAtual)) (Some id)) as [e | r] eqn:E.
    - destruct (verdadeiro (ci_produtoId corpo) || verdadeiro (ci_quantidade corpo)) eqn:Hc.
      + left. exists e. split; reflexivity.
      + right. discriminate.
    - right. intros _. exists r. reflexivity. }
  destruct Hdisp as [(e & Hc & He) | Hdisp].
  { left. do 2 eexists. unfold ItemVendaController.update. rewrite Hval, Hi, Hmod, Hc.
    fold (produto_alvo corpo itemAtual). fold (quantidade_alvo corpo itemAtual).
    rewrite He. reflexivity. }
  assert (Hfk : forall n, ItemVendaController.se_verdadeiro (ci_produtoId corpo) = Some n ->
                          is_Some (produtos db !! n)).
  { intros n Hn. pose proof (se_verdadeiro_alvo corpo itemAtual n Hn) as Ha.
    assert (Hc : verdadeiro (ci_produtoId corpo) || verdadeiro (ci_quantidade corpo) = true).
    { unfold ItemVendaController.se_verdadeiro in Hn.
      destruct (verdadeiro (ci_produtoId corpo)); [reflexivity | discriminate]. }
    destruct (Hdisp Hc) as [[p qn] Hr]. apply disponivel_produto in Hr.
    rewrite Ha in Hr. rewrite Hr. eexists; reflexivity. }
  right. exists itemAtual, v. repeat split; try assumption.
  unfold ItemVendaController.update. rewrite Hval, Hi, Hmod.
  fold (produto_alvo corpo itemAtual). fold (quantidade_alvo corpo itemAtual).
  assert (Htx : transacao
                  (itemAtualizado <- tx_itemVenda_update id
                                       (ItemVendaController.se_verdadeiro (ci_quantidade corpo))
                                       (ItemVendaController.se_verdadeiro (ci_precoUnit corpo))
                                       (ItemVendaController.se_verdadeiro (ci_produtoId corpo)) ;;
                   atualizarTotalVenda (i_vendaId itemAtualizado) ;;;
                   tx_ret itemAtualizado) db =
                (inr (atualizar_campos
                        (ItemVendaController.se_verdadeiro (ci_quantidade corpo))
                        (ItemVendaController.se_verdadeiro (ci_precoUnit corpo))
                        (ItemVendaController.se_verdadeiro (ci_produtoId corpo)) itemAtual),
                 atualizar_item id (ItemVendaController.se_verdadeiro (ci_quantidade corpo))
                   (ItemVendaController.se_verdadeiro (ci_precoUnit corpo))
                   (ItemVendaController.se_verdadeiro (ci_produtoId corpo))
                   (total_gravado (i_vendaId itemAtual) db))).
  { tx_passo. rewrite Hi. cbv beta iota zeta.
    destruct (ItemVendaController.se_verdadeiro (ci_produtoId corpo)) as [n |] eqn:En.
    - destruct (Hfk n eq_refl) as [p Hp]. rewrite Hp. tx_passo.
      cbn [atualizar_campos i_vendaId].
      rewrite (atualizarTotalVenda_ok _ db _ v Hv). reflexivity.
    - tx_passo. cbn [atualizar_campos i_vendaId].
      rewrite (atualizarTotalVenda_ok _ db _ v Hv). reflexivity. }
  destruct (verdadeiro (ci_produtoId corpo) || verdadeiro (ci_quantidade corpo)) eqn:Hc.
  - destruct (Hdisp eq_refl) as [r Hr]. rewrite Hr, Htx. reflexivity.
  - rewrite Htx. reflexivity.
Qed.

Lemma total_gravado_vendas vendaId db k :
  sem_total <$> vendas (total_gravado vendaId db) !! k = sem_total <$> vendas db !! k.
Proof.
  unfold total_gravado. cbn [alterar_venda vendas]. rewrite lookup_alter.
  destruct (decide (vendaId = k)) as [-> |]; [| reflexivity].
  destruct (vendas db !! k); reflexivity.
Qed.

(** X1. Whatever the request, the three line mutations leave the catalog,
    the clients and the users as they are, create or delete no sale, and
    change nothing of a sale but its total. *)
Theorem linha_so_altera_linhas_e_total db :
  (forall corpo,
     let db' := snd (ItemVendaController.create corpo db) in
     produtos db' = produtos db /\ clientes db' = clientes db /\ usuarios db' = usuarios db /\
     forall k, sem_total <$> vendas db' !! k = sem_total <$> vendas db !! k) /\
  (forall id corpo,
     let db' := snd (ItemVendaController.update id corpo db) in
     produtos db' = produtos db /\ clientes db' = clientes db /\ usuarios db' = usuarios db /\
     forall k, sem_total <$> vendas db' !! k = sem_total <$> vendas db !! k) /\
  (forall id,
     let db' := snd (ItemVendaController.remove id db) in
     produtos db' = produtos db /\ clientes db' = clientes db /\ usuarios db' = usuarios db /\
     forall k, sem_total <$> vendas db' !! k = sem_total <$> vendas db !! k).
Proof.
  split; [| split].
  - intros corpo db'. subst db'.
    destruct (create_item_casos corpo db)
      as [[e ->] | (vendaId & produtoId & q & v & p & qn & _ & _ & _ & _ & _ & _ & ->)];
      cbn [snd]; [repeat split |].
    repeat split. intros k. apply total_gravado_vendas.
  - intros id corpo db'. subst db'.
    destruct (update_item_casos id corpo db)
      as [(http & e & ->) | (itemAtual & v & _ & _ & _ & _ & _ & ->)];
      cbn [snd]; [repeat split |].
    repeat split. intros k. apply total_gravado_vendas.
  - intros id db'. subst db'.
    destruct (remove_item_casos id db) as [(http & e & ->) | (item & v & _ & _ & ->)];
      cbn [snd]; [repeat split |].
    repeat split. intros k. apply total_gravado_vendas.
Qed.

(** X2. A line mutation that fails has written nothing: the database is the
    one the request found. *)
Theorem falha_de_linha_nao_escreve db :
  (forall corpo http e db',
     ItemVendaController.create corpo db = (Falha http e, db') -> db' = db) /\
  (forall id corpo http e db',
     ItemVendaController.update id corpo db = (Falha http e, db') -> db' = db) /\
  (forall id http e db',
     ItemVendaController.remove id db = (Falha http e, db') -> db' = db).
Proof.
  split; [| split].
  - intros corpo http e db' H.
    destruct (create_item_casos corpo db)
      as [[e0 E] | (vendaId & produtoId & q & v & p & qn & _ & _ & _ & _ & _ & _ & E)];
      rewrite E in H; inversion H; reflexivity.
  - intros id corpo http e db' H.
    destruct (update_item_casos id corpo db)
      as [(http0 & e0 & E) | (itemAtual & v & _ & _ & _ & _ & _ & E)];
      rewrite E in H; inversion H; reflexivity.
  - intros id http e db' H.
    destruct (remove_item_casos id db) as [(http0 & e0 & E) | (item & v & _ & _ & E)];
      rewrite E in H; inversion H; reflexivity.
Qed.

Lemma validar_item_novo vendaId produtoId q pu :
  vendaId <> 0 -> produtoId <> 0 -> 0 < q -> 0 <= default 0 pu ->
  validarItemVenda (mkCorpoItem (Some vendaId) (Some produtoId) (Some q) pu) false = [].
Proof.
  intros Hvid Hpid Hq Hpu. unfold validarItemVenda, verdadeiro.
  cbn [ci_vendaId ci_produtoId ci_quantidade ci_precoUnit].
  apply Z.eqb_neq in Hvid, Hpid. rewrite Hvid, Hpid.
  assert (Hq' : (q <=? 0) = false) by (apply Z.leb_gt; lia). rewrite Hq'.
  destruct pu as [x |]; [| reflexivity].
  assert (Hx : (x <? 0) = false) by (apply Z.ltb_ge; exact Hpu). rewrite Hx. reflexivity.
Qed.

Lemma atualizar_campos_nada i : atualizar_campos None None None i = i.
Proof. destruct i; reflexivity. Qed.

Lemma atualizar_item_nada id db : itens (atualizar_item id None None None db) = itens db.
Proof.
  cbn [atualizar_item itens]. induction (itens db) as [| i l IH]; [reflexivity |].
  cbn [List.map]. rewrite IH, atualizar_campos_nada. destruct (i_id i =? id); reflexivity.
Qed.

(** X3. A unit price of 0 in the body counts as no unit price: a line added
    with it is stored with the price of the catalog entry (the new row, with
    that price, is the one appended to the line table), and an update that
    only carries it succeeds and leaves every line as it was.  The ids and
    the quantity of the new line are integers that JavaScript holds exactly,
    so that [parseInt] gives them back. *)
Theorem preco_zero_conta_como_ausente db vendaId v :
  vendas db !! vendaId = Some v ->
  v_status v = "Pendente" ->
  (forall produtoId q p,
     inteiro_seguro vendaId = true -> inteiro_seguro produtoId = true ->
     inteiro_seguro q = true ->
     vendaId <> 0 -> produtoId <> 0 -> 0 < q ->
     produtos db !! produtoId = Some p -> p_status p = "Ativo" ->
     q <= estoque_num (p_estoque p) ->
     exists db',
       ItemVendaController.create
         (mkCorpoItem (Some vendaId) (Some produtoId) (Some q) (Some 0)) db
       = (Sucesso (mkItemVenda (proxItem db) vendaId produtoId q (p_preco p)), db') /\
       itens db' = itens db ++ [mkItemVenda (proxItem db) vendaId produtoId q (p_preco p)]) /\
  (forall id item outro,
     buscar_item db id = Some item -> i_vendaId item = vendaId ->
     exists db',
       ItemVendaController.update id (mkCorpoItem outro None None (Some 0)) db
       = (Sucesso item, db') /\
       itens db' = itens db).
Proof.
  intros Hv Hs. split.
  - intros produtoId q p _ _ _ Hvid Hpid Hq Hp Ha Hest.
    assert (Hdisp : verificarDisponibilidadeProduto db produtoId (Some q) None = inr (p, Some q)).
    { rewrite (disponivel_sem_item db produtoId q p Hp Ha).
      assert (Hl : (estoque_num (p_estoque p) <? q) = false) by (apply Z.ltb_ge; lia).
      rewrite Hl. reflexivity. }
    pose proof (create_sucesso _ db vendaId produtoId q v p (Some q)
                  (validar_item_novo vendaId produtoId q (Some 0) Hvid Hpid Hq ltac:(reflexivity))
                  eq_refl eq_refl eq_refl (modificavel_pendente db vendaId v Hv Hs) Hdisp) as E.
    cbv zeta in E. cbn [ci_precoUnit verdadeiro Z.eqb negb] in E.
    eexists. split; [exact E | reflexivity].
  - intros id item outro Hi <-.
    destruct (update_item_casos id (mkCorpoItem outro None None (Some 0)) db)
      as [(http & e & E) | (itemAtual & v' & _ & Hi' & _ & _ & _ & E)].
    + exfalso. unfold ItemVendaController.update in E.
      cbn [validarItemVenda ci_quantidade ci_precoUnit ci_produtoId verdadeiro
           Z.ltb Z.compare app orb] in E.
      rewrite Hi, (modificavel_pendente db _ v Hv Hs) in E.
      destruct (transacao _ db) as [[e1 | a] d] eqn:Et.
      * revert Et. tx_passo. rewrite Hi. cbv beta iota zeta.
        cbn [ItemVendaController.se_verdadeiro ci_quantidade ci_precoUnit ci_produtoId
             verdadeiro Z.eqb negb]. tx_passo.
        cbn [atualizar_campos i_vendaId].
        rewrite (atualizarTotalVenda_ok _ db _ v Hv). discriminate.
      * discriminate E.
    + rewrite Hi in Hi'. inversion Hi'; subst itemAtual.
      unfold campos_atualizados, item_atualizado in E.
      cbn [ItemVendaController.se_verdadeiro ci_quantidade ci_precoUnit ci_produtoId
           verdadeiro Z.eqb negb] in E.
      rewrite atualizar_campos_nada in E.
      eexists. split; [exact E |]. rewrite atualizar_item_nada. reflexivity.
Qed.

Lemma preco_zero_conta_como_ausente_witness :
  (exists db',
     ItemVendaController.create (mkCorpoItem (Some 1) (Some 1) (Some 2) (Some 0)) loja
     = (Sucesso (mkItemVenda 5 1 1 2 129900), db') /\
     itens db' = itens loja ++ [mkItemVenda 5 1 1 2 129900]) /\
  (exists db',
     ItemVendaController.update 1 (mkCorpoItem None None None (Some 0)) loja
     = (Sucesso (mkItemVenda 1 1 1 3 1000), db') /\ itens db' = itens loja).
Proof.
  destruct (preco_zero_conta_como_ausente loja 1 (mkVenda 1 1 0 "Pendente" 3000 None)
              eq_refl eq_refl) as [Hc Hu].
  split.
  - apply (Hc 1 2 projetor); first [reflexivity | discriminate | (vm_compute; discriminate)].
  - apply (Hu 1 (mkItemVenda 1 1 1 3 1000) None); reflexivity.
Defined.



(** X5. An update that only names another catalog entry moves the line to
    that entry with the quantity it has: the quantity it asks for is the
    stored one, so the stock of the new entry is compared with 0 and the
    update goes through whenever that stock is not negative, even when it is
    0 or [NULL]. *)
Theorem trocar_produto_nao_verifica_estoque db id item v n p :
  id <> 0 -> n <> 0 ->
  buscar_item db id = Some item ->
  vendas db !! i_vendaId item = Some v -> v_status v = "Pendente" ->
  produtos db !! n = Some p -> p_status p = "Ativo" ->
  0 <= estoque_num (p_estoque p) ->
  exists db',
    ItemVendaController.update id (mkCorpoItem None (Some n) None None) db
    = (Sucesso (mkItemVenda (i_id item) (i_vendaId item) n (i_quantidade item)
                            (i_precoUnit item)), db').
Proof.
  intros Hid Hn Hi Hv Hs Hp Ha Hest.
  set (corpo := mkCorpoItem None (Some n) None None).
  assert (Hvn : verdadeiro (Some n) = true).
  { unfold verdadeiro. apply Z.eqb_neq in Hn. rewrite Hn. reflexivity. }
  assert (Halvo : produto_alvo corpo item = n).
  { unfold produto_alvo, corpo. cbn [ci_produtoId]. rewrite Hvn. reflexivity. }
  assert (Hq : quantidade_alvo corpo item = i_quantidade item) by reflexivity.
  pose proof (update_sucesso_item db id corpo item v p eq_refl Hi
                (modificavel_pendente db _ v Hv Hs)) as E.
  rewrite Halvo, Hq in E. specialize (E Hp).
  assert (Hdisp : exists r, verificarDisponibilidadeProduto db n (Some (i_quantidade item))
                              (Some id) = inr r).
  { unfold verificarDisponibilidadeProduto. rewrite Hp, Ha.
    change (negb (String.eqb "Ativo" "Ativo")) with false. cbv iota.
    unfold verdadeiro. apply Z.eqb_neq in Hid. rewrite Hid. cbn [negb].
    change (default 0 (Some id)) with id. rewrite Hi.
    cbn [fmap option_fmap option_map]. rewrite Z.sub_diag.
    assert (Hl : (estoque_num (p_estoque p) <? 0) = false) by (apply Z.ltb_ge; exact Hest).
    rewrite Hl. eexists; reflexivity. }
  specialize (E (fun _ => Hdisp)). cbv zeta in E.
  unfold corpo in E.
  cbn [ItemVendaController.se_verdadeiro ci_quantidade ci_precoUnit ci_produtoId] in E.
  unfold ItemVendaController.se_verdadeiro in E. rewrite Hvn in E.
  cbn [verdadeiro atualizar_campos] in E.
  eexists. exact E.
Qed.

Lemma trocar_produto_nao_verifica_estoque_witness :
  exists db',
    ItemVendaController.update 1 (mkCorpoItem None (Some 2) None None) loja_esgotada
    = (Sucesso (mkItemVenda 1 1 2 3 1000), db').
Proof.
  apply (trocar_produto_nao_verifica_estoque loja_esgotada 1 (mkItemVenda 1 1 1 3 1000)
           (mkVenda 1 1 0 "Pendente" 3000 None) 2 lanche_esgotado);
    first [reflexivity | discriminate].
Defined.

(** ** Update of a sale and its status *)

Lemma update_sucesso db id corpo v :
  integro db = true ->
  vendas db !! id = Some v ->
  verdadeira (ca_status corpo)
  && negb (status_valido (default EmptyString (ca_status corpo))) = false ->
  VendaController.update id corpo db =
  (Sucesso id,
   gerenciado (v_status v) (ca_status corpo) id db
              (alterar_venda id (VendaController.dadosAtualizacao corpo) db)).
Proof.
  intros Hi Hv Hs. unfold VendaController.update. rewrite Hs, Hv.
  unfold transacao. unfold tx_bind at 1.
  unfold tx_venda_update at 1. unfold tx_bind at 1. unfold tx_ler at 1. unfold visao at 1.
  cbn [fora pend]. rewrite Hv. unfold tx_escrever at 1. cbn [fora pend].
  unfold tx_bind at 1.
  rewrite gerenciar_estoque_ok by (auto).
  reflexivity.
Qed.

Lemma aplicar_ajustes_alterar_venda sinal l id f : forall db,
  aplicar_ajustes sinal l (alterar_venda id f db) =
  alterar_venda id f (aplicar_ajustes sinal l db).
Proof.
  induction l as [| [item [p |]] l IH]; intros db; unfold aplicar_ajustes in *;
    cbn [fold_left passo_ajuste]; [reflexivity | | apply IH].
  destruct (String.eqb (p_tipo p) "Produto"); [| apply IH].
  rewrite <- IH. reflexivity.
Qed.

Lemma integro_igual db b :
  itens b = itens db ->
  (forall pid, is_Some (produtos db !! pid) -> is_Some (produtos b !! pid)) ->
  integro db = true -> integro b = true.
Proof.
  unfold integro. intros -> Hp H. rewrite forallb_forall in *. intros i Hin.
  specialize (H i Hin). apply bool_decide_eq_true in H. apply bool_decide_eq_true. auto.
Qed.

Lemma movimentado_volta l pid p :
  movimentado 1 l pid (movimentado (-1) l pid p) = p.
Proof.
  unfold movimentado. destruct (String.eqb (p_tipo p) "Produto") eqn:Ht.
  - rewrite mexer_tipo, Ht, mexer_mexer.
    replace (-1 * soma_quantidades l pid + 1 * soma_quantidades l pid) with 0 by lia.
    apply mexer_0.
  - rewrite Ht. reflexivity.
Qed.

(** X6. [update] with a body that carries no status still runs the status
    handling: on a sale that is Concluida the stock of every Product-kind
    line is given back, although the sale stays Concluida. *)
Theorem update_sem_status_devolve_estoque db id v corpo :
  integro db = true ->
  vendas db !! id = Some v ->
  v_status v = "Concluida" ->
  ca_status corpo = None ->
  exists db',
    VendaController.update id corpo db = (Sucesso id, db') /\
    v_status <$> vendas db' !! id = Some "Concluida" /\
    itens db' = itens db /\
    forall pid, produtos db' !! pid =
                movimentado 1 (itens_da_venda db id) pid <$> produtos db !! pid.
Proof.
  intros Hi Hv Hs Hc. eexists. split.
  - apply (update_sucesso db id corpo v Hi Hv). rewrite Hc. reflexivity.
  - unfold gerenciado. rewrite Hc, Hs.
    rewrite bool_decide_eq_false_2 by discriminate.
    rewrite bool_decide_eq_false_2 by discriminate.
    change (String.eqb "Concluida" "Concluida") with true. cbn [negb andb].
    destruct (aplicar_ajustes_resto 1 (itens_com_produto db id)
                (alterar_venda id (VendaController.dadosAtualizacao corpo) db))
      as (-> & -> & _).
    split; [| split].
    + cbn [alterar_venda vendas]. rewrite lookup_alter, decide_True by reflexivity.
      rewrite Hv. unfold VendaController.dadosAtualizacao. rewrite Hc. cbn. rewrite Hs.
      reflexivity.
    + reflexivity.
    + intros pid. apply estoque_apos_ajustes_em. reflexivity.
Qed.

Lemma update_sem_status_devolve_estoque_witness :
  integro loja = true /\
  exists db',
    VendaController.update 2 (mkCorpoAtualizacao None None (Some "entregue")) loja
    = (Sucesso 2, db') /\
    v_status <$> vendas db' !! 2 = Some "Concluida" /\
    produtos db' !! 2 = Some (com_estoque lanche (Some 3)).
Proof.
  split; [reflexivity |].
  destruct (update_sem_status_devolve_estoque loja 2 (mkVenda 1 1 0 "Concluida" 9000 None)
              (mkCorpoAtualizacao None None (Some "entregue")) eq_refl eq_refl eq_refl eq_refl)
    as (db' & E & Hst & _ & Hp).
  exists db'. split; [exact E |]. split; [exact Hst |]. rewrite Hp. reflexivity.
Defined.

(** X7. On an existing sale, [update] with a body that only carries a valid
    status and [updateStatus] with that status both succeed and leave the
    same database. *)
Theorem update_so_status_igual_updateStatus db id v s :
  integro db = true ->
  vendas db !! id = Some v ->
  s = "Pendente" \/ s = "Concluida" \/ s = "Cancelada" ->
  exists db',
    VendaController.update id (mkCorpoAtualizacao None (Some s) None) db = (Sucesso id, db') /\
    VendaController.updateStatus id (Some s) db = (Sucesso id, db').
Proof.
  intros Hi Hv Hs.
  assert (Hval : status_valido s = true) by (destruct Hs as [-> | [-> | ->]]; reflexivity).
  pose proof (status_valido_verdadeira s Hval) as Hvd.
  eexists. split.
  - apply (update_sucesso db id _ v Hi Hv). cbn [ca_status].
    rewrite Hvd. change (default EmptyString (Some s)) with s. rewrite Hval. reflexivity.
  - rewrite (updateStatus_sucesso db id s v Hi Hval Hv). f_equal.
    cbn [ca_status]. unfold gerenciado, apos_gerenciar.
    assert (Ha : alterar_venda id
                   (VendaController.dadosAtualizacao (mkCorpoAtualizacao None (Some s) None)) db
                 = alterar_venda id (fun w => com_status w s) db).
    { unfold alterar_venda. f_equal.
      rewrite (alter_presente _ _ id v Hv), (alter_presente (fun w => com_status w s) _ id v Hv).
      f_equal. unfold VendaController.dadosAtualizacao. cbn [ca_status ca_data ca_observacoes].
      rewrite Hvd. reflexivity. }
    rewrite Ha.
    repeat match goal with |- context [if ?c then _ else _] => destruct c end;
      try reflexivity; symmetry; apply aplicar_ajustes_alterar_venda.
Qed.

Lemma update_so_status_igual_updateStatus_witness :
  integro loja = true /\
  exists db',
    VendaController.update 2 (mkCorpoAtualizacao None (Some "Cancelada") None) loja
    = (Sucesso 2, db') /\
    VendaController.updateStatus 2 (Some "Cancelada") loja = (Sucesso 2, db').
Proof.
  split; [reflexivity |].
  apply (update_so_status_igual_updateStatus loja 2 (mkVenda 1 1 0 "Concluida" 9000 None)
           "Cancelada"); [reflexivity | reflexivity | right; right; reflexivity].
Defined.

(** X8. Completing a sale and then taking it back to Pendente or Cancelada
    restores the stock of every catalog entry: after the two [updateStatus]
    calls the catalog and the lines are the ones before the first, and only
    the status of the sale differs. *)
Theorem concluir_e_desfazer db id v s :
  integro db = true ->
  vendas db !! id = Some v ->
  v_status v <> "Concluida" ->
  s = "Pendente" \/ s = "Cancelada" ->
  exists db1 db2,
    VendaController.updateStatus id (Some "Concluida") db = (Sucesso id, db1) /\
    VendaController.updateStatus id (Some s) db1 = (Sucesso id, db2) /\
    produtos db2 = produtos db /\
    itens db2 = itens db /\
    vendas db2 = <[id := com_status v s]> (vendas db).
Proof.
  intros Hi Hv Hne Hs.
  assert (Hval : status_valido s = true) by (destruct Hs as [-> | ->]; reflexivity).
  assert (Hsc : s <> "Concluida") by (destruct Hs as [-> | ->]; discriminate).
  pose proof (updateStatus_sucesso db id "Concluida" v Hi eq_refl Hv) as E1.
  unfold apos_gerenciar in E1.
  rewrite bool_decide_eq_false_2 in E1 by congruence.
  rewrite bool_decide_eq_true_2 in E1 by reflexivity. cbn [negb] in E1.
  set (db1 := alterar_venda id (fun w => com_status w "Concluida")
                (aplicar_ajustes (-1) (itens_com_produto db id) db)) in *.
  destruct (aplicar_ajustes_resto (-1) (itens_com_produto db id) db) as (Hvd & Hit & _).
  assert (Hit1 : itens db1 = itens db) by exact Hit.
  assert (Hp1 : forall pid, produtos db1 !! pid =
                            movimentado (-1) (itens_da_venda db id) pid <$> produtos db !! pid).
  { intros pid. apply estoque_apos_ajustes. }
  assert (Hv1 : vendas db1 !! id = Some (com_status v "Concluida")).
  { unfold db1. cbn [alterar_venda vendas]. rewrite Hvd, lookup_alter, decide_True, Hv by reflexivity.
    reflexivity. }
  assert (Hi1 : integro db1 = true).
  { apply (integro_igual db db1 Hit1); [| exact Hi].
    intros pid [p Hp]. rewrite Hp1, Hp. eexists; reflexivity. }
  pose proof (updateStatus_sucesso db1 id s (com_status v "Concluida") Hi1 Hval Hv1) as E2.
  unfold apos_gerenciar in E2. cbn [com_status v_status] in E2.
  rewrite bool_decide_eq_false_2 in E2 by congruence.
  rewrite bool_decide_eq_false_2 in E2 by congruence.
  change (String.eqb "Concluida" "Concluida") with true in E2. cbn [negb andb] in E2.
  exists db1. eexists. split; [exact E1 |]. split; [exact E2 |].
  destruct (aplicar_ajustes_resto 1 (itens_com_produto db1 id) db1) as (Hvd2 & Hit2 & _).
  cbn [alterar_venda produtos itens vendas]. split; [| split].
  - apply map_eq. intros pid. rewrite estoque_apos_ajustes, Hp1.
    unfold itens_da_venda. rewrite Hit1.
    destruct (produtos db !! pid) as [p |]; [| reflexivity].
    cbn [fmap option_fmap option_map]. f_equal. apply movimentado_volta.
  - rewrite Hit2. exact Hit1.
  - rewrite Hvd2. apply map_eq. intros k. rewrite lookup_alter, lookup_insert.
    destruct (decide (id = k)) as [<- |].
    + rewrite Hv1. reflexivity.
    + unfold db1. cbn [alterar_venda vendas]. rewrite Hvd, lookup_alter_ne by assumption.
      reflexivity.
Qed.

Lemma concluir_e_desfazer_witness :
  integro loja = true /\
  exists db1 db2,
    VendaController.updateStatus 3 (Some "Concluida") loja = (Sucesso 3, db1) /\
    VendaController.updateStatus 3 (Some "Cancelada") db1 = (Sucesso 3, db2) /\
    produtos db1 !! 2 = Some (com_estoque lanche (Some (-3))) /\
    produtos db2 = produtos loja.
Proof.
  split; [reflexivity |].
  destruct (concluir_e_desfazer loja 3 (mkVenda 1 1 0 "Pendente" 8000 None) "Cancelada"
              eq_refl eq_refl ltac:(discriminate) (or_intror eq_refl))
    as (db1 & db2 & E1 & E2 & Hp & _).
  exists db1, db2. repeat split; try assumption.
  assert (H1 : db1 = snd (VendaController.updateStatus 3 (Some "Concluida") loja))
    by (rewrite E1; reflexivity).
  rewrite H1. vm_compute. reflexivity.
Defined.

(** ** Requests that the creation of a sale accepts *)

Lemma verdadeiro_some x : verdadeiro x = true <-> exists n, x = Some n /\ n <> 0.
Proof.
  unfold verdadeiro. destruct x as [n |].
  - rewrite negb_true_iff, Z.eqb_neq. split; [eauto | intros (m & [= <-] & H); exact H].
  - split; [discriminate | intros (m & [=] & _)].
Qed.

Lemma validar_itens_none l : forall n,
  validar_itens n l = None <->
  Forall (fun item =>
            (exists pid, it_produtoId item = Some pid /\ pid <> 0) /\
            (exists q, it_quantidade item = Some q /\ 0 < q) /\
            (exists pu, it_precoUnit item = Some pu /\ 0 < pu)) l.
Proof.
  induction l as [| x l IH]; intros n; cbn [validar_itens].
  - split; [constructor | reflexivity].
  - destruct (verdadeiro (it_produtoId x)) eqn:Hp; cbn [negb].
    2: { split; [discriminate |]. intros H. inversion H as [| ? ? [H1 _] _]; subst.
         apply verdadeiro_some in H1. congruence. }
    destruct (verdadeiro (it_quantidade x)) eqn:Hq; cbn [negb orb].
    2: { split; [discriminate |]. intros H. inversion H as [| ? ? (_ & (q & Hq1 & Hq2) & _) _]; subst.
         assert (Ht : verdadeiro (it_quantidade x) = true)
           by (apply verdadeiro_some; exists q; split; [assumption | lia]).
         congruence. }
    apply verdadeiro_some in Hp, Hq. destruct Hq as (q & Hq1 & Hq2). rewrite Hq1.
    change (default 0 (Some q)) with q.
    destruct (q <=? 0) eqn:Hq3.
    { split; [discriminate |]. intros H. inversion H as [| ? ? (_ & (q' & Hq1' & Hq2') & _) _]; subst.
      apply Z.leb_le in Hq3. rewrite Hq1 in Hq1'. inversion Hq1'; subst. lia. }
    apply Z.leb_gt in Hq3.
    destruct (verdadeiro (it_precoUnit x)) eqn:Hu; cbn [negb orb].
    2: { split; [discriminate |]. intros H.
         inversion H as [| ? ? (_ & _ & (pu & Hu1 & Hu2)) _]; subst.
         assert (Ht : verdadeiro (it_precoUnit x) = true)
           by (apply verdadeiro_some; exists pu; split; [assumption | lia]).
         congruence. }
    apply verdadeiro_some in Hu. destruct Hu as (pu & Hu1 & Hu2). rewrite Hu1.
    change (default 0 (Some pu)) with pu.
    destruct (pu <? 0) eqn:Hu3.
    { split; [discriminate |]. intros H.
      inversion H as [| ? ? (_ & _ & (pu' & Hu1' & Hu2')) _]; subst.
      apply Z.ltb_lt in Hu3. rewrite Hu1 in Hu1'. inversion Hu1'; subst. lia. }
    apply Z.ltb_ge in Hu3. rewrite IH. split.
    + intros H. constructor; [| exact H].
      split; [exact Hp |]. split; [exists q; split; [exact Hq1 | exact Hq3] |].
      exists pu. split; [exact Hu1 | lia].
    + intros H. inversion H; assumption.
Qed.

Lemma verificar_produto_nil db item :
  verificar_produto db item = [] <->
  exists p, produtos db !! default 0 (it_produtoId item) = Some p /\
            (p_tipo p = "Produto" ->
             default 0 (it_quantidade item) <= estoque_num (p_estoque p)).
Proof.
  unfold verificar_produto.
  destruct (produtos db !! default 0 (it_produtoId item)) as [p |].
  - destruct (String.eqb (p_tipo p) "Produto") eqn:Ht; cbn [andb].
    + apply String.eqb_eq in Ht.
      destruct (estoque_num (p_estoque p) <? default 0 (it_quantidade item)) eqn:Hl.
      * apply Z.ltb_lt in Hl. split; [discriminate |].
        intros (p' & [= <-] & H). specialize (H Ht). lia.
      * apply Z.ltb_ge in Hl. split; [| reflexivity]. intros _. exists p. split; [reflexivity | auto].
    + apply String.eqb_neq in Ht. split; [| reflexivity]. intros _. exists p.
      split; [reflexivity | intros H; contradiction].
  - split; [discriminate | intros (p & [=] & _)].
Qed.

Lemma flat_map_nil {A B} (f : A -> list B) l :
  flat_map f l = [] <-> Forall (fun x => f x = []) l.
Proof.
  induction l as [| x l IH]; cbn [flat_map].
  - split; [constructor | reflexivity].
  - split.
    + intros H. apply app_eq_nil in H. destruct H as [H1 H2].
      constructor; [exact H1 | apply IH; exact H2].
    + intros H. inversion H as [| ? ? H1 H2]; subst. rewrite H1. apply IH. exact H2.
Qed.

Lemma verificarExistenciaRegistros_nil db c u l :
  verificarExistenciaRegistros db c u l = [] <->
  c ∈ clientes db /\ u ∈ usuarios db /\ Forall (fun item => verificar_produto db item = []) l.
Proof.
  unfold verificarExistenciaRegistros. rewrite <- flat_map_nil.
  destruct (bool_decide (c ∈ clientes db)) eqn:Hc;
    destruct (bool_decide (u ∈ usuarios db)) eqn:Hu; cbn [app].
  - apply bool_decide_eq_true in Hc, Hu. tauto.
  - apply bool_decide_eq_false in Hu. split; [discriminate | tauto].
  - apply bool_decide_eq_false in Hc. split; [discriminate | tauto].
  - apply bool_decide_eq_false in Hc. split; [discriminate | tauto].
Qed.

Lemma pedido_aceito_validacoes db corpo :
  pedido_aceito db corpo <->
  exists c u,
    cv_clienteId corpo = Some c /\ cv_usuarioId corpo = Some u /\
    verdadeiro (Some c) = true /\ verdadeiro (Some u) = true /\
    cv_itens corpo <> [] /\
    validar_itens 0 (cv_itens corpo) = None /\
    verificarExistenciaRegistros db c u (cv_itens corpo) = [].
Proof.
  unfold pedido_aceito. split.
  - intros ((c & Hc & Hc0 & Hcin) & (u & Hu & Hu0 & Huin) & Hne & Hall).
    exists c, u. repeat split; try assumption.
    + apply verdadeiro_some. eauto.
    + apply verdadeiro_some. eauto.
    + apply validar_itens_none. eapply Forall_impl; [exact Hall |].
      intros item (pid & q & pu & p & H1 & H2 & H3 & H4 & H5 & H6 & _). eauto 10.
    + apply verificarExistenciaRegistros_nil. repeat split; try assumption.
      eapply Forall_impl; [exact Hall |].
      intros item (pid & q & pu & p & H1 & H2 & H3 & H4 & H5 & H6 & H7 & H8).
      apply verificar_produto_nil. rewrite H1, H3. exists p. split; assumption.
  - intros (c & u & Hc & Hu & Hc0 & Hu0 & Hne & Hval & Hex).
    apply verdadeiro_some in Hc0, Hu0.
    destruct Hc0 as (c' & [= <-] & Hc0). destruct Hu0 as (u' & [= <-] & Hu0).
    apply verificarExistenciaRegistros_nil in Hex. destruct Hex as (Hcin & Huin & Hp).
    apply validar_itens_none in Hval.
    repeat split; eauto.
    apply Forall_forall. intros item Hin.
    rewrite Forall_forall in Hval, Hp. specialize (Hval item Hin). specialize (Hp item Hin).
    destruct Hval as ((pid & H1 & H2) & (q & H3 & H4) & (pu & H5 & H6)).
    apply verificar_produto_nil in Hp. rewrite H1, H3 in Hp. destruct Hp as (p & Hp1 & Hp2).
    exists pid, q, pu, p. repeat split; assumption.
Qed.

(** X9. [VendaController.create] succeeds exactly on the requests with an
    existing client and user, at least one line, and lines that each have a
    product that resolves, a positive quantity, a positive unit price and,
    for a Product-kind entry, a quantity that does not exceed the stock.  The
    stock is compared with each line on its own.  This is for a request
    whose numbers are integers that JavaScript holds exactly
    ([pedido_seguro]), so that the ids and quantities that the code looks up,
    compares and stores are those of the request. *)
Theorem create_aceita_exatamente agora corpo db :
  pedido_seguro corpo = true ->
  ((exists id db', VendaController.create agora corpo db = (Sucesso id, db')) <->
   pedido_aceito db corpo).
Proof.
  intros _. rewrite pedido_aceito_validacoes. unfold VendaController.create. split.
  - intros (id & db' & H).
    destruct (cv_clienteId corpo) as [c |]; [| inversion H].
    destruct (cv_usuarioId corpo) as [u |]; [| inversion H].
    destruct (verdadeiro (Some c)) eqn:Hc0; [| inversion H].
    destruct (verdadeiro (Some u)) eqn:Hu0; [| inversion H]. cbn [negb orb] in H.
    destruct (cv_itens corpo) as [| i0 l0] eqn:El; [inversion H |].
    destruct (validar_itens 0 (i0 :: l0)) eqn:Ev; [inversion H |].
    destruct (verificarExistenciaRegistros db c u (i0 :: l0)) eqn:Ee; [| inversion H].
    exists c, u. do 2 (split; [reflexivity |]). split; [exact Hc0 |]. split; [exact Hu0 |].
    split; [intros Hn; inversion Hn |]. split; [reflexivity | exact Ee].
  - intros (c & u & Hc & Hu & Hc0 & Hu0 & Hne & Hval & Hex).
    rewrite Hc, Hu, Hc0, Hu0. cbn [negb orb].
    destruct (cv_itens corpo) as [| i0 l0] eqn:El; [contradiction |].
    rewrite Hval, Hex.
    apply verificarExistenciaRegistros_nil in Hex. destruct Hex as (Hcin & Huin & Hp).
    unfold transacao. unfold tx_bind at 1. unfold tx_venda_create.
    unfold tx_bind at 1. unfold tx_ler at 1. unfold visao. cbn [fora pend v_clienteId v_usuarioId].
    rewrite (bool_decide_eq_true_2 _ Hcin), (bool_decide_eq_true_2 _ Huin). cbn [andb].
    assert (Hfk : forallb (fun '(produtoId, _, _) =>
                             bool_decide (is_Some (produtos db !! produtoId)))
                          (List.map linha_de (i0 :: l0)) = true).
    { apply forallb_forall. intros [[pid q] pu] Hin. apply in_map_iff in Hin.
      destruct Hin as (item & Hitem & Hin). rewrite Forall_forall in Hp.
      apply list_elem_of_In in Hin.
      specialize (Hp item Hin). apply verificar_produto_nil in Hp. destruct Hp as (p & Hp1 & _).
      unfold linha_de in Hitem. inversion Hitem; subst. apply bool_decide_eq_true.
      rewrite Hp1. eexists; reflexivity. }
    rewrite Hfk. unfold tx_bind at 1. unfold tx_escrever at 1. cbn [fora pend].
    unfold tx_ret at 1. unfold tx_bind at 1.
    match goal with |- context [if ?c then para_cada _ _ else _] => destruct c end.
    + match goal with |- context [para_cada _ _ ?t1] =>
        destruct (baixas_ok (i0 :: l0) t1) as (t' & E & _ & _) end.
      rewrite E. unfold tx_ret. do 2 eexists. reflexivity.
    + unfold tx_ret. do 2 eexists. reflexivity.
Qed.

Lemma create_aceita_exatamente_witness :
  pedido_aceito loja pedido_dobrado /\
  exists db',
    VendaController.create 0 pedido_dobrado loja = (Sucesso 4, db') /\
    produtos db' !! 2 = Some (com_estoque lanche (Some (-1))).
Proof.
  assert (Hac : pedido_aceito loja pedido_dobrado).
  { repeat split.
    - exists 1. split; [reflexivity |]. split; [discriminate | unfold loja; cbn [clientes usuarios]; apply elem_of_singleton; reflexivity].
    - exists 1. split; [reflexivity |]. split; [discriminate | unfold loja; cbn [clientes usuarios]; apply elem_of_singleton; reflexivity].
    - discriminate.
    - repeat constructor; exists 2, 1, 2000, lanche;
        (do 7 (split; [first [reflexivity | discriminate] |]));
        intros _; vm_compute; discriminate. }
  split; [exact Hac |].
  destruct (proj2 (create_aceita_exatamente 0 pedido_dobrado loja eq_refl) Hac)
    as (id & db' & E).
  assert (Hr : (Sucesso id, db') = VendaController.create 0 pedido_dobrado loja)
    by (symmetry; exact E).
  assert (Hid : id = 4) by (vm_compute in Hr; congruence). subst id.
  exists db'. split; [exact E |].
  assert (Hd : db' = snd (VendaController.create 0 pedido_dobrado loja)) by (rewrite E; reflexivity).
  rewrite Hd. vm_compute. reflexivity.
Defined.

(** ** Deletion of catalog entries and clients *)

Lemma nenhum_filtrado {A} (f : A -> bool) (l : list A) :
  (0 <? Z.of_nat (length (List.filter f l))) = false <-> Forall (fun x => f x = false) l.
Proof.
  induction l as [| x l IH]; cbn [List.filter].
  - split; [constructor | reflexivity].
  - destruct (f x) eqn:Hx.
    + cbn [length]. split.
      * intros H. apply Z.ltb_ge in H. lia.
      * intros H. inversion H; congruence.
    + rewrite IH. split.
      * intros H. constructor; assumption.
      * intros H. inversion H; assumption.
Qed.

(** X10. [ProdutoController.remove] deletes the entry exactly when it exists
    and no line of any sale references it.  Every other call leaves the
    database as it was, and a deletion takes away that entry only, so the
    lines keep their catalog entries. *)
Theorem produto_referenciado_fica id db :
  (fst (ProdutoController.remove (Some id) db) = Removido id <->
   is_Some (produtos db !! id) /\ Forall (fun i => i_produtoId i <> id) (itens db)) /\
  (fst (ProdutoController.remove (Some id) db) <> Removido id ->
   snd (ProdutoController.remove (Some id) db) = db) /\
  (fst (ProdutoController.remove (Some id) db) = Removido id ->
   snd (ProdutoController.remove (Some id) db) = remover_produto id db) /\
  (integro db = true -> integro (snd (ProdutoController.remove (Some id) db)) = true).
Proof.
  unfold ProdutoController.remove.
  destruct (produtos db !! id) as [p |] eqn:Hp.
  - destruct (0 <? Z.of_nat (length (List.filter (fun i => i_produtoId i =? id) (itens db))))
      eqn:Hn; cbn [fst snd].
    + assert (Hno : ~ Forall (fun i => i_produtoId i <> id) (itens db)).
      { intros H. assert (Hf : Forall (fun i => (i_produtoId i =? id) = false) (itens db))
          by (eapply Forall_impl; [exact H | intros i Hi; apply Z.eqb_neq; exact Hi]).
        apply nenhum_filtrado in Hf. congruence. }
      repeat split; try discriminate; try tauto.
    + apply nenhum_filtrado in Hn.
      repeat split; try reflexivity; try congruence.
      * eexists; reflexivity.
      * eapply Forall_impl; [exact Hn | intros i Hi; apply Z.eqb_neq; exact Hi].
      * unfold integro, remover_produto. cbn [produtos itens]. intros Hi.
        apply forallb_forall. intros i Hin.
        rewrite forallb_forall in Hi. specialize (Hi i Hin).
        apply bool_decide_eq_true in Hi. apply bool_decide_eq_true.
        rewrite Forall_forall in Hn. apply list_elem_of_In in Hin. specialize (Hn i Hin).
        apply Z.eqb_neq in Hn. rewrite lookup_delete_ne by congruence. exact Hi.
  - cbn [fst snd]. repeat split; try discriminate; try tauto.
    intros [[x Hx] _]. discriminate.
Qed.

(** X11. [ClienteController.remove] deletes the client exactly when it exists
    and no sale names it as its client.  Every other call leaves the database
    as it was, so no sale ever loses its client. *)
Theorem cliente_com_vendas_fica id db :
  (fst (ClienteController.remove (Some id) db) = Removido id <->
   id ∈ clientes db /\ forall k v, vendas db !! k = Some v -> v_clienteId v <> id) /\
  (fst (ClienteController.remove (Some id) db) <> Removido id ->
   snd (ClienteController.remove (Some id) db) = db) /\
  (fst (ClienteController.remove (Some id) db) = Removido id ->
   snd (ClienteController.remove (Some id) db) = remover_cliente id db) /\
  (forall k v, vendas db !! k = Some v -> v_clienteId v ∈ clientes db ->
               v_clienteId v ∈ clientes (snd (ClienteController.remove (Some id) db))).
Proof.
  unfold ClienteController.remove.
  destruct (bool_decide (id ∈ clientes db)) eqn:Hc.
  - apply bool_decide_eq_true in Hc.
    destruct (0 <? Z.of_nat (length (List.filter (fun kv => v_clienteId (snd kv) =? id)
                                                 (map_to_list (vendas db))))) eqn:Hn;
      cbn [fst snd].
    + assert (Hno : ~ forall k v, vendas db !! k = Some v -> v_clienteId v <> id).
      { intros H.
        assert (Hf : Forall (fun kv : Z * Venda => (v_clienteId (snd kv) =? id) = false)
                            (map_to_list (vendas db))).
        { apply Forall_forall. intros [k v] Hin. apply elem_of_map_to_list in Hin.
          apply Z.eqb_neq. exact (H k v Hin). }
        apply nenhum_filtrado in Hf. congruence. }
      repeat split; try discriminate; try tauto.
    + apply nenhum_filtrado in Hn. rewrite Forall_forall in Hn.
      assert (Hv : forall k v, vendas db !! k = Some v -> v_clienteId v <> id).
      { intros k v Hkv. apply Z.eqb_neq.
        exact (Hn (k, v) (proj2 (elem_of_map_to_list _ _ _) Hkv)). }
      repeat split; try reflexivity; try congruence; try assumption.
      intros k v Hkv Hin. unfold remover_cliente. cbn [clientes].
        apply elem_of_difference. split; [exact Hin |].
        intros Hs. apply elem_of_singleton in Hs. exact (Hv k v Hkv Hs).
  - apply bool_decide_eq_false in Hc. cbn [fst snd].
    repeat split; try discriminate; try tauto.
Qed.

(** ** The constraints of the schema are kept *)

Lemma bem_formado_integro db : bem_formado db -> integro db = true.
Proof.
  intros (Hi & _ & _). unfold integro. apply forallb_forall. intros i Hin.
  rewrite Forall_forall in Hi. apply list_elem_of_In in Hin.
  apply bool_decide_eq_true. exact (proj1 (Hi i Hin)).
Qed.

(** Writes that only move stock or rewrite fields of a sale other than its
    client and user. *)
Lemma bem_formado_transporte db db' :
  bem_formado db ->
  itens db' = itens db -> clientes db' = clientes db -> usuarios db' = usuarios db ->
  proxVenda db' = proxVenda db -> proxItem db' = proxItem db ->
  (forall pid, is_Some (produtos db !! pid) -> is_Some (produtos db' !! pid)) ->
  (forall k v', vendas db' !! k = Some v' ->
                exists v, vendas db !! k = Some v /\
                          v_clienteId v' = v_clienteId v /\ v_usuarioId v' = v_usuarioId v) ->
  (forall k, is_Some (vendas db !! k) -> is_Some (vendas db' !! k)) ->
  bem_formado db'.
Proof.
  intros (Hi & Hn & Hv) Ei Ec Eu Epv Epi Hp Hv1 Hv2. unfold bem_formado.
  rewrite Ei, Ec, Eu, Epv, Epi. split; [| split].
  - eapply Forall_impl; [exact Hi |]. intros i (H1 & H2 & H3). auto.
  - exact Hn.
  - intros k v' Hk. destruct (Hv1 k v' Hk) as (v & Hkv & E1 & E2).
    rewrite E1, E2. exact (Hv k v Hkv).
Qed.

Lemma bem_formado_alterar_venda id f db :
  (forall v, v_clienteId (f v) = v_clienteId v /\ v_usuarioId (f v) = v_usuarioId v) ->
  bem_formado db -> bem_formado (alterar_venda id f db).
Proof.
  intros Hf Hb. apply (bem_formado_transporte db); try reflexivity; try assumption.
  - intros pid H. exact H.
  - intros k v'. unfold alterar_venda. cbn [vendas]. rewrite lookup_alter.
    destruct (decide (id = k)) as [-> |].
    + destruct (vendas db !! k) as [v |]; [| discriminate]. cbn [fmap option_fmap option_map].
      intros [= <-]. exists v. split; [reflexivity | apply Hf].
    + intros H. exists v'. auto.
  - intros k. unfold alterar_venda. cbn [vendas]. rewrite lookup_alter.
    destruct (decide (id = k)) as [-> |]; [| auto].
    intros [v ->]. eexists; reflexivity.
Qed.

Lemma bem_formado_aplicar_ajustes sinal l db :
  bem_formado db -> bem_formado (aplicar_ajustes sinal l db).
Proof.
  intros Hb. destruct (aplicar_ajustes_resto sinal l db) as (E1 & E2 & E3 & E4 & E5 & E6).
  apply (bem_formado_transporte db); try assumption.
  - intros pid. rewrite aplicar_ajustes_lookup. intros [p ->]. eexists; reflexivity.
  - intros k v'. rewrite E1. intros H. exists v'. auto.
  - intros k. rewrite E1. auto.
Qed.

Lemma bem_formado_total_gravado vendaId db :
  bem_formado db -> bem_formado (total_gravado vendaId db).
Proof.
  intros Hb. unfold total_gravado. apply bem_formado_alterar_venda; [| exact Hb].
  intros v. split; reflexivity.
Qed.

Lemma bem_formado_inserir_item vendaId produtoId q pu db :
  bem_formado db ->
  is_Some (vendas db !! vendaId) -> is_Some (produtos db !! produtoId) ->
  bem_formado (inserir_item vendaId produtoId q pu db).
Proof.
  intros (Hi & Hn & Hv) Hs Hp. unfold bem_formado, inserir_item.
  cbn [produtos vendas itens clientes usuarios proxVenda proxItem]. split; [| split].
  - apply Forall_app. split.
    + eapply Forall_impl; [exact Hi |]. intros i (H1 & H2 & H3). repeat split; auto. lia.
    + constructor; [| constructor]. cbn [i_produtoId i_vendaId i_id]. repeat split; auto. lia.
  - rewrite List.map_app. cbn [List.map i_id]. apply NoDup_app. split; [exact Hn |]. split.
    + intros x Hx Hx'. apply list_elem_of_In in Hx. apply in_map_iff in Hx.
      destruct Hx as (i & <- & Hin). apply list_elem_of_In in Hin.
      rewrite Forall_forall in Hi. destruct (Hi i Hin) as (_ & _ & Hlt).
      apply list_elem_of_singleton in Hx'. lia.
    + apply NoDup_singleton.
  - exact Hv.
Qed.

Lemma ids_atualizar id q pu pid l :
  List.map i_id (List.map (fun i => if i_id i =? id then atualizar_campos q pu pid i else i) l)
  = List.map i_id l.
Proof.
  induction l as [| x l IH]; cbn [List.map]; [reflexivity |]. rewrite IH. f_equal.
  destruct (i_id x =? id); reflexivity.
Qed.

Lemma bem_formado_atualizar_item id q pu pid db :
  bem_formado db ->
  (forall n, pid = Some n -> is_Some (produtos db !! n)) ->
  bem_formado (atualizar_item id q pu pid db).
Proof.
  intros (Hi & Hn & Hv) Hp. unfold bem_formado, atualizar_item.
  cbn [produtos vendas itens clientes usuarios proxVenda proxItem]. split; [| split].
  - rewrite List.Forall_map. eapply Forall_impl; [exact Hi |]. intros i (H1 & H2 & H3).
    destruct (i_id i =? id); [| auto]. unfold atualizar_campos.
    cbn [i_produtoId i_vendaId i_id]. repeat split; auto.
    destruct pid as [n |]; [apply Hp; reflexivity | exact H1].
  - rewrite ids_atualizar. exact Hn.
  - exact Hv.
Qed.

Lemma NoDup_map_filter {A B} (f : A -> B) (g : A -> bool) (l : list A) :
  NoDup (List.map f l) -> NoDup (List.map f (List.filter g l)).
Proof.
  induction l as [| x l IH]; cbn [List.map List.filter]; [auto |].
  intros H. apply NoDup_cons in H. destruct H as [Hx Hl].
  destruct (g x); [| auto]. cbn [List.map]. apply NoDup_cons. split; [| auto].
  intros Hin. apply Hx. apply list_elem_of_In in Hin. apply in_map_iff in Hin.
  destruct Hin as (y & Ey & Hy). apply List.filter_In in Hy. destruct Hy as [Hy _].
  apply list_elem_of_In. apply in_map_iff. exists y. auto.
Qed.

Lemma Forall_filtrado {A} (P : A -> Prop) (g : A -> bool) (l : list A) :
  Forall P l -> Forall P (List.filter g l).
Proof.
  intros H. apply Forall_forall. intros x Hx. apply list_elem_of_In in Hx.
  apply List.filter_In in Hx. destruct Hx as [Hx _]. apply list_elem_of_In in Hx.
  rewrite Forall_forall in H. exact (H x Hx).
Qed.

Lemma bem_formado_remover_item id db : bem_formado db -> bem_formado (remover_item id db).
Proof.
  intros (Hi & Hn & Hv). unfold bem_formado, remover_item.
  cbn [produtos vendas itens clientes usuarios proxVenda proxItem]. split; [| split].
  - apply Forall_filtrado. exact Hi.
  - apply NoDup_map_filter. exact Hn.
  - exact Hv.
Qed.

Lemma bem_formado_remover_venda id db : bem_formado db -> bem_formado (remover_venda id db).
Proof.
  intros (Hi & Hn & Hv). unfold bem_formado, remover_venda.
  cbn [produtos vendas itens clientes usuarios proxVenda proxItem]. split; [| split].
  - apply Forall_forall. intros i Hin. apply list_elem_of_In in Hin.
    apply List.filter_In in Hin. destruct Hin as [Hin Hne].
    apply negb_true_iff, Z.eqb_neq in Hne. apply list_elem_of_In in Hin.
    rewrite Forall_forall in Hi. destruct (Hi i Hin) as (H1 & H2 & H3).
    repeat split; auto. rewrite lookup_delete_ne by congruence. exact H2.
  - apply NoDup_map_filter. exact Hn.
  - intros k v Hk. apply lookup_delete_Some in Hk. destruct Hk as [_ Hk]. exact (Hv k v Hk).
Qed.

Lemma bem_formado_inserir_itens vendaId linhas : forall d,
  bem_formado d -> is_Some (vendas d !! vendaId) ->
  Forall (fun '(produtoId, _, _) => is_Some (produtos d !! produtoId)) linhas ->
  bem_formado (fold_left (fun d '(produtoId, quantidade, precoUnit) =>
                            inserir_item vendaId produtoId quantidade precoUnit d) linhas d).
Proof.
  induction linhas as [| [[p q] pu] r IH]; intros d Hb Hs Hl; cbn [fold_left]; [exact Hb |].
  inversion Hl as [| ? ? Hp Hr]; subst. apply IH.
  - apply bem_formado_inserir_item; assumption.
  - exact Hs.
  - exact Hr.
Qed.

Lemma bem_formado_inserir_venda v linhas db :
  bem_formado db ->
  v_clienteId v ∈ clientes db -> v_usuarioId v ∈ usuarios db ->
  Forall (fun '(produtoId, _, _) => is_Some (produtos db !! produtoId)) linhas ->
  bem_formado (inserir_venda v linhas db).
Proof.
  intros (Hi & Hn & Hv) Hc Hu Hl. unfold inserir_venda. apply bem_formado_inserir_itens.
  - unfold bem_formado. cbn [produtos vendas itens clientes usuarios proxVenda proxItem].
    split; [| split].
    + eapply Forall_impl; [exact Hi |]. intros i (H1 & H2 & H3). repeat split; auto.
      destruct (decide (proxVenda db = i_vendaId i)) as [<- |].
      * rewrite lookup_insert_eq. eexists; reflexivity.
      * rewrite lookup_insert_ne by assumption. exact H2.
    + exact Hn.
    + intros k w Hk. destruct (decide (proxVenda db = k)) as [<- |].
      * rewrite lookup_insert_eq in Hk. inversion Hk; subst. repeat split; auto. lia.
      * rewrite lookup_insert_ne in Hk by assumption.
        destruct (Hv k w Hk) as (H1 & H2 & H3). repeat split; auto. lia.
  - cbn [vendas]. rewrite lookup_insert_eq. eexists; reflexivity.
  - exact Hl.
Qed.

Lemma bem_formado_criar_item corpo db :
  bem_formado db -> bem_formado (snd (ItemVendaController.create corpo db)).
Proof.
  intros Hb.
  destruct (create_item_casos corpo db)
    as [(e & ->) | (vendaId & produtoId & q & v & p & qn & _ & _ & _ & _ & Hm & Hd & ->)];
    cbn [snd]; [exact Hb |].
  apply modificavel_venda in Hm. apply disponivel_produto in Hd.
  apply bem_formado_inserir_item.
  - apply bem_formado_total_gravado. exact Hb.
  - unfold total_gravado, alterar_venda. cbn [vendas]. rewrite lookup_alter.
    rewrite decide_True by reflexivity. rewrite Hm. eexists; reflexivity.
  - change (produtos (total_gravado vendaId db)) with (produtos db). rewrite Hd.
    eexists; reflexivity.
Qed.

Lemma bem_formado_atualizar_linha id corpo db :
  bem_formado db -> bem_formado (snd (ItemVendaController.update id corpo db)).
Proof.
  intros Hb.
  destruct (update_item_casos id corpo db)
    as [(http & e & ->) | (itemAtual & v & _ & _ & _ & Hp & _ & ->)];
    cbn [snd]; [exact Hb |].
  unfold item_atualizado. apply bem_formado_atualizar_item.
  - apply bem_formado_total_gravado. exact Hb.
  - exact Hp.
Qed.

Lemma bem_formado_remover_linha id db :
  bem_formado db -> bem_formado (snd (ItemVendaController.remove id db)).
Proof.
  intros Hb.
  destruct (remove_item_casos id db) as [(http & e & ->) | (item & v & _ & _ & ->)];
    cbn [snd]; [exact Hb |].
  apply bem_formado_remover_item, bem_formado_total_gravado. exact Hb.
Qed.

Lemma bem_formado_ajustar_estoque id d db :
  bem_formado db -> bem_formado (ajustar_estoque id d db).
Proof.
  intros Hb. apply (bem_formado_transporte db); try reflexivity; try assumption.
  - intros pid. unfold ajustar_estoque. cbn [produtos]. rewrite lookup_alter.
    destruct (decide (id = pid)) as [-> |]; [| auto]. intros [p ->]. eexists; reflexivity.
  - intros k v' H. exists v'. auto.
  - auto.
Qed.

Lemma bem_formado_baixas l : forall d,
  bem_formado d -> bem_formado (fold_left passo_baixa l d).
Proof.
  induction l as [| x l IH]; intros d Hb; cbn [fold_left]; [exact Hb |].
  apply IH. unfold passo_baixa.
  destruct (produtos d !! default 0 (it_produtoId x)) as [p |]; [| exact Hb].
  destruct (String.eqb (p_tipo p) "Produto" && bool_decide (is_Some (p_estoque p)));
    [apply bem_formado_ajustar_estoque |]; exact Hb.
Qed.

Lemma bem_formado_criar_venda agora corpo db :
  bem_formado db -> bem_formado (snd (VendaController.create agora corpo db)).
Proof.
  intros Hb. destruct (VendaController.create agora corpo db) as [[id | http e] db'] eqn:E;
    cbn [snd].
  - destruct (create_resultado _ _ _ _ _ E) as (_ & _ & Hex & ->).
    apply verificarExistenciaRegistros_nil in Hex. destruct Hex as (Hc & Hu & Hp).
    assert (Hi : bem_formado (inserir_venda (venda_criada agora corpo)
                                            (List.map linha_de (cv_itens corpo)) db)).
    { apply bem_formado_inserir_venda; [exact Hb | exact Hc | exact Hu |].
      rewrite List.Forall_map. eapply Forall_impl; [exact Hp |].
      intros item Hitem. apply verificar_produto_nil in Hitem.
      destruct Hitem as (p & Hp1 & _). unfold linha_de. rewrite Hp1. eexists; reflexivity. }
    destruct (String.eqb (v_status (venda_criada agora corpo)) "Concluida");
      [apply bem_formado_baixas |]; exact Hi.
  - rewrite (create_atomica _ _ _ _ _ _ E). exact Hb.
Qed.

Lemma bem_formado_gerenciado sa st id db b :
  bem_formado b -> bem_formado (gerenciado sa st id db b).
Proof.
  intros Hb. unfold gerenciado.
  repeat match goal with
         | |- context [if ?c then _ else _] => destruct c
         end; try apply bem_formado_aplicar_ajustes; exact Hb.
Qed.

Lemma bem_formado_atualizar_venda id corpo db :
  bem_formado db -> bem_formado (snd (VendaController.update id corpo db)).
Proof.
  intros Hb.
  destruct (verdadeira (ca_status corpo)
            && negb (status_valido (default EmptyString (ca_status corpo)))) eqn:Hc.
  { unfold VendaController.update. rewrite Hc. exact Hb. }
  destruct (vendas db !! id) as [v |] eqn:Hv.
  2: { unfold VendaController.update. rewrite Hc, Hv. exact Hb. }
  rewrite (update_sucesso db id corpo v (bem_formado_integro db Hb) Hv Hc). cbn [snd].
  apply bem_formado_gerenciado. apply bem_formado_alterar_venda; [| exact Hb].
  intros w. split; reflexivity.
Qed.

Lemma bem_formado_remover_a_venda id db :
  bem_formado db -> bem_formado (snd (VendaController.remove id db)).
Proof.
  intros Hb. destruct (vendas db !! id) as [v |] eqn:Hv.
  2: { unfold VendaController.remove. rewrite Hv. exact Hb. }
  rewrite (remove_sucesso db id v (bem_formado_integro db Hb) Hv). cbn [snd].
  apply bem_formado_remover_venda.
  destruct (String.eqb (v_status v) "Concluida"); [apply bem_formado_aplicar_ajustes |]; exact Hb.
Qed.

Lemma bem_formado_mudar_status id status db :
  bem_formado db -> bem_formado (snd (VendaController.updateStatus id status db)).
Proof.
  intros Hb.
  destruct (VendaController.updateStatus id status db) as [[r | http e] db'] eqn:E; cbn [snd].
  2: { rewrite (updateStatus_atomica _ _ _ _ _ _ E). exact Hb. }
  unfold VendaController.updateStatus in E.
  destruct (negb (verdadeira status) || negb (status_valido (default EmptyString status)))
    eqn:Hc; [inversion E |].
  apply orb_false_iff in Hc. destruct Hc as [Hc1 Hc2]. apply negb_false_iff in Hc1, Hc2.
  destruct status as [s |]; [| discriminate Hc1].
  change (default EmptyString (Some s)) with s in Hc2, E.
  destruct (vendas db !! id) as [v |] eqn:Hv.
  - pose proof (updateStatus_sucesso db id s v (bem_formado_integro db Hb) Hc2 Hv) as Hs.
    unfold VendaController.updateStatus in Hs.
    change (default EmptyString (Some s)) with s in Hs. rewrite Hc1, Hc2 in Hs. cbn [negb orb] in Hs.
    rewrite Hs in E. inversion E; subst.
    apply bem_formado_alterar_venda; [intros w; split; reflexivity |].
    unfold apos_gerenciar.
    repeat match goal with
           | |- context [if ?c then _ else _] => destruct c
           end; try apply bem_formado_aplicar_ajustes; exact Hb.
  - unfold transacao, tx_bind, tx_ler, visao, lancar in E. cbn [fora pend] in E.
    rewrite Hv in E. inversion E.
Qed.

Lemma bem_formado_remover_produto id db :
  bem_formado db -> bem_formado (snd (ProdutoController.remove id db)).
Proof.
  intros Hb. destruct id as [id |]; [| exact Hb]. unfold ProdutoController.remove.
  destruct (produtos db !! id) as [p |]; [| exact Hb].
  destruct (0 <? Z.of_nat (length (List.filter (fun i => i_produtoId i =? id) (itens db))))
    eqn:Hn; [exact Hb |].
  apply nenhum_filtrado in Hn. cbn [snd].
  destruct Hb as (Hi & Hd & Hv). unfold bem_formado, remover_produto.
  cbn [produtos vendas itens clientes usuarios proxVenda proxItem]. split; [| split; assumption].
  rewrite Forall_forall in Hi, Hn. apply Forall_forall. intros i Hin.
  destruct (Hi i Hin) as (H1 & H2 & H3). repeat split; auto.
  specialize (Hn i Hin). apply Z.eqb_neq in Hn.
  rewrite lookup_delete_ne by congruence. exact H1.
Qed.

Lemma bem_formado_remover_cliente id db :
  bem_formado db -> bem_formado (snd (ClienteController.remove id db)).
Proof.
  intros Hb. destruct id as [id |]; [| exact Hb]. unfold ClienteController.remove.
  destruct (bool_decide (id ∈ clientes db)); [| exact Hb].
  destruct (0 <? Z.of_nat (length (List.filter (fun kv => v_clienteId (snd kv) =? id)
                                               (map_to_list (vendas db))))) eqn:Hn;
    [exact Hb |].
  apply nenhum_filtrado in Hn. rewrite Forall_forall in Hn. cbn [snd].
  destruct Hb as (Hi & Hd & Hv). unfold bem_formado, remover_cliente.
  cbn [produtos vendas itens clientes usuarios proxVenda proxItem].
  split; [exact Hi |]. split; [exact Hd |].
  intros k v Hk. destruct (Hv k v Hk) as (H1 & H2 & H3). repeat split; auto.
  apply elem_of_difference. split; [exact H1 |].
  intros Hs. apply elem_of_singleton in Hs.
  specialize (Hn (k, v) (proj2 (elem_of_map_to_list _ _ _) Hk)). cbn [snd] in Hn.
  apply Z.eqb_neq in Hn. contradiction.
Qed.

Lemma atender_bem_formado c db : bem_formado db -> bem_formado (atender c db).
Proof.
  intros Hb. destruct c; cbn [atender].
  - apply bem_formado_criar_item; exact Hb.
  - apply bem_formado_atualizar_linha; exact Hb.
  - apply bem_formado_remover_linha; exact Hb.
  - apply bem_formado_criar_venda; exact Hb.
  - apply bem_formado_atualizar_venda; exact Hb.
  - apply bem_formado_remover_a_venda; exact Hb.
  - apply bem_formado_mudar_status; exact Hb.
  - apply bem_formado_remover_produto; exact Hb.
  - apply bem_formado_remover_cliente; exact Hb.
Qed.

(** X12. The constraints of the schema hold after every call of [Chamada]:
    any sequence of calls to the handlers that write, where the body of an
    update of a sale holds no key besides [data], [status] and
    [observacoes], keeps every line on an existing sale and an existing
    catalog entry, every sale on an existing client and user, and the ids
    unique and below the next auto-increment value, whatever the answers. *)
Theorem chamadas_preservam_bem_formado (cs : list Chamada) (db : Banco) :
  bem_formado db -> bem_formado (fold_left (fun d c => atender c d) cs db).
Proof.
  revert db. induction cs as [| c cs IH]; intros db Hb; cbn [fold_left]; [exact Hb |].
  apply IH, atender_bem_formado, Hb.
Qed.

Lemma loja_bem_formada : bem_formado loja.
Proof.
  unfold bem_formado, loja. cbn [produtos vendas itens clientes usuarios proxVenda proxItem].
  split; [| split].
  - repeat constructor; cbn [i_produtoId i_vendaId i_id];
      first [eexists; reflexivity | reflexivity].
  - cbn [List.map i_id]. repeat (apply NoDup_cons; split); try apply NoDup_nil_2;
      intros H; repeat (apply elem_of_cons in H; destruct H as [H | H]; [discriminate H |]);
      apply elem_of_nil in H; exact H.
  - intros k v H.
    repeat (apply lookup_insert_Some in H; destruct H as [[<- <-] | [_ H]];
            [cbn [v_clienteId v_usuarioId];
             split; [apply elem_of_singleton; reflexivity |];
             split; [apply elem_of_singleton; reflexivity | reflexivity] |]).
    rewrite lookup_empty in H. discriminate H.
Defined.

Lemma chamadas_preservam_bem_formado_witness :
  bem_formado
    (fold_left (fun d c => atender c d)
               [CriarVenda 0 pedido_dobrado; RemoverItem 1; MudarStatus 3 (Some "Cancelada");
                RemoverVenda 2; RemoverProduto (Some 3); RemoverCliente (Some 1)]
               loja).
Proof.
  apply chamadas_preservam_bem_formado. exact loja_bem_formada.
Defined.

(** ** Round trips of the creation of a sale *)

Lemma banco_igual a b :
  produtos a = produtos b -> vendas a = vendas b -> itens a = itens b ->
  clientes a = clientes b -> usuarios a = usuarios b ->
  proxVenda a = proxVenda b -> proxItem a = proxItem b -> a = b.
Proof.
  destruct a as [a1 a2 a3 a4 a5 a6 a7], b as [b1 b2 b3 b4 b5 b6 b7].
  cbn [produtos vendas itens clientes usuarios proxVenda proxItem].
  intros -> -> -> -> -> -> ->. reflexivity.
Qed.

Lemma inserir_itens_contador vendaId linhas : forall d,
  proxItem (fold_left (fun d '(produtoId, quantidade, precoUnit) =>
                         inserir_item vendaId produtoId quantidade precoUnit d) linhas d)
  = proxItem d + Z.of_nat (length linhas).
Proof.
  induction linhas as [| [[p q] pu] r IH]; intros d; cbn [fold_left length]; [lia |].
  rewrite IH. cbn [inserir_item proxItem]. lia.
Qed.

Lemma passo_baixa_outros l : forall d,
  clientes (fold_left passo_baixa l d) = clientes d /\
  usuarios (fold_left passo_baixa l d) = usuarios d /\
  proxVenda (fold_left passo_baixa l d) = proxVenda d /\
  proxItem (fold_left passo_baixa l d) = proxItem d.
Proof.
  induction l as [| x l IH]; intros d; cbn [fold_left]; [repeat split |].
  destruct (IH (passo_baixa d x)) as (-> & -> & -> & ->). unfold passo_baixa.
  destruct (produtos d !! default 0 (it_produtoId x)) as [p |]; [| repeat split].
  destruct (String.eqb (p_tipo p) "Produto" && bool_decide (is_Some (p_estoque p)));
    repeat split.
Qed.

(** The tables that [VendaController.create] does not write, and the two
    counters. *)
Lemma create_outros agora corpo db id db' :
  VendaController.create agora corpo db = (Sucesso id, db') ->
  clientes db' = clientes db /\ usuarios db' = usuarios db /\
  proxVenda db' = proxVenda db + 1 /\
  proxItem db' = proxItem db + Z.of_nat (length (cv_itens corpo)).
Proof.
  intros E. destruct (create_resultado _ _ _ _ _ E) as (_ & _ & _ & ->).
  set (d1 := inserir_venda _ _ db).
  assert (H1 : clientes d1 = clientes db /\ usuarios d1 = usuarios db /\
               proxVenda d1 = proxVenda db + 1 /\
               proxItem d1 = proxItem db + Z.of_nat (length (cv_itens corpo))).
  { unfold d1, inserir_venda.
    match goal with |- context [fold_left ?f ?l ?d0] =>
      pose proof (inserir_itens_fold (proxVenda db) l d0) as Hf;
      pose proof (inserir_itens_contador (proxVenda db) l d0) as Hc end.
    cbv zeta in Hf. destruct Hf as (_ & _ & _ & -> & -> & ->). rewrite Hc.
    cbn [clientes usuarios proxVenda proxItem]. rewrite List.length_map. repeat split. }
  destruct H1 as (H1 & H2 & H3 & H4).
  destruct (String.eqb (v_status (venda_criada agora corpo)) "Concluida").
  - destruct (passo_baixa_outros (cv_itens corpo) d1) as (-> & -> & -> & ->). auto.
  - auto.
Qed.

(** In a well-formed database no line is on the sale that comes next. *)
Lemma sem_linhas_da_proxima db :
  bem_formado db -> List.filter (fun i => i_vendaId i =? proxVenda db) (itens db) = [].
Proof.
  intros (Hi & _ & Hv). induction (itens db) as [| x l IH]; [reflexivity |].
  inversion Hi as [| ? ? (_ & [v Hx] & _) Hl]; subst. cbn [List.filter].
  destruct (Hv _ _ Hx) as (_ & _ & Hlt).
  replace (i_vendaId x =? proxVenda db) with false by (symmetry; apply Z.eqb_neq; lia).
  apply IH. exact Hl.
Qed.

Lemma linhas_numeradas vendaId linhas : forall n,
  List.filter (fun i => i_vendaId i =? vendaId) (numerar vendaId n linhas)
  = numerar vendaId n linhas /\
  List.filter (fun i => negb (i_vendaId i =? vendaId)) (numerar vendaId n linhas) = [].
Proof.
  induction linhas as [| [[p q] pu] r IH]; intros n; cbn [numerar List.filter]; [auto |].
  cbn [i_vendaId]. rewrite Z.eqb_refl. cbn [negb]. destruct (IH (n + 1)) as [-> ->]. auto.
Qed.

Lemma itens_da_venda_criada agora corpo db id db' :
  bem_formado db ->
  VendaController.create agora corpo db = (Sucesso id, db') ->
  itens_da_venda db' id = numerar id (proxItem db) (List.map linha_de (cv_itens corpo)) /\
  List.filter (fun i => negb (i_vendaId i =? id)) (itens db') = itens db.
Proof.
  intros Hb E. destruct (create_campos _ _ _ _ _ E) as (-> & _ & Hi & _).
  unfold itens_da_venda. rewrite Hi, !List.filter_app.
  rewrite (sem_linhas_da_proxima db Hb).
  destruct (linhas_numeradas (proxVenda db) (List.map linha_de (cv_itens corpo)) (proxItem db))
    as [-> ->].
  rewrite app_nil_r. split; [reflexivity |].
  destruct Hb as (Hf & _ & Hv). clear Hi. induction (itens db) as [| x l IH]; [reflexivity |].
  inversion Hf as [| ? ? (_ & [v Hx] & _) Hl]; subst. cbn [List.filter].
  destruct (Hv _ _ Hx) as (_ & _ & Hlt).
  replace (i_vendaId x =? proxVenda db) with false by (symmetry; apply Z.eqb_neq; lia).
  cbn [negb]. f_equal. apply IH. exact Hl.
Qed.

Lemma ordenar_numerar vendaId linhas : forall n,
  ordenar_por_id (numerar vendaId n linhas) = numerar vendaId n linhas.
Proof.
  unfold ordenar_por_id.
  induction linhas as [| [[p q] pu] r IH]; intros n; cbn [numerar fold_right]; [reflexivity |].
  rewrite IH. destruct r as [| [[p' q'] pu'] r']; cbn [numerar inserir_por_id i_id];
    [reflexivity |].
  replace (n <=? n + 1) with true by (symmetry; apply Z.leb_le; lia). reflexivity.
Qed.

Lemma totais_numerados db vendaId itens : forall n,
  List.map ict_total (List.map (comTotal db) (numerar vendaId n (List.map linha_de itens)))
  = List.map (fun item => default 0 (it_quantidade item) * default 0 (it_precoUnit item)) itens.
Proof.
  induction itens as [| x l IH]; intros n; cbn [List.map numerar linha_de]; [reflexivity |].
  rewrite IH. reflexivity.
Qed.

Lemma itens_numerados db l : List.map ict_item (List.map (comTotal db) l) = l.
Proof.
  induction l as [| x l IH]; cbn [List.map]; [reflexivity |]. rewrite IH. reflexivity.
Qed.

Lemma comprimento_numerar vendaId linhas : forall n,
  length (numerar vendaId n linhas) = length linhas.
Proof.
  induction linhas as [| [[p q] pu] r IH]; intros n; cbn [numerar length]; [reflexivity |].
  rewrite IH. reflexivity.
Qed.

(** X13. Round trip of [VendaController.create] and [findByVenda]: on a
    well-formed database, the lines read back for the new sale are the lines
    of the request, in the order of the request, numbered from the next line
    id; their count and the sum of their totals are those of the request, and
    when the request gives no total (or 0) the total stored on the sale is
    the sum that [findByVenda] reports.  This is for a request whose numbers
    are integers that JavaScript holds exactly and whose sum of line totals
    is exact ([pedido_seguro]): there the stored lines are those of the
    request and the products and sums are not rounded. *)
Theorem venda_criada_e_consultada agora corpo db id db' :
  bem_formado db ->
  pedido_seguro corpo = true ->
  VendaController.create agora corpo db = (Sucesso id, db') ->
  List.map ict_item (idv_itens (ItemVendaConsultas.findByVenda id db'))
  = numerar id (proxItem db) (List.map linha_de (cv_itens corpo)) /\
  idv_quantidadeItens (ItemVendaConsultas.findByVenda id db')
  = Z.of_nat (length (cv_itens corpo)) /\
  idv_valorTotal (ItemVendaConsultas.findByVenda id db') = total_pedido (cv_itens corpo) /\
  (verdadeiro (cv_total corpo) = false ->
   v_total <$> vendas db' !! id
   = Some (idv_valorTotal (ItemVendaConsultas.findByVenda id db'))).
Proof.
  intros Hb _ E. destruct (itens_da_venda_criada _ _ _ _ _ Hb E) as [Hl _].
  unfold ItemVendaConsultas.findByVenda. cbv zeta.
  cbn [idv_itens idv_quantidadeItens idv_valorTotal]. rewrite Hl, ordenar_numerar.
  assert (Ht : fold_left (fun sum item => sum + ict_total item)
                 (List.map (comTotal db')
                    (numerar id (proxItem db) (List.map linha_de (cv_itens corpo)))) 0
               = total_pedido (cv_itens corpo)).
  { rewrite (fold_left_soma ict_total), totais_numerados. unfold total_pedido. lia. }
  rewrite Ht. split; [apply itens_numerados |]. split.
  { rewrite !List.length_map, comprimento_numerar, List.length_map. reflexivity. }
  split; [reflexivity |]. intros Hn.
  destruct (create_campos _ _ _ _ _ E) as (_ & -> & _). rewrite lookup_insert_eq.
  cbn [fmap option_fmap option_map]. unfold venda_criada. cbn [v_total]. rewrite Hn. reflexivity.
Qed.

Lemma venda_criada_e_consultada_witness :
  exists db',
    VendaController.create 0 pedido_dobrado loja = (Sucesso 4, db') /\
    List.map ict_item (idv_itens (ItemVendaConsultas.findByVenda 4 db'))
    = [mkItemVenda 5 4 2 1 2000; mkItemVenda 6 4 2 1 2000] /\
    idv_valorTotal (ItemVendaConsultas.findByVenda 4 db') = 4000 /\
    v_total <$> vendas db' !! 4 = Some 4000.
Proof.
  exists (snd (VendaController.create 0 pedido_dobrado loja)).
  assert (E : VendaController.create 0 pedido_dobrado loja
              = (Sucesso 4, snd (VendaController.create 0 pedido_dobrado loja)))
    by (vm_compute; reflexivity).
  split; [exact E |].
  destruct (venda_criada_e_consultada 0 pedido_dobrado loja 4 _ loja_bem_formada eq_refl E)
    as (H1 & _ & H3 & H4).
  split; [exact H1 |]. split; [exact H3 |].
  rewrite (H4 eq_refl), H3. reflexivity.
Defined.

(** X14. Round trip of [VendaController.create] and [VendaController.remove]:
    on a well-formed database, deleting the sale that was just created
    succeeds and gives back the catalog with its stock, the sales, the lines,
    the clients and the users as they were before the creation; only the two
    auto-increment counters have moved. *)
Theorem criar_e_remover agora corpo db id db' :
  bem_formado db ->
  VendaController.create agora corpo db = (Sucesso id, db') ->
  VendaController.remove id db' =
  (Sucesso id,
   mkBanco (produtos db) (vendas db) (itens db) (clientes db) (usuarios db)
           (proxVenda db + 1) (proxItem db + Z.of_nat (length (cv_itens corpo)))).
Proof.
  intros Hb E.
  assert (Hb' : bem_formado db').
  { pose proof (bem_formado_criar_venda agora corpo db Hb) as H. rewrite E in H. exact H. }
  destruct (itens_da_venda_criada _ _ _ _ _ Hb E) as [Hl Hr].
  destruct (create_outros _ _ _ _ _ E) as (Hc & Hu & Hpv & Hpi).
  destruct (create_campos _ _ _ _ _ E) as (Hid & Hv & Hi & Hp1 & Hp2).
  assert (Hnova : vendas db' !! id = Some (venda_criada agora corpo))
    by (rewrite Hv; apply lookup_insert_eq).
  assert (Hfresca : vendas db !! id = None).
  { destruct (vendas db !! id) as [w |] eqn:Hw; [| reflexivity].
    destruct Hb as (_ & _ & Hvs). destruct (Hvs _ _ Hw) as (_ & _ & Hlt). lia. }
  rewrite (remove_sucesso db' id _ (bem_formado_integro db' Hb') Hnova). f_equal.
  apply banco_igual; cbn [remover_venda produtos vendas itens clientes usuarios proxVenda proxItem].
  - destruct (String.eqb (v_status (venda_criada agora corpo)) "Concluida") eqn:Hs.
    + apply String.eqb_eq in Hs. apply map_eq. intros pid.
      rewrite estoque_apos_ajustes, Hl, (Hp1 Hs pid).
      destruct (produtos db !! pid) as [p |]; [| reflexivity].
      cbn [fmap option_fmap option_map]. rewrite movimentado_volta. reflexivity.
    + apply String.eqb_neq in Hs. exact (Hp2 Hs).
  - destruct (String.eqb (v_status (venda_criada agora corpo)) "Concluida");
      [destruct (aplicar_ajustes_resto 1 (itens_com_produto db' id) db') as (-> & _) |];
      rewrite Hv, delete_insert_eq; apply delete_id; exact Hfresca.
  - destruct (String.eqb (v_status (venda_criada agora corpo)) "Concluida");
      [destruct (aplicar_ajustes_resto 1 (itens_com_produto db' id) db') as (_ & -> & _) |];
      exact Hr.
  - destruct (String.eqb (v_status (venda_criada agora corpo)) "Concluida");
      [destruct (aplicar_ajustes_resto 1 (itens_com_produto db' id) db') as (_ & _ & -> & _) |];
      exact Hc.
  - destruct (String.eqb (v_status (venda_criada agora corpo)) "Concluida");
      [destruct (aplicar_ajustes_resto 1 (itens_com_produto db' id) db')
        as (_ & _ & _ & -> & _) |];
      exact Hu.
  - destruct (String.eqb (v_status (venda_criada agora corpo)) "Concluida");
      [destruct (aplicar_ajustes_resto 1 (itens_com_produto db' id) db')
        as (_ & _ & _ & _ & -> & _) |];
      exact Hpv.
  - destruct (String.eqb (v_status (venda_criada agora corpo)) "Concluida");
      [destruct (aplicar_ajustes_resto 1 (itens_com_produto db' id) db')
        as (_ & _ & _ & _ & _ & ->) |];
      exact Hpi.
Qed.

Lemma criar_e_remover_witness :
  exists db',
    VendaController.create 0 pedido_dobrado loja = (Sucesso 4, db') /\
    produtos db' !! 2 = Some (com_estoque lanche (Some (-1))) /\
    VendaController.remove 4 db' =
    (Sucesso 4,
     mkBanco (produtos loja) (vendas loja) (itens loja) (clientes loja) (usuarios loja) 5 7).
Proof.
  exists (snd (VendaController.create 0 pedido_dobrado loja)).
  assert (E : VendaController.create 0 pedido_dobrado loja
              = (Sucesso 4, snd (VendaController.create 0 pedido_dobrado loja)))
    by (vm_compute; reflexivity).
  split; [exact E |]. split; [vm_compute; reflexivity |].
  exact (criar_e_remover 0 pedido_dobrado loja 4 _ loja_bem_formada E).
Defined.

(** ** The stored total and the line query; the earlier revision *)

Lemma soma_inserir_por_id (f : ItemVenda -> Z) i l :
  foldr Z.add 0 (List.map f (inserir_por_id i l)) = f i + foldr Z.add 0 (List.map f l).
Proof.
  induction l as [| j r IH]; cbn [inserir_por_id List.map foldr]; [reflexivity |].
  destruct (i_id i <=? i_id j); cbn [List.map foldr]; [reflexivity |]. rewrite IH. lia.
Qed.

Lemma soma_ordenada (f : ItemVenda -> Z) l :
  foldr Z.add 0 (List.map f (ordenar_por_id l)) = foldr Z.add 0 (List.map f l).
Proof.
  unfold ordenar_por_id. induction l as [| i l IH]; cbn [fold_right List.map foldr];
    [reflexivity |].
  rewrite soma_inserir_por_id, IH. reflexivity.
Qed.

(** The sum that [findByVenda] reports is the sum that [atualizarTotalVenda]
    computes over the same lines. *)
Lemma consulta_total db vendaId :
  idv_valorTotal (ItemVendaConsultas.findByVenda vendaId db)
  = somar_itens (itens_da_venda db vendaId).
Proof.
  unfold ItemVendaConsultas.findByVenda, somar_itens. cbv zeta. cbn [idv_valorTotal].
  rewrite (fold_left_soma ict_total), List.map_map.
  rewrite (fold_left_soma (fun item => i_quantidade item * i_precoUnit item)).
  f_equal. apply (soma_ordenada (fun x => ict_total (comTotal db x))).
Qed.

Lemma total_apos_gravar vendaId db v :
  vendas db !! vendaId = Some v ->
  v_total <$> vendas (total_gravado vendaId db) !! vendaId
  = Some (idv_valorTotal (ItemVendaConsultas.findByVenda vendaId db)).
Proof.
  intros Hv. unfold total_gravado, alterar_venda. cbn [vendas].
  rewrite lookup_alter, decide_True by reflexivity. rewrite Hv, consulta_total. reflexivity.
Qed.

(** X15. The total that a line mutation stores on the sale is the sum that
    [findByVenda] reported before the mutation: [atualizarTotalVenda] reads
    the lines through the module-level client and so does not see the write
    of the transaction that calls it.  After [create] the lines of the sale
    therefore add up to the stored total plus the new line.  This is for
    bodies whose numbers are integers that JavaScript holds exactly and for
    lines whose totals and sums are exact ([linhas_exatas]), where the
    products and sums of the code are not rounded and do not depend on the
    order of the lines. *)
Theorem total_gravado_e_o_da_consulta_anterior db :
  (forall corpo item db',
     corpo_seguro corpo = true ->
     ItemVendaController.create corpo db = (Sucesso item, db') ->
     linhas_exatas (itens_da_venda db' (i_vendaId item)) = true ->
     v_total <$> vendas db' !! i_vendaId item
     = Some (idv_valorTotal (ItemVendaConsultas.findByVenda (i_vendaId item) db)) /\
     idv_valorTotal (ItemVendaConsultas.findByVenda (i_vendaId item) db')
     = idv_valorTotal (ItemVendaConsultas.findByVenda (i_vendaId item) db)
       + i_quantidade item * i_precoUnit item) /\
  (forall id corpo item db',
     corpo_seguro corpo = true ->
     ItemVendaController.update id corpo db = (Sucesso item, db') ->
     linhas_exatas (itens_da_venda db (i_vendaId item)) = true ->
     v_total <$> vendas db' !! i_vendaId item
     = Some (idv_valorTotal (ItemVendaConsultas.findByVenda (i_vendaId item) db))) /\
  (forall id vendaId db',
     ItemVendaController.remove id db = (Sucesso vendaId, db') ->
     linhas_exatas (itens_da_venda db vendaId) = true ->
     v_total <$> vendas db' !! vendaId
     = Some (idv_valorTotal (ItemVendaConsultas.findByVenda vendaId db))).
Proof.
  split; [| split].
  - intros corpo item db' _ E _.
    destruct (create_item_casos corpo db)
      as [(e & E') | (vendaId & produtoId & q & v & p & qn & _ & _ & _ & _ & Hm & _ & E')];
      rewrite E' in E; [discriminate E |].
    inversion E; subst. cbn [i_vendaId i_quantidade i_precoUnit]. split.
    + change (vendas (inserir_item vendaId produtoId q (preco_final corpo p)
                                   (total_gravado vendaId db)))
        with (vendas (total_gravado vendaId db)).
      apply (total_apos_gravar _ _ v), modificavel_venda, Hm.
    + rewrite !consulta_total. unfold itens_da_venda, inserir_item. cbn [itens].
      change (itens (total_gravado vendaId db)) with (itens db).
      rewrite List.filter_app. cbn [List.filter i_vendaId]. rewrite Z.eqb_refl.
      unfold somar_itens. rewrite fold_left_app. cbn [fold_left i_quantidade i_precoUnit].
      reflexivity.
  - intros id corpo item db' _ E _.
    destruct (update_item_casos id corpo db)
      as [(http & e & E') | (itemAtual & v & _ & _ & Hm & _ & _ & E')];
      rewrite E' in E; [discriminate E |].
    inversion E; subst. unfold campos_atualizados, atualizar_campos. cbn [i_vendaId].
    change (vendas (item_atualizado id corpo (total_gravado (i_vendaId itemAtual) db)))
      with (vendas (total_gravado (i_vendaId itemAtual) db)).
    apply (total_apos_gravar _ _ v), modificavel_venda, Hm.
  - intros id vendaId db' E _.
    destruct (remove_item_casos id db) as [(http & e & E') | (item & v & _ & Hm & E')];
      rewrite E' in E; [discriminate E |].
    inversion E; subst.
    change (vendas (remover_item id (total_gravado (i_vendaId item) db)))
      with (vendas (total_gravado (i_vendaId item) db)).
    apply (total_apos_gravar _ _ v), modificavel_venda, Hm.
Qed.

(** Sale 1 has one line of 3 at 1000: after a second line of 1 at 2000 the
    stored total is still 3000 and the lines add up to 5000. *)
Lemma total_gravado_e_o_da_consulta_anterior_witness :
  exists db',
    ItemVendaController.create (mkCorpoItem (Some 1) (Some 2) (Some 1) None) loja
    = (Sucesso (mkItemVenda 5 1 2 1 2000), db') /\
    v_total <$> vendas db' !! 1 = Some 3000 /\
    idv_valorTotal (ItemVendaConsultas.findByVenda 1 db') = 5000.
Proof.
  exists (snd (ItemVendaController.create (mkCorpoItem (Some 1) (Some 2) (Some 1) None) loja)).
  assert (E : ItemVendaController.create (mkCorpoItem (Some 1) (Some 2) (Some 1) None) loja
              = (Sucesso (mkItemVenda 5 1 2 1 2000),
                 snd (ItemVendaController.create
                        (mkCorpoItem (Some 1) (Some 2) (Some 1) None) loja)))
    by (vm_compute; reflexivity).
  split; [exact E |].
  destruct (total_gravado_e_o_da_consulta_anterior loja) as (Hc & _ & _).
  destruct (Hc (mkCorpoItem (Some 1) (Some 2) (Some 1) None) _ _ eq_refl E
              ltac:(vm_compute; reflexivity)) as [H1 H2].
  split; [etransitivity; [exact H1 |] | etransitivity; [exact H2 |]]; vm_compute; reflexivity.
Defined.

(** X16. The earlier revision of [updateStatus] does not look at the kind of
    an entry: concluding a sale takes the quantities of its lines off the
    stock of every entry, where the current revision takes them off the
    Product-kind entries only.  The two revisions move the same stock on the
    Product-kind entries. *)
Theorem revisao_anterior_baixa_todos_os_tipos db id v :
  integro db = true ->
  vendas db !! id = Some v ->
  v_status v <> "Concluida" ->
  exists antes depois,
    VendaControllerAnterior.updateStatus id (Some "Concluida") db = (Sucesso id, antes) /\
    VendaController.updateStatus id (Some "Concluida") db = (Sucesso id, depois) /\
    forall pid p, produtos db !! pid = Some p ->
      produtos antes !! pid
      = Some (mexer (- soma_quantidades (itens_da_venda db id) pid) p) /\
      produtos depois !! pid
      = Some (if String.eqb (p_tipo p) "Produto"
              then mexer (- soma_quantidades (itens_da_venda db id) pid) p else p).
Proof.
  intros Hi Hv Hne.
  destruct (updateStatus_anterior_concluir db id v Hi Hv Hne) as (antes & Ea & Ha & _).
  exists antes. eexists. split; [exact Ea |].
  split; [apply (updateStatus_sucesso db id "Concluida" v Hi eq_refl Hv) |].
  intros pid p Hp. split; [rewrite Ha, Hp; reflexivity |].
  cbn [alterar_venda produtos]. unfold apos_gerenciar.
  rewrite bool_decide_eq_false_2 by congruence.
  rewrite bool_decide_eq_true_2 by reflexivity. cbn [negb].
  rewrite estoque_apos_ajustes, Hp. cbn [fmap option_fmap option_map]. unfold movimentado.
  destruct (String.eqb (p_tipo p) "Produto"); [| reflexivity].
  do 2 f_equal; lia.
Qed.

Lemma revisao_anterior_baixa_todos_os_tipos_witness :
  exists antes depois,
    VendaControllerAnterior.updateStatus 4 (Some "Concluida") loja_com_servico
    = (Sucesso 4, antes) /\
    VendaController.updateStatus 4 (Some "Concluida") loja_com_servico = (Sucesso 4, depois) /\
    produtos antes !! 3 = Some (com_estoque barba_contada (Some 9)) /\
    produtos depois !! 3 = Some barba_contada.
Proof.
  destruct (revisao_anterior_baixa_todos_os_tipos loja_com_servico 4
              (mkVenda 1 1 0 "Pendente" 5000 None) eq_refl eq_refl)
    as (antes & depois & Ea & Ed & H); [discriminate |].
  exists antes, depois. split; [exact Ea |]. split; [exact Ed |].
  destruct (H 3 barba_contada eq_refl) as [H1 H2]. split; [exact H1 | exact H2].
Defined.

(** ** Pagination of the line query *)

Lemma firstn_soma {A} (l : list A) : forall a b,
  firstn (a + b) l = firstn a l ++ firstn b (skipn a l).
Proof.
  induction l as [| x l IH]; intros a b.
  - rewrite !firstn_nil, skipn_nil, firstn_nil. reflexivity.
  - destruct a as [| a]; [reflexivity |]. cbn [Nat.add firstn skipn app]. rewrite IH. reflexivity.
Qed.

Lemma pedacos_juntos {A} (l : list A) (n m : nat) :
  concat (List.map (fun k => firstn n (skipn (k * n) l)) (seq 0 m)) = firstn (m * n) l.
Proof.
  induction m as [| m IH]; [reflexivity |].
  rewrite seq_S, List.map_app, concat_app, IH. cbn [List.map concat Nat.add].
  rewrite app_nil_r. replace (S m * n)%nat with (m * n + n)%nat by lia.
  rewrite firstn_soma. reflexivity.
Qed.

Lemma teto_cobre total limit :
  0 <= total -> 1 <= limit ->
  0 <= ItemVendaConsultas.teto_da_divisao total limit /\
  total <= ItemVendaConsultas.teto_da_divisao total limit * limit /\
  (ItemVendaConsultas.teto_da_divisao total limit - 1) * limit < total.
Proof.
  intros Ht Hl. unfold ItemVendaConsultas.teto_da_divisao.
  pose proof (Z.div_mod (total + limit - 1) limit ltac:(lia)) as Hd.
  pose proof (Z.mod_pos_bound (total + limit - 1) limit ltac:(lia)) as Hm.
  split; [apply Z.div_pos; lia |]. nia.
Qed.

Lemma findAll_pagina page limit vendaId produtoId db :
  1 <= page -> 1 <= limit ->
  ItemVendaConsultas.findAll page limit vendaId produtoId db =
  let pedaco := firstn (Z.to_nat limit)
                       (skipn (Z.to_nat (page - 1) * Z.to_nat limit)
                              (ItemVendaConsultas.encontrados vendaId produtoId db)) in
  Some (mkPaginaDeItens
          (List.map (comTotal db) pedaco)
          (Z.of_nat (length (List.map (comTotal db) pedaco)))
          (fold_left (fun sum item => sum + ict_total item) (List.map (comTotal db) pedaco) 0)
          (mkPaginacao page limit
             (Z.of_nat (length (ItemVendaConsultas.encontrados vendaId produtoId db)))
             (ItemVendaConsultas.teto_da_divisao
                (Z.of_nat (length (ItemVendaConsultas.encontrados vendaId produtoId db)))
                limit))).
Proof.
  intros Hp Hl. unfold ItemVendaConsultas.findAll.
  replace (page <? 1) with false by (symmetry; apply Z.ltb_ge; lia).
  replace (limit <? 1) with false by (symmetry; apply Z.ltb_ge; lia).
  cbn [orb]. cbv zeta. rewrite Z2Nat.inj_mul by lia. reflexivity.
Qed.

Lemma soma_concat (ls : list (list Z)) :
  foldr Z.add 0 (concat ls) = foldr Z.add 0 (List.map (foldr Z.add 0) ls).
Proof.
  induction ls as [| l ls IH]; cbn [concat List.map foldr]; [reflexivity |].
  rewrite <- IH. clear IH. induction l as [| x l IH]; cbn [app foldr]; [reflexivity |].
  rewrite IH. lia.
Qed.

(** X17. Pagination of [findAll], for a limit of at least 1.  Every page
    from 1 on is answered with at most [limit] lines and announces the same
    count and the same number of pages; a page after the last one is empty;
    the pages 1 to the last, one after the other, are exactly the lines that
    the query finds, in its order; and the [valorTotal] of a page is the sum
    over that page only, so that the values of all pages add up to the sum
    over all the lines found.  This is where the arithmetic of the code is
    exact: the limit, the number of lines skipped and the count are integers
    that JavaScript holds exactly, and the lines found have integer
    quantities and prices whose totals and sums are exact
    ([linhas_exatas]). *)
Theorem findAll_paginas limit vendaId produtoId db :
  1 <= limit ->
  inteiro_seguro limit = true ->
  inteiro_seguro
    (Z.of_nat (length (ItemVendaConsultas.encontrados vendaId produtoId db))) = true ->
  linhas_exatas (ItemVendaConsultas.encontrados vendaId produtoId db) = true ->
  (forall page, 1 <= page -> inteiro_seguro ((page - 1) * limit) = true ->
     exists r,
       ItemVendaConsultas.findAll page limit vendaId produtoId db = Some r /\
       Z.of_nat (length (pi_itens r)) <= limit /\
       pi_quantidadeItens r = Z.of_nat (length (pi_itens r)) /\
       pg_total (pi_paginacao r)
       = Z.of_nat (length (ItemVendaConsultas.encontrados vendaId produtoId db)) /\
       pg_totalPages (pi_paginacao r)
       = Z.of_nat (numero_de_paginas limit vendaId produtoId db) /\
       (Z.of_nat (numero_de_paginas limit vendaId produtoId db) < page -> pi_itens r = [])) /\
  concat (List.map (itens_da_pagina limit vendaId produtoId db)
                   (seq 1 (numero_de_paginas limit vendaId produtoId db)))
  = List.map (comTotal db) (ItemVendaConsultas.encontrados vendaId produtoId db) /\
  foldr Z.add 0 (List.map (valor_da_pagina limit vendaId produtoId db)
                          (seq 1 (numero_de_paginas limit vendaId produtoId db)))
  = foldr Z.add 0 (List.map (fun i => i_quantidade i * i_precoUnit i)
                            (ItemVendaConsultas.encontrados vendaId produtoId db)).
Proof.
  intros Hl _ _ _. set (enc := ItemVendaConsultas.encontrados vendaId produtoId db).
  destruct (teto_cobre (Z.of_nat (length enc)) limit ltac:(lia) Hl) as (Ht0 & Ht1 & Ht2).
  assert (Hn : Z.of_nat (numero_de_paginas limit vendaId produtoId db)
               = ItemVendaConsultas.teto_da_divisao (Z.of_nat (length enc)) limit)
    by (unfold numero_de_paginas; fold enc; lia).
  assert (Hpag : forall k, (1 <= k)%nat ->
            itens_da_pagina limit vendaId produtoId db k
            = List.map (comTotal db)
                (firstn (Z.to_nat limit) (skipn ((k - 1) * Z.to_nat limit) enc))).
  { intros k Hk. unfold itens_da_pagina. rewrite findAll_pagina by lia. cbv zeta.
    cbn [pi_itens]. fold enc. do 3 f_equal. lia. }
  assert (Hval : forall k, (1 <= k)%nat ->
            valor_da_pagina limit vendaId produtoId db k
            = foldr Z.add 0 (List.map ict_total (itens_da_pagina limit vendaId produtoId db k))).
  { intros k Hk. unfold valor_da_pagina, itens_da_pagina. rewrite findAll_pagina by lia.
    cbv zeta. cbn [pi_itens pi_valorTotal]. rewrite (fold_left_soma ict_total). lia. }
  assert (Hcat : concat (List.map (itens_da_pagina limit vendaId produtoId db)
                                  (seq 1 (numero_de_paginas limit vendaId produtoId db)))
                 = List.map (comTotal db) enc).
  { rewrite <- seq_shift, List.map_map.
    rewrite (List.map_ext_in _
               (fun k => List.map (comTotal db)
                           (firstn (Z.to_nat limit) (skipn (k * Z.to_nat limit) enc)))).
    2: { intros k _. rewrite Hpag by lia. do 3 f_equal. lia. }
    rewrite <- (List.map_map (fun k => firstn (Z.to_nat limit) (skipn (k * Z.to_nat limit) enc))
                             (List.map (comTotal db))).
    rewrite <- List.concat_map, pedacos_juntos. f_equal. apply firstn_all2. nia. }
  split; [| split].
  - intros page Hp _. rewrite findAll_pagina by lia. cbv zeta. eexists. split; [reflexivity |].
    cbn [pi_itens pi_quantidadeItens pi_paginacao pg_total pg_totalPages]. fold enc.
    split; [| split; [reflexivity | split; [reflexivity | split; [symmetry; exact Hn |]]]].
    + rewrite List.length_map, List.length_firstn. lia.
    + intros Hlast. rewrite skipn_all2; [rewrite firstn_nil; reflexivity |]. nia.
  - exact Hcat.
  - rewrite (List.map_ext_in _
               (fun k => foldr Z.add 0
                           (List.map ict_total (itens_da_pagina limit vendaId produtoId db k)))).
    2: { intros k Hk. apply in_seq in Hk. apply Hval. lia. }
    rewrite <- (List.map_map (itens_da_pagina limit vendaId produtoId db)
                             (fun l => foldr Z.add 0 (List.map ict_total l))).
    rewrite <- (List.map_map (List.map ict_total) (foldr Z.add 0)).
    rewrite <- soma_concat, <- List.concat_map, Hcat, List.map_map. reflexivity.
Qed.

Lemma findAll_paginas_witness :
  numero_de_paginas 3 None None loja = 2%nat /\
  List.map (fun x => i_id (ict_item x)) (itens_da_pagina 3 None None loja 1) = [4; 3; 2] /\
  List.map (fun x => i_id (ict_item x)) (itens_da_pagina 3 None None loja 2) = [1] /\
  valor_da_pagina 3 None None loja 1 = 17000 /\
  valor_da_pagina 3 None None loja 2 = 3000 /\
  concat (List.map (itens_da_pagina 3 None None loja) (seq 1 2))
  = List.map (comTotal loja) (ItemVendaConsultas.encontrados None None loja).
Proof.
  destruct (findAll_paginas 3 None None loja ltac:(lia) eq_refl eq_refl eq_refl)
    as (_ & H & _).
  repeat (split; [vm_compute; reflexivity |]). exact H.
Defined.

(** ** Conservation of stock *)

Lemma soma_quantidades_app l1 l2 pid :
  soma_quantidades (l1 ++ l2) pid = soma_quantidades l1 pid + soma_quantidades l2 pid.
Proof.
  unfold soma_quantidades. induction l1 as [| x l1 IH]; cbn [app fold_right]; [lia |].
  rewrite IH. lia.
Qed.

Lemma vendido_em_separa c l id pid :
  vendido_em c l pid =
  (if c id then soma_quantidades (List.filter (fun i => i_vendaId i =? id) l) pid else 0)
  + vendido_em c (List.filter (fun i => negb (i_vendaId i =? id)) l) pid.
Proof.
  unfold vendido_em. induction l as [| x l IH]; cbn [List.filter].
  - unfold soma_quantidades. cbn [fold_right]. destruct (c id); reflexivity.
  - destruct (i_vendaId x =? id) eqn:Hx; cbn [negb].
    + apply Z.eqb_eq in Hx. rewrite Hx. destruct (c id).
      * unfold soma_quantidades in *. cbn [fold_right]. rewrite IH. lia.
      * exact IH.
    + cbn [List.filter]. destruct (c (i_vendaId x)); [| exact IH].
      unfold soma_quantidades in *. cbn [fold_right]. rewrite IH.
      destruct (c id); lia.
Qed.

Lemma vendido_em_igual c c' l pid :
  Forall (fun i => c (i_vendaId i) = c' (i_vendaId i)) l ->
  vendido_em c l pid = vendido_em c' l pid.
Proof.
  unfold vendido_em. intros H. f_equal. induction H as [| x l Hx Hl IH]; [reflexivity |].
  cbn [List.filter]. rewrite Hx, IH. reflexivity.
Qed.

(** The lines of the other sales, and the status of the other sales, decide
    what is sold apart from the sale [id]. *)
Lemma resto_igual db db' id pid :
  List.filter (fun i => negb (i_vendaId i =? id)) (itens db')
  = List.filter (fun i => negb (i_vendaId i =? id)) (itens db) ->
  (forall k, k <> id -> concluida db' k = concluida db k) ->
  vendido_em (concluida db') (List.filter (fun i => negb (i_vendaId i =? id)) (itens db')) pid
  = vendido_em (concluida db) (List.filter (fun i => negb (i_vendaId i =? id)) (itens db)) pid.
Proof.
  intros -> Hc. apply vendido_em_igual. apply Forall_forall. intros i Hin.
  apply list_elem_of_In, List.filter_In in Hin. destruct Hin as [_ Hne].
  apply negb_true_iff, Z.eqb_neq in Hne. apply Hc. exact Hne.
Qed.

(** What a call on the sale [id] must do for [contabil] to stay: move the
    stock by what the sale stops to count minus what it starts to count. *)
Lemma contabil_venda db db' id pid x :
  List.filter (fun i => negb (i_vendaId i =? id)) (itens db')
  = List.filter (fun i => negb (i_vendaId i =? id)) (itens db) ->
  (forall k, k <> id -> concluida db' k = concluida db k) ->
  (forall p, produtos db !! pid = Some p -> p_tipo p = "Produto" ->
     produtos db' !! pid
     = Some (mexer ((if concluida db id
                     then soma_quantidades (itens_da_venda db id) pid else 0)
                    - (if concluida db' id
                       then soma_quantidades (itens_da_venda db' id) pid else 0)) p)) ->
  contabil db pid = Some x -> contabil db' pid = Some x.
Proof.
  intros Hl Hc Hp. unfold contabil.
  destruct (produtos db !! pid) as [p |] eqn:Ep; [| discriminate].
  destruct (String.eqb (p_tipo p) "Produto") eqn:Et; [| discriminate].
  apply String.eqb_eq in Et. rewrite (Hp p eq_refl Et), mexer_tipo, Et.
  change (String.eqb "Produto" "Produto") with true. cbv iota.
  unfold vendido. rewrite (vendido_em_separa _ (itens db) id), (vendido_em_separa _ (itens db') id).
  rewrite (resto_igual db db' id pid Hl Hc). fold (itens_da_venda db id) (itens_da_venda db' id).
  unfold mexer, com_estoque. cbn [p_estoque].
  destruct (p_estoque p) as [e |]; [| discriminate]. cbn [fmap option_fmap option_map].
  intros [= <-]. f_equal. lia.
Qed.

Lemma concluida_alterar id f db k :
  concluida (alterar_venda id f db) k =
  if bool_decide (k = id)
  then match vendas db !! id with
       | Some v => String.eqb (v_status (f v)) "Concluida"
       | None => false
       end
  else concluida db k.
Proof.
  unfold concluida, alterar_venda. cbn [vendas]. rewrite lookup_alter.
  destruct (decide (id = k)) as [-> |].
  - rewrite bool_decide_eq_true_2 by reflexivity. destruct (vendas db !! k); reflexivity.
  - rewrite bool_decide_eq_false_2 by congruence. reflexivity.
Qed.

Lemma concluida_total_gravado vendaId db k :
  concluida (total_gravado vendaId db) k = concluida db k.
Proof.
  unfold total_gravado. rewrite concluida_alterar.
  destruct (bool_decide (k = vendaId)) eqn:Hk; [| reflexivity].
  apply bool_decide_eq_true in Hk. subst k. unfold concluida.
  destruct (vendas db !! vendaId); reflexivity.
Qed.

Lemma modificavel_nao_concluida db vendaId v :
  verificarVendaModificavel db vendaId = inr v -> concluida db vendaId = false.
Proof.
  unfold verificarVendaModificavel, concluida. destruct (vendas db !! vendaId) as [w |];
    [| discriminate].
  destruct (String.eqb (v_status w) "Concluida"); [discriminate | reflexivity].
Qed.

(** A line mutation on a sale that is not completed, which leaves the lines
    of the other sales alone. *)
Lemma contabil_linha db db' vendaId pid x :
  concluida db vendaId = false ->
  produtos db' = produtos db ->
  (forall k, concluida db' k = concluida db k) ->
  List.filter (fun i => negb (i_vendaId i =? vendaId)) (itens db')
  = List.filter (fun i => negb (i_vendaId i =? vendaId)) (itens db) ->
  contabil db pid = Some x -> contabil db' pid = Some x.
Proof.
  intros Hn Hp Hc Hl. apply (contabil_venda db db' vendaId); [exact Hl | auto |].
  intros p Ep _. rewrite Hc, Hn, Hp, Ep, Z.sub_0_r, mexer_0. reflexivity.
Qed.

Lemma buscar_item_achado db id item :
  buscar_item db id = Some item -> In item (itens db) /\ i_id item = id.
Proof.
  unfold buscar_item. intros H. apply List.find_some in H. destruct H as [H1 H2].
  apply Z.eqb_eq in H2. auto.
Qed.

Lemma id_unico l a b :
  NoDup (List.map i_id l) -> In a l -> In b l -> i_id a = i_id b -> a = b.
Proof.
  induction l as [| x l IH]; intros Hn Ha Hb E; [destruct Ha |].
  cbn [List.map] in Hn. apply NoDup_cons in Hn. destruct Hn as [Hx Hn].
  destruct Ha as [-> | Ha], Hb as [-> | Hb]; [reflexivity | | | auto].
  - exfalso. apply Hx. rewrite E. apply list_elem_of_In, in_map. exact Hb.
  - exfalso. apply Hx. rewrite <- E. apply list_elem_of_In, in_map. exact Ha.
Qed.

(** With unique ids, the lines of the other sales do not carry the id of
    the line that was found. *)
Lemma outras_vendas_outro_id db id item :
  bem_formado db -> buscar_item db id = Some item ->
  Forall (fun i => i_vendaId i <> i_vendaId item -> (i_id i =? id) = false) (itens db).
Proof.
  intros (_ & Hn & _) Hb. apply buscar_item_achado in Hb. destruct Hb as [Hin <-].
  apply Forall_forall. intros i Hi Hne. apply Z.eqb_neq. intros E. apply Hne.
  apply list_elem_of_In in Hi. rewrite (id_unico _ i item Hn Hi Hin E). reflexivity.
Qed.

Lemma contabil_criar_item corpo db pid x :
  bem_formado db -> contabil db pid = Some x ->
  contabil (snd (ItemVendaController.create corpo db)) pid = Some x.
Proof.
  intros Hb Hx.
  destruct (create_item_casos corpo db)
    as [(e & ->) | (vendaId & produtoId & q & v & p & qn & _ & _ & _ & _ & Hm & _ & ->)];
    cbn [snd]; [exact Hx |].
  apply (contabil_linha db _ vendaId); [| reflexivity | | | exact Hx].
  - apply (modificavel_nao_concluida _ _ _ Hm).
  - intros k. apply concluida_total_gravado.
  - unfold inserir_item. cbn [itens].
    change (itens (total_gravado vendaId db)) with (itens db).
    rewrite List.filter_app. cbn [List.filter i_vendaId]. rewrite Z.eqb_refl. cbn [negb].
    apply app_nil_r.
Qed.

Lemma contabil_atualizar_linha id corpo db pid x :
  bem_formado db -> contabil db pid = Some x ->
  contabil (snd (ItemVendaController.update id corpo db)) pid = Some x.
Proof.
  intros Hb Hx.
  destruct (update_item_casos id corpo db)
    as [(http & e & ->) | (itemAtual & v & _ & Hi & Hm & _ & _ & ->)];
    cbn [snd]; [exact Hx |].
  apply (contabil_linha db _ (i_vendaId itemAtual)); [| reflexivity | | | exact Hx].
  - apply (modificavel_nao_concluida _ _ _ Hm).
  - intros k. apply concluida_total_gravado.
  - unfold item_atualizado, atualizar_item. cbn [itens].
    change (itens (total_gravado (i_vendaId itemAtual) db)) with (itens db).
    pose proof (outras_vendas_outro_id db id itemAtual Hb Hi) as Ho.
    induction Ho as [| y l Hy Hl IH]; [reflexivity |]. cbn [List.map List.filter].
    destruct (i_id y =? id) eqn:Ey.
    + unfold atualizar_campos at 1. cbn [i_vendaId].
      destruct (i_vendaId y =? i_vendaId itemAtual) eqn:Ev; cbn [negb]; [exact IH |].
      apply Z.eqb_neq in Ev. specialize (Hy Ev). discriminate Hy.
    + destruct (negb (i_vendaId y =? i_vendaId itemAtual)); [f_equal |]; exact IH.
Qed.

Lemma contabil_remover_linha id db pid x :
  bem_formado db -> contabil db pid = Some x ->
  contabil (snd (ItemVendaController.remove id db)) pid = Some x.
Proof.
  intros Hb Hx.
  destruct (remove_item_casos id db) as [(http & e & ->) | (item & v & Hi & Hm & ->)];
    cbn [snd]; [exact Hx |].
  apply (contabil_linha db _ (i_vendaId item)); [| reflexivity | | | exact Hx].
  - apply (modificavel_nao_concluida _ _ _ Hm).
  - intros k. apply concluida_total_gravado.
  - unfold remover_item. cbn [itens].
    change (itens (total_gravado (i_vendaId item) db)) with (itens db).
    pose proof (outras_vendas_outro_id db id item Hb Hi) as Ho.
    induction Ho as [| y l Hy Hl IH]; [reflexivity |]. cbn [List.filter].
    destruct (i_id y =? id) eqn:Ey; cbn [negb List.filter].
    + destruct (i_vendaId y =? i_vendaId item) eqn:Ev; cbn [negb]; [exact IH |].
      apply Z.eqb_neq in Ev. specialize (Hy Ev). discriminate Hy.
    + destruct (negb (i_vendaId y =? i_vendaId item)); [f_equal |]; exact IH.
Qed.

Lemma movimentado_produto sinal l pid p :
  p_tipo p = "Produto" ->
  movimentado sinal l pid p = mexer (sinal * soma_quantidades l pid) p.
Proof.
  intros Ht. unfold movimentado. rewrite Ht. reflexivity.
Qed.

Lemma concluida_vendas a b k : vendas a = vendas b -> concluida a k = concluida b k.
Proof. unfold concluida. intros ->. reflexivity. Qed.

Lemma contabil_igual db db' pid :
  vendas db' = vendas db -> itens db' = itens db ->
  produtos db' !! pid = produtos db !! pid ->
  contabil db' pid = contabil db pid.
Proof.
  intros Hv Hi Hp. unfold contabil, vendido. rewrite Hp, Hi.
  rewrite (vendido_em_igual (concluida db') (concluida db)); [reflexivity |].
  apply Forall_forall. intros i _. apply concluida_vendas. exact Hv.
Qed.

Lemma filtro_repetido {A} (f : A -> bool) (l : list A) :
  List.filter f (List.filter f l) = List.filter f l.
Proof.
  induction l as [| x l IH]; [reflexivity |]. cbn [List.filter].
  destruct (f x) eqn:Hx; [| exact IH]. cbn [List.filter]. rewrite Hx, IH. reflexivity.
Qed.

(** A change of the status of the sale [id] from the one of [v] to [s], with
    the stock moved as the status handling moves it. *)
Lemma contabil_status db db' id v s g pid x :
  vendas db !! id = Some v ->
  itens db' = itens db ->
  vendas db' = alter g id (vendas db) ->
  v_status (g v) = s ->
  produtos db' = produtos (apos_gerenciar (v_status v) (Some s) id db) ->
  contabil db pid = Some x -> contabil db' pid = Some x.
Proof.
  intros Hv Hi Hvs Hs Hp. apply (contabil_venda db db' id).
  - rewrite Hi. reflexivity.
  - intros k Hk. unfold concluida. rewrite Hvs, lookup_alter_ne by congruence. reflexivity.
  - intros p Ep Et.
    assert (Ea : concluida db id = String.eqb (v_status v) "Concluida")
      by (unfold concluida; rewrite Hv; reflexivity).
    assert (Eb : concluida db' id = String.eqb s "Concluida").
    { unfold concluida. rewrite Hvs, lookup_alter, decide_True by reflexivity.
      rewrite Hv. cbn [fmap option_fmap option_map]. rewrite Hs. reflexivity. }
    assert (El : itens_da_venda db' id = itens_da_venda db id)
      by (unfold itens_da_venda; rewrite Hi; reflexivity).
    rewrite Ea, Eb, El, Hp. unfold apos_gerenciar.
    destruct (String.eqb_spec (v_status v) "Concluida") as [E1 | E1];
      destruct (String.eqb_spec s "Concluida") as [E2 | E2].
    + rewrite bool_decide_eq_true_2 by congruence. cbn [negb].
      rewrite Ep, Z.sub_diag, mexer_0. reflexivity.
    + rewrite bool_decide_eq_false_2 by congruence. cbn [negb].
      rewrite (bool_decide_eq_false_2 (Some s = Some "Concluida")) by congruence.
      cbn [negb andb]. rewrite estoque_apos_ajustes, Ep. cbn [fmap option_fmap option_map].
      rewrite (movimentado_produto _ _ _ _ Et). do 2 f_equal; lia.
    + rewrite bool_decide_eq_false_2 by congruence. cbn [negb].
      rewrite (bool_decide_eq_true_2 (Some s = Some "Concluida")) by congruence.
      rewrite estoque_apos_ajustes, Ep. cbn [fmap option_fmap option_map].
      rewrite (movimentado_produto _ _ _ _ Et). do 2 f_equal; lia.
    + rewrite (bool_decide_eq_false_2 (Some s = Some "Concluida")) by congruence.
      cbn [negb andb]. rewrite Z.sub_diag, mexer_0.
      destruct (negb (bool_decide (Some (v_status v) = Some s))); exact Ep.
Qed.

Lemma contabil_mudar_status id status db pid x :
  bem_formado db -> contabil db pid = Some x ->
  contabil (snd (VendaController.updateStatus id status db)) pid = Some x.
Proof.
  intros Hb Hx.
  destruct (VendaController.updateStatus id status db) as [[r | http e] db'] eqn:E; cbn [snd].
  2: { rewrite (updateStatus_atomica _ _ _ _ _ _ E). exact Hx. }
  unfold VendaController.updateStatus in E.
  destruct (negb (verdadeira status) || negb (status_valido (default EmptyString status)))
    eqn:Hc; [inversion E |].
  apply orb_false_iff in Hc. destruct Hc as [Hc1 Hc2]. apply negb_false_iff in Hc1, Hc2.
  destruct status as [s |]; [| discriminate Hc1].
  change (default EmptyString (Some s)) with s in Hc2, E.
  destruct (vendas db !! id) as [v |] eqn:Hv.
  - pose proof (updateStatus_sucesso db id s v (bem_formado_integro db Hb) Hc2 Hv) as Hs.
    unfold VendaController.updateStatus in Hs.
    change (default EmptyString (Some s)) with s in Hs. rewrite Hc1, Hc2 in Hs.
    cbn [negb orb] in Hs. rewrite Hs in E. inversion E; subst.
    apply (contabil_status db _ r v s (fun w => com_status w s)); try assumption;
      try reflexivity.
    + cbn [alterar_venda itens]. apply apos_gerenciar_itens.
    + cbn [alterar_venda vendas]. rewrite apos_gerenciar_vendas. reflexivity.
  - unfold transacao, tx_bind, tx_ler, visao, lancar in E. cbn [fora pend] in E.
    rewrite Hv in E. inversion E.
Qed.

Lemma gerenciado_apos sa st id db b :
  produtos b = produtos db ->
  produtos (gerenciado sa st id db b) = produtos (apos_gerenciar sa st id db).
Proof.
  intros Hp. unfold gerenciado, apos_gerenciar.
  repeat match goal with
         | |- context [if ?c then _ else _] => destruct c
         end; try exact Hp;
    apply map_eq; intros q; rewrite estoque_apos_ajustes, (estoque_apos_ajustes_em _ db b _ _ Hp);
    reflexivity.
Qed.

Lemma gerenciado_resto sa st id db b :
  vendas (gerenciado sa st id db b) = vendas b /\ itens (gerenciado sa st id db b) = itens b.
Proof.
  unfold gerenciado.
  repeat match goal with
         | |- context [if ?c then _ else _] => destruct c
         end; try (split; reflexivity);
    match goal with
    | |- context [aplicar_ajustes ?s ?l ?d] =>
        destruct (aplicar_ajustes_resto s l d) as (-> & -> & _)
    end; split; reflexivity.
Qed.

Lemma contabil_atualizar_venda id corpo db pid x :
  bem_formado db -> verdadeira (ca_status corpo) = true -> contabil db pid = Some x ->
  contabil (snd (VendaController.update id corpo db)) pid = Some x.
Proof.
  intros Hb Hst Hx.
  destruct (verdadeira (ca_status corpo)
            && negb (status_valido (default EmptyString (ca_status corpo)))) eqn:Hc.
  { unfold VendaController.update. rewrite Hc. exact Hx. }
  destruct (vendas db !! id) as [v |] eqn:Hv.
  2: { unfold VendaController.update. rewrite Hc, Hv. exact Hx. }
  rewrite (update_sucesso db id corpo v (bem_formado_integro db Hb) Hv Hc). cbn [snd].
  destruct (ca_status corpo) as [s |] eqn:Es; [| discriminate Hst].
  destruct (gerenciado_resto (v_status v) (Some s) id db
              (alterar_venda id (VendaController.dadosAtualizacao corpo) db)) as [Gv Gi].
  apply (contabil_status db _ id v s (VendaController.dadosAtualizacao corpo));
    try assumption.
  - unfold VendaController.dadosAtualizacao. cbn [v_status]. rewrite Es, Hst. reflexivity.
  - apply gerenciado_apos. reflexivity.
Qed.

Lemma linhas_das_outras db :
  bem_formado db ->
  List.filter (fun i => negb (i_vendaId i =? proxVenda db)) (itens db) = itens db.
Proof.
  intros (Hf & _ & Hv). induction (itens db) as [| y l IH]; [reflexivity |].
  inversion Hf as [| ? ? (_ & [v Hy] & _) Hl]; subst. cbn [List.filter].
  destruct (Hv _ _ Hy) as (_ & _ & Hlt).
  replace (i_vendaId y =? proxVenda db) with false by (symmetry; apply Z.eqb_neq; lia).
  cbn [negb]. f_equal. apply IH. exact Hl.
Qed.

Lemma contabil_criar_venda agora corpo db pid x :
  bem_formado db -> contabil db pid = Some x ->
  contabil (snd (VendaController.create agora corpo db)) pid = Some x.
Proof.
  intros Hb Hx.
  destruct (VendaController.create agora corpo db) as [[id | http e] db'] eqn:E; cbn [snd].
  2: { rewrite (create_atomica _ _ _ _ _ _ E). exact Hx. }
  destruct (itens_da_venda_criada _ _ _ _ _ Hb E) as [Hl Hr].
  destruct (create_campos _ _ _ _ _ E) as (Hid & Hv & _ & Hp1 & Hp2).
  assert (Hfresca : vendas db !! id = None).
  { destruct (vendas db !! id) as [w |] eqn:Hw; [| reflexivity].
    destruct Hb as (_ & _ & Hvs). destruct (Hvs _ _ Hw) as (_ & _ & Hlt). lia. }
  apply (contabil_venda db db' id); [| | | exact Hx].
  - rewrite Hr. subst id. symmetry. apply linhas_das_outras. exact Hb.
  - intros k Hk. unfold concluida. rewrite Hv, lookup_insert_ne by congruence. reflexivity.
  - intros p Ep Et. unfold concluida at 1. rewrite Hfresca.
    unfold concluida. rewrite Hv, lookup_insert_eq, Hl.
    destruct (String.eqb (v_status (venda_criada agora corpo)) "Concluida") eqn:Es.
    + apply String.eqb_eq in Es. rewrite (Hp1 Es pid), Ep. cbn [fmap option_fmap option_map].
      rewrite (movimentado_produto _ _ _ _ Et). do 2 f_equal; lia.
    + apply String.eqb_neq in Es. rewrite (Hp2 Es), Ep, Z.sub_diag, mexer_0. reflexivity.
Qed.

Lemma contabil_remover_venda id db pid x :
  bem_formado db -> contabil db pid = Some x ->
  contabil (snd (VendaController.remove id db)) pid = Some x.
Proof.
  intros Hb Hx. destruct (vendas db !! id) as [v |] eqn:Hv.
  2: { unfold VendaController.remove. rewrite Hv. exact Hx. }
  rewrite (remove_sucesso db id v (bem_formado_integro db Hb) Hv). cbn [snd].
  set (X := if String.eqb (v_status v) "Concluida"
            then aplicar_ajustes 1 (itens_com_produto db id) db else db).
  assert (HX : vendas X = vendas db /\ itens X = itens db).
  { unfold X. destruct (String.eqb (v_status v) "Concluida"); [| auto].
    destruct (aplicar_ajustes_resto 1 (itens_com_produto db id) db) as (-> & -> & _). auto. }
  destruct HX as [HXv HXi].
  apply (contabil_venda db _ id); [| | | exact Hx].
  - cbn [remover_venda itens]. rewrite HXi. apply filtro_repetido.
  - intros k Hk. unfold concluida. cbn [remover_venda vendas].
    rewrite lookup_delete_ne by congruence. rewrite HXv. reflexivity.
  - intros p Ep Et. unfold concluida at 2. cbn [remover_venda vendas produtos].
    rewrite lookup_delete_eq. unfold concluida. rewrite Hv. unfold X.
    destruct (String.eqb (v_status v) "Concluida").
    + rewrite estoque_apos_ajustes, Ep. cbn [fmap option_fmap option_map].
      rewrite (movimentado_produto _ _ _ _ Et). do 2 f_equal; lia.
    + rewrite Ep, Z.sub_diag, mexer_0. reflexivity.
Qed.

Lemma contabil_remover_produto id db pid x :
  id <> Some pid -> contabil db pid = Some x ->
  contabil (snd (ProdutoController.remove id db)) pid = Some x.
Proof.
  intros Hne Hx. destruct id as [k |]; [| exact Hx]. unfold ProdutoController.remove.
  destruct (produtos db !! k); [| exact Hx].
  destruct (0 <? _); [exact Hx |]. cbn [snd]. rewrite <- Hx.
  apply contabil_igual; try reflexivity. cbn [remover_produto produtos].
  apply lookup_delete_ne. congruence.
Qed.

Lemma contabil_remover_cliente id db pid x :
  contabil db pid = Some x ->
  contabil (snd (ClienteController.remove id db)) pid = Some x.
Proof.
  intros Hx. destruct id as [k |]; [| exact Hx]. unfold ClienteController.remove.
  destruct (bool_decide (k ∈ clientes db)); [| exact Hx].
  destruct (0 <? _); [exact Hx |]. cbn [snd]. rewrite <- Hx.
  apply contabil_igual; reflexivity.
Qed.

Lemma atender_contabil c db pid x :
  bem_formado db -> conserva pid c = true -> contabil db pid = Some x ->
  contabil (atender c db) pid = Some x.
Proof.
  intros Hb Hc Hx. destruct c; cbn [atender conserva] in *.
  - apply contabil_criar_item; assumption.
  - apply contabil_atualizar_linha; assumption.
  - apply contabil_remover_linha; assumption.
  - apply contabil_criar_venda; assumption.
  - apply contabil_atualizar_venda; assumption.
  - apply contabil_remover_venda; assumption.
  - apply contabil_mudar_status; assumption.
  - apply contabil_remover_produto; [| assumption].
    destruct id as [k |]; [| discriminate]. apply negb_true_iff, Z.eqb_neq in Hc. congruence.
  - apply contabil_remover_cliente; assumption.
Qed.

(** X18. Conservation of stock.  For a Product-kind entry that keeps a stock
    count, the stock on hand plus the quantity on the lines of the completed
    sales is the same after any sequence of calls of [Chamada], on a
    well-formed database, as long as the calls neither delete that entry nor
    are a [VendaController.update] without a status.  The body of an update
    of a sale holds no key besides [data], [status] and [observacoes]. *)
Theorem estoque_mais_vendido_conservado (cs : list Chamada) (db : Banco) (pid x : Z) :
  bem_formado db ->
  Forall (fun c => conserva pid c = true) cs ->
  contabil db pid = Some x ->
  contabil (fold_left (fun d c => atender c d) cs db) pid = Some x.
Proof.
  revert db. induction cs as [| c cs IH]; intros db Hb Hcs Hx; cbn [fold_left]; [exact Hx |].
  inversion Hcs as [| ? ? Hc Hr]; subst. apply IH.
  - apply atender_bem_formado. exact Hb.
  - exact Hr.
  - apply atender_contabil; assumption.
Qed.

Lemma estoque_mais_vendido_conservado_witness :
  contabil loja 2 = Some 3 /\
  contabil
    (fold_left (fun d c => atender c d)
               [CriarVenda 0 pedido_dobrado; MudarStatus 2 (Some "Cancelada");
                CriarItem (mkCorpoItem (Some 1) (Some 2) (Some 1) None);
                MudarStatus 3 (Some "Concluida"); RemoverVenda 4]
               loja) 2 = Some 3.
Proof.
  split; [reflexivity |].
  apply estoque_mais_vendido_conservado;
    [exact loja_bem_formada | repeat constructor | reflexivity].
Defined.

(** ** Round trips of the line mutations *)

Lemma buscar_no_fim l novo id :
  Forall (fun i => i_id i <> id) l -> i_id novo = id ->
  List.find (fun i => i_id i =? id) (l ++ [novo]) = Some novo.
Proof.
  intros Hl Hn. induction Hl as [| y l Hy Hl IH]; cbn [app List.find].
  - rewrite Hn, Z.eqb_refl. reflexivity.
  - apply Z.eqb_neq in Hy. rewrite Hy. exact IH.
Qed.

Lemma buscar_atualizado l id q pu pid :
  List.find (fun i => i_id i =? id)
            (List.map (fun i => if i_id i =? id then atualizar_campos q pu pid i else i) l)
  = atualizar_campos q pu pid <$> List.find (fun i => i_id i =? id) l.
Proof.
  induction l as [| y l IH]; cbn [List.map List.find]; [reflexivity |].
  destruct (i_id y =? id) eqn:Ey.
  - unfold atualizar_campos at 1. cbn [i_id]. rewrite Ey. reflexivity.
  - rewrite Ey. exact IH.
Qed.

Lemma buscar_removido l id :
  List.find (fun i => i_id i =? id) (List.filter (fun i => negb (i_id i =? id)) l) = None.
Proof.
  induction l as [| y l IH]; cbn [List.filter]; [reflexivity |].
  destruct (i_id y =? id) eqn:Ey; cbn [negb]; [exact IH |].
  cbn [List.find]. rewrite Ey. exact IH.
Qed.

(** X19. Round trips of the line mutations with [findOne].  On a
    well-formed database, the line that [create] answers is the line that
    [findOne] then reads under its id, with the catalog entry and
    [quantidade * precoUnit] as its total; the line that [update] answers is
    the line that [findOne] then reads; and after [remove] the id is no
    longer found.  For [create] and [update] the numbers of the body are
    integers that JavaScript holds exactly, and so are the quantity, the
    price and the total of the line ([linhas_exatas]), so that the product
    is not rounded. *)
Theorem linha_gravada_e_consultada db :
  bem_formado db ->
  (forall corpo item db',
     corpo_seguro corpo = true ->
     ItemVendaController.create corpo db = (Sucesso item, db') ->
     linhas_exatas [item] = true ->
     ItemVendaConsultas.findOne (i_id item) db'
     = Sucesso (mkItemComTotal item (produtos db !! i_produtoId item)
                               (i_quantidade item * i_precoUnit item))) /\
  (forall id corpo item db',
     corpo_seguro corpo = true ->
     ItemVendaController.update id corpo db = (Sucesso item, db') ->
     linhas_exatas [item] = true ->
     ItemVendaConsultas.findOne id db'
     = Sucesso (mkItemComTotal item (produtos db !! i_produtoId item)
                               (i_quantidade item * i_precoUnit item))) /\
  (forall id vendaId db',
     ItemVendaController.remove id db = (Sucesso vendaId, db') ->
     ItemVendaConsultas.findOne id db' = Falha 404 ItemNaoEncontrado).
Proof.
  intros (Hf & _ & _). split; [| split].
  - intros corpo item db' _ E _.
    destruct (create_item_casos corpo db)
      as [(e & E') | (vendaId & produtoId & q & v & p & qn & _ & _ & _ & _ & _ & _ & E')];
      rewrite E' in E; [discriminate E |].
    inversion E; subst. unfold ItemVendaConsultas.findOne, buscar_item, inserir_item.
    cbn [itens i_id].
    change (itens (total_gravado vendaId db)) with (itens db).
    change (proxItem (total_gravado vendaId db)) with (proxItem db).
    rewrite (buscar_no_fim _ (mkItemVenda (proxItem db) vendaId produtoId q (preco_final corpo p))
               (proxItem db)); [reflexivity | | reflexivity].
    eapply Forall_impl; [exact Hf |]. intros i (_ & _ & Hlt). lia.
  - intros id corpo item db' _ E _.
    destruct (update_item_casos id corpo db)
      as [(http & e & E') | (itemAtual & v & _ & Hi & _ & _ & _ & E')];
      rewrite E' in E; [discriminate E |].
    inversion E; subst. unfold ItemVendaConsultas.findOne, buscar_item, item_atualizado.
    unfold atualizar_item. cbn [itens].
    change (itens (total_gravado (i_vendaId itemAtual) db)) with (itens db).
    rewrite buscar_atualizado. unfold buscar_item in Hi. rewrite Hi. reflexivity.
  - intros id vendaId db' E.
    destruct (remove_item_casos id db) as [(http & e & E') | (item & v & _ & _ & E')];
      rewrite E' in E; [discriminate E |].
    inversion E; subst. unfold ItemVendaConsultas.findOne, buscar_item, remover_item.
    cbn [itens].
    change (itens (total_gravado (i_vendaId item) db)) with (itens db).
    rewrite buscar_removido. reflexivity.
Qed.

Lemma linha_gravada_e_consultada_witness :
  exists db',
    ItemVendaController.create (mkCorpoItem (Some 1) (Some 2) (Some 1) None) loja
    = (Sucesso (mkItemVenda 5 1 2 1 2000), db') /\
    ItemVendaConsultas.findOne 5 db'
    = Sucesso (mkItemComTotal (mkItemVenda 5 1 2 1 2000) (Some lanche) 2000).
Proof.
  exists (snd (ItemVendaController.create (mkCorpoItem (Some 1) (Some 2) (Some 1) None) loja)).
  assert (E : ItemVendaController.create (mkCorpoItem (Some 1) (Some 2) (Some 1) None) loja
              = (Sucesso (mkItemVenda 5 1 2 1 2000),
                 snd (ItemVendaController.create
                        (mkCorpoItem (Some 1) (Some 2) (Some 1) None) loja)))
    by (vm_compute; reflexivity).
  split; [exact E |].
  destruct (linha_gravada_e_consultada loja loja_bem_formada) as (Hc & _ & _).
  exact (Hc (mkCorpoItem (Some 1) (Some 2) (Some 1) None) _ _ eq_refl E eq_refl).
Defined.

(** ** Requests that the creation of a line accepts *)

Lemma validar_linha_nova corpo :
  validarItemVenda corpo false = [] <->
  verdadeiro (ci_vendaId corpo) = true /\ verdadeiro (ci_produtoId corpo) = true /\
  (forall q, ci_quantidade corpo = Some q -> 0 < q) /\
  (forall pu, ci_precoUnit corpo = Some pu -> 0 <= pu).
Proof.
  unfold validarItemVenda. split.
  - intros H. apply app_eq_nil in H. destruct H as [H1 H2].
    apply app_eq_nil in H1. destruct H1 as [Ha Hb].
    apply app_eq_nil in H2. destruct H2 as [Hc Hd].
    destruct (verdadeiro (ci_vendaId corpo)); [| discriminate Ha].
    destruct (verdadeiro (ci_produtoId corpo)); [| discriminate Hb].
    split; [reflexivity |]. split; [reflexivity |]. split.
    + intros q Hq. rewrite Hq in Hc. destruct (Z.leb_spec q 0); [discriminate Hc | lia].
    + intros pu Hpu. rewrite Hpu in Hd. destruct (Z.ltb_spec pu 0); [discriminate Hd | lia].
  - intros (H1 & H2 & H3 & H4). rewrite H1, H2. cbn [app].
    destruct (ci_quantidade corpo) as [q |].
    + specialize (H3 q eq_refl). destruct (Z.leb_spec q 0); [lia |].
      destruct (ci_precoUnit corpo) as [pu |]; [| reflexivity].
      specialize (H4 pu eq_refl). destruct (Z.ltb_spec pu 0); [lia | reflexivity].
    + destruct (ci_precoUnit corpo) as [pu |]; [| reflexivity].
      specialize (H4 pu eq_refl). destruct (Z.ltb_spec pu 0); [lia | reflexivity].
Qed.

Lemma modificavel_exatamente db vendaId v :
  verificarVendaModificavel db vendaId = inr v <->
  vendas db !! vendaId = Some v /\ v_status v <> "Concluida" /\ v_status v <> "Cancelada".
Proof.
  unfold verificarVendaModificavel. destruct (vendas db !! vendaId) as [w |].
  - destruct (String.eqb_spec (v_status w) "Concluida") as [E1 | E1].
    { split; [discriminate | intros ([= <-] & H & _); contradiction]. }
    destruct (String.eqb_spec (v_status w) "Cancelada") as [E2 | E2].
    { split; [discriminate | intros ([= <-] & _ & H); contradiction]. }
    split; [intros [= <-]; auto | intros ([= <-] & _); reflexivity].
  - split; [discriminate | intros ([=] & _)].
Qed.

Lemma disponivel_exatamente db produtoId q :
  (exists p qn, verificarDisponibilidadeProduto db produtoId (Some q) None = inr (p, qn)) <->
  exists p, produtos db !! produtoId = Some p /\ p_status p = "Ativo" /\
            q <= estoque_num (p_estoque p).
Proof.
  unfold verificarDisponibilidadeProduto. destruct (produtos db !! produtoId) as [p |].
  2: { split; [intros (? & ? & [=]) | intros (? & [=] & _)]. }
  destruct (String.eqb_spec (p_status p) "Ativo") as [Ea | Ea]; cbn [negb].
  2: { split; [intros (? & ? & [=]) | intros (? & [= <-] & H & _); contradiction]. }
  change (verdadeiro None) with false. cbv iota.
  destruct (Z.ltb_spec (estoque_num (p_estoque p)) q).
  - split; [intros (? & ? & [=]) | intros (? & [= <-] & _ & H'); lia].
  - split; [intros _; exists p; auto | intros _; eauto].
Qed.

(** X20. [ItemVendaController.create] succeeds exactly on the requests that
    name a sale and a catalog entry by a non-zero id, give a positive
    quantity and no negative price, whose sale exists and is neither
    Concluida nor Cancelada, and whose entry exists, is active and has a
    stock (a missing stock counting as 0) of at least the quantity, whatever
    its kind.  This is for a body whose numbers are integers that JavaScript
    holds exactly ([corpo_seguro]), so that the ids and the quantity that the
    code looks up, compares and stores are those of the body. *)
Theorem criar_linha_aceita_exatamente corpo db :
  corpo_seguro corpo = true ->
  ((exists item db', ItemVendaController.create corpo db = (Sucesso item, db')) <->
   linha_nova_aceita db corpo).
Proof.
  intros _. split.
  - intros (item & db' & E).
    destruct (create_item_casos corpo db)
      as [(e & E') | (vendaId & produtoId & q & v & p & qn & Hval & Hv & Hp & Hq & Hm & Hd & _)];
      [rewrite E' in E; discriminate E |].
    apply validar_linha_nova in Hval. destruct Hval as (H1 & H2 & H3 & H4).
    apply modificavel_exatamente in Hm. destruct Hm as (Hm1 & Hm2 & Hm3).
    destruct (proj1 (disponivel_exatamente db produtoId q) (ex_intro _ p (ex_intro _ qn Hd)))
      as (p' & Hp1 & Hp2 & Hp3).
    rewrite Hv in H1. rewrite Hp in H2.
    apply verdadeiro_some in H1, H2.
    destruct H1 as (n1 & [= <-] & H1). destruct H2 as (n2 & [= <-] & H2).
    exists vendaId, produtoId, q, v, p'. repeat split; auto.
  - intros (vendaId & produtoId & q & v & p & Hv & Hv0 & Hp & Hp0 & Hq & Hq0 & Hpu & Hs & Hs1
            & Hs2 & Hp1 & Hp2 & Hp3).
    assert (Hval : validarItemVenda corpo false = []).
    { apply validar_linha_nova. rewrite Hv, Hp. repeat split.
      - apply verdadeiro_some. eauto.
      - apply verdadeiro_some. eauto.
      - intros q' Hq'. rewrite Hq in Hq'. inversion Hq'; subst. exact Hq0.
      - exact Hpu. }
    assert (Hm : verificarVendaModificavel db vendaId = inr v)
      by (apply modificavel_exatamente; auto).
    destruct (proj2 (disponivel_exatamente db produtoId q)) as (p' & qn & Hd);
      [exists p; auto |].
    pose proof (create_sucesso corpo db vendaId produtoId q v p' qn Hval Hv Hp Hq Hm Hd) as E.
    cbv zeta in E. eauto.
Qed.

Lemma criar_linha_aceita_exatamente_witness :
  linha_nova_aceita loja (mkCorpoItem (Some 1) (Some 2) (Some 1) None) /\
  ~ linha_nova_aceita loja (mkCorpoItem (Some 1) (Some 3) (Some 1) None) /\
  exists db',
    ItemVendaController.create (mkCorpoItem (Some 1) (Some 3) (Some 1) None) loja
    = (Falha 400 (EstoqueInsuficiente None 1), db').
Proof.
  split; [| split].
  - apply (proj1 (criar_linha_aceita_exatamente
                    (mkCorpoItem (Some 1) (Some 2) (Some 1) None) loja eq_refl)).
    eexists. eexists. vm_compute. reflexivity.
  - intros H.
    apply (proj2 (criar_linha_aceita_exatamente
                    (mkCorpoItem (Some 1) (Some 3) (Some 1) None) loja eq_refl)) in H.
    destruct H as (item & db' & E). vm_compute in E. discriminate E.
  - eexists. vm_compute. reflexivity.
Defined.
